(** * go-aws-v2: the DynamoDB batch retry engine and transaction coordinator

    A shallow embedding of the [godynamo] package (v2) of go-aws-v2:
    the exponential backoff of [Retries], the batch operations of
    [Queries] ([BatchWriteCreate], [BatchWriteDelete], [BatchGet]) and the
    transaction submission of [Transactions] ([TxWrite]), with the loops of
    the deprecated v1 package beside them, followed by the properties the
    specification states about them.

    Conventions of the embedding.
    - A Go [int64] is a [Z]; every arithmetic operation of the source is
      written with its 64-bit wrap-around ([wrap64]).
    - A Go pointer or interface that may be nil is an [option].
    - A Go [map] is a [gmap]; [len m] is [size m].
    - A function that can panic, or a loop that may run forever, returns a
      [go] outcome: a value, a panic, or [Spin] when the fuel given to the
      loop ran out while the loop was still running.
    - The AWS client, the marshaler and the random source are external
      collaborators: records of functions and an entropy stream. *)

From Stdlib Require Import ZArith Lia.
From stdpp Require Import base option list gmap strings pretty.

#[local] Open Scope string_scope.
#[local] Open Scope Z_scope.

(** ** Go outcomes *)

Inductive panic : Type :=
  | NilDereference          (* invalid memory address or nil pointer dereference *)
  | IndexOutOfRange         (* index out of range [i] with length n *)
  | InvalidInt63nArgument.  (* rand: invalid argument to Int63n *)

Inductive go (A : Type) : Type :=
  | Val (a : A)
  | Panic (p : panic)
  | Spin.

Arguments Val {A} a.
Arguments Panic {A} p.
Arguments Spin {A}.

(** ** 64-bit integers *)

Definition min_int64 : Z := - 2 ^ 63.
Definition max_int64 : Z := 2 ^ 63 - 1.

Definition int64 (z : Z) : Prop := min_int64 <= z <= max_int64.

Definition wrap64 (z : Z) : Z := (z + 2 ^ 63) mod 2 ^ 64 - 2 ^ 63.

(** [int64(math.Pow(2.0, float64(a)))]: [math.Pow] is exact on powers of two,
    a negative exponent gives a fraction that truncates to 0, and an exponent
    above 62 leaves the range of [int64], where Go leaves the conversion to
    the implementation; the value taken here is the one of amd64. *)
Definition pow2_int64 (a : Z) : Z :=
  if a <? 0 then 0 else if a <=? 62 then 2 ^ a else min_int64.

(** [rnd.Int63n(n)]: panics when [n <= 0]; otherwise the 63-bit draw [v] the
    source accepted, reduced modulo [n]. *)
Definition Int63n (n v : Z) : go Z :=
  if n <=? 0 then Panic InvalidInt63nArgument else Val (v mod n).

(** [time.Millisecond], in nanoseconds, the unit of [time.Duration]. *)
Definition Millisecond : Z := 1000000.

(** ** Errors (goaws/errors.go, godynamo/errors.go) *)

(** The typed errors of godynamo/errors.go.  Each embeds a [*goaws.ClientErr]
    or a [*goaws.RetryableClientError] that holds the message. *)
Inductive dynamo_error : Type :=
  | TableNotFoundError
  | NilModelError
  | ConditionCheckFailedError
  | RateLimitExceededError
  | ResourceNotFoundError
  | CollectionSizeExceededError
  | ReferenceObjectsCountError
  | ResourceInUseError
  | MaxRetriesExceededError
  | BadTxRequestError
  | TxConditonCheckFailedError
  | TxThrottledError
  | InvalidRequestTypeError
  | TxConflictError
  | TxInProgressError
  | TxItemsExceedsLimitError.

#[global] Instance dynamo_error_eq_dec : EqDecision dynamo_error.
Proof. solve_decision. Defined.

(** [types.CancellationReason]: only the fields [TxWrite] reads. *)
Record CancellationReason : Type := {
  Code : option string;
  Message : option string
}.

(** The exceptions of the AWS SDK that the package tells apart. *)
Inductive sdk_exception : Type :=
  | ProvisionedThroughputExceededException
  | ResourceNotFoundException (ErrorMessage : string)
  | ItemCollectionSizeLimitExceededException
  | RequestLimitExceeded
  | ConditionalCheckFailedException (ErrorMessage : string)
  | TransactionCanceledException (CancellationReasons : list CancellationReason)
  | TransactionConflictException
  | TransactionInProgressException
  | ResponseError (inner : bool) (HTTPStatusCode : Z)
      (* *awshttp.ResponseError; [inner] tells whether the embedded
         *smithyhttp.ResponseError is non-nil *)
  | OtherException.

(** An error value returned by the AWS client: its dynamic type and the text
    its [Error()] method yields. *)
Record sdk_error : Type := {
  exception : sdk_exception;
  text : string
}.

(** A Go [error] value as the package builds and inspects it. *)
Inductive error : Type :=
  | Sdk (e : sdk_error)
  | InternalError (msg : string)                (* *goaws.InternalError *)
  | Dynamo (k : dynamo_error) (msg : string)    (* a typed godynamo error *)
  | Errorf (prefix : string) (e : error).       (* fmt.Errorf(prefix + "%w", e) *)

Fixpoint Error (e : error) : string :=
  match e with
  | Sdk s => text s
  | InternalError msg => msg
  | Dynamo _ msg => msg
  | Errorf prefix e' => prefix +:+ Error e'
  end.

(** [goaws.NewInternalError(err)] keeps the text of [err] only. *)
Definition NewInternalError (err : error) : error := InternalError (Error err).

Definition NewTableNotFoundError (tableName : string) : error :=
  Dynamo TableNotFoundError ("table not found: " +:+ tableName).
Definition NewNilModelError : error :=
  Dynamo NilModelError "input model is nil".
Definition NewConditionCheckFailedError (msg : string) : error :=
  Dynamo ConditionCheckFailedError ("condition check failed: " +:+ msg).
Definition NewRateLimitExceededError : error :=
  Dynamo RateLimitExceededError "rate limit exceeded".
Definition NewResourceNotFoundError (resource : string) : error :=
  Dynamo ResourceNotFoundError ("resource not found: " +:+ resource).
Definition NewCollectionSizeExceededError (size : Z) : error :=
  Dynamo CollectionSizeExceededError ("collection size exceeded: " +:+ pretty size).
Definition NewReferenceObjectsCountError : error :=
  Dynamo ReferenceObjectsCountError
    "number of reference objects does not match number of queries".
Definition NewResourceInUseError (resource : string) : error :=
  Dynamo ResourceInUseError ("resource in use: " +:+ resource).
Definition NewMaxRetriesExceededError : error :=
  Dynamo MaxRetriesExceededError "max retries exceeded".
Definition NewBadTxRequestError : error :=
  Dynamo BadTxRequestError "bad transaction request".
Definition NewTxConditonCheckFailedError (msg : string) : error :=
  Dynamo TxConditonCheckFailedError ("transaction condition check failed: " +:+ msg).
Definition NewTxThrottledError : error :=
  Dynamo TxThrottledError "transaction throttled".
Definition NewInvalidRequestTypeError : error :=
  Dynamo InvalidRequestTypeError "invalid request type".
Definition NewTxConflictError : error :=
  Dynamo TxConflictError "transaction conflict".
Definition NewTxInProgressError : error :=
  Dynamo TxInProgressError "transaction in progress".
Definition NewTxItemsExceedsLimitError : error :=
  Dynamo TxItemsExceedsLimitError "transaction items exceeds limit of 25".

(** [Retryable()] of the embedded goaws error: true for the types that embed
    [*goaws.RetryableClientError]. *)
Definition dynamo_retryable (k : dynamo_error) : bool :=
  match k with
  | RateLimitExceededError | ResourceInUseError
  | TxThrottledError | TxConflictError => true
  | _ => false
  end.

(** [errors.As(err, &target)] for a target of an SDK exception type: the
    first SDK error of the chain. *)
Fixpoint as_sdk (e : error) : option sdk_error :=
  match e with
  | Sdk s => Some s
  | Errorf _ e' => as_sdk e'
  | _ => None
  end.

(** [errors.As(err, &target)] for a target of a godynamo type [k]: walks the
    chain and stops at the first error of that type. *)
Fixpoint as_dynamo (k : dynamo_error) (e : error) : bool :=
  match e with
  | Dynamo k' _ => bool_decide (k' = k)
  | Errorf _ e' => as_dynamo k e'
  | _ => false
  end.

(** [errors.As(err, &awsErr)] for [awsErr goaws.AwsError]: the first error of
    the chain that has the methods [Retryable] and [ClientError], with the
    value of its [Retryable()]. *)
Fixpoint as_AwsError (e : error) : option bool :=
  match e with
  | Sdk _ => None
  | InternalError _ => Some false
  | Dynamo k _ => Some (dynamo_retryable k)
  | Errorf _ e' => as_AwsError e'
  end.

(** ** Retries: exponential backoff *)

Record Retries : Type := {
  base : Z;
  cap : Z;
  jitter : Z;
  attempt : Z;
  elapsed : Z
}.

Record FailConfig : Type := {
  Base : Z;
  Cap : Z;
  Jitter : Z
}.

Definition NewRetries (f : FailConfig) : Retries :=
  {| base := Base f; cap := Cap f; jitter := Jitter f; attempt := 0; elapsed := 0 |}.

Definition NewFailConfig (base cap jitter : Z) : FailConfig :=
  {| Base := base; Cap := cap; Jitter := jitter |}.

Definition DefaultFailConfig : FailConfig :=
  {| Base := 50; Cap := 60000; Jitter := 250 |}.

(** What one call of [ExponentialBackoff] leaves behind: the error it returns,
    the receiver after the call, and the durations (in nanoseconds) handed to
    [time.Sleep], in order. *)
Record backoff : Type := {
  failure : option error;
  after : Retries;
  sleeps : list Z
}.

(** [(r *Retries) ExponentialBackoff()], with [v] the draw of the random
    source. *)
Definition ExponentialBackoff (r : Retries) (v : Z) : go backoff :=
  if cap r <=? elapsed r then
    Val {| failure := Some NewMaxRetriesExceededError; after := r; sleeps := [] |}
  else
    let attempt' := wrap64 (attempt r + 1) in
    match Int63n (jitter r) v with
    | Panic p => Panic p
    | Spin => Spin
    | Val jit =>
        let sleep := wrap64 (base r * pow2_int64 attempt') in
        let wait := wrap64 (sleep + jit) in
        if cap r <? wrap64 (elapsed r + wait) then
          Val {| failure := None;
                 after := {| base := base r; cap := cap r; jitter := jitter r;
                             attempt := attempt'; elapsed := cap r |};
                 sleeps := [wrap64 (wait - wrap64 (wrap64 (wait + elapsed r) - cap r))] |}
        else
          Val {| failure := None;
                 after := {| base := base r; cap := cap r; jitter := jitter r;
                             attempt := attempt'; elapsed := wrap64 (elapsed r + wait) |};
                 sleeps := [wrap64 (wait * Millisecond)] |}
    end.

(** ** Data model (godynamo/models.go) *)

#[local] Set Warnings "-register-all".

(** [types.AttributeValue]: the members [createAV] builds. *)
Inductive AttributeValue : Type :=
  | AttributeValueMemberNULL (Value : bool)
  | AttributeValueMemberB (Value : list Byte.byte)
  | AttributeValueMemberBOOL (Value : bool)
  | AttributeValueMemberBS (Value : list (list Byte.byte))
  | AttributeValueMemberL (Value : list AttributeValue)
  | AttributeValueMemberM (Value : list (string * AttributeValue))
  | AttributeValueMemberN (Value : string)
  | AttributeValueMemberNS (Value : list string)
  | AttributeValueMemberS (Value : string).

(** [map[string]types.AttributeValue]; a key may hold the nil interface. *)
Abbreviation AttributeMap := (gmap string (option AttributeValue)).

(** A Go value of type [any], by the dynamic types [createAV] switches on. *)
Inductive any : Type :=
  | AnyNil
  | AnyBytes (v : list Byte.byte)
  | AnyBool (v : bool)
  | AnyByteSlices (v : list (list Byte.byte))
  | AnyAttributeValues (v : list AttributeValue)
  | AnyAttributeMap (v : list (string * AttributeValue))
  | AnyInt (v : Z)
  | AnyInts (v : list Z)
  | AnyString (v : string)
  | AnyOther (tag : string).   (* a value of any other dynamic type *)

Record Table : Type := {
  TableName : string;
  PrimaryKeyName : string;
  PrimaryKeyType : string;
  SortKeyName : string;
  SortKeyType : string
}.

Record Query : Type := {
  PrimaryValue : any;
  SortValue : any;
  UpdateFieldName : string;
  UpdateExprKey : string;
  UpdateValue : any
}.

Definition CreateNewQueryObj (pval sval : any) : Query :=
  {| PrimaryValue := pval; SortValue := sval; UpdateFieldName := "";
     UpdateExprKey := ""; UpdateValue := AnyNil |}.

(** [createAV]; [None] is the nil interface of its last line. *)
Definition createAV (val : any) : option AttributeValue :=
  match val with
  | AnyNil => Some (AttributeValueMemberNULL true)
  | AnyBytes v => Some (AttributeValueMemberB v)
  | AnyBool v => Some (AttributeValueMemberBOOL v)
  | AnyByteSlices v => Some (AttributeValueMemberBS v)
  | AnyAttributeValues v => Some (AttributeValueMemberL v)
  | AnyAttributeMap v => Some (AttributeValueMemberM v)
  | AnyInt v => Some (AttributeValueMemberN (pretty v))
  | AnyInts v => Some (AttributeValueMemberNS (pretty <$> v))
  | AnyString v => Some (AttributeValueMemberS v)
  | AnyOther _ => None
  end.

(** [keyMaker(q *Query, t *Table)]: either pointer may be nil. *)
Definition keyMaker (q : option Query) (t : option Table) : go AttributeMap :=
  match q, t with
  | Some q, Some t =>
      let keys : AttributeMap := <[PrimaryKeyName t := createAV (PrimaryValue q)]> ∅ in
      if bool_decide (SortKeyName t = "") then Val keys
      else Val (<[SortKeyName t := createAV (SortValue q)]> keys)
  | _, _ => Panic NilDereference
  end.

(** The wrapper of the SDK's [expression.Expression], by what its accessors
    return. *)
Module Expression.
Record t : Type := {
  Condition : option string;
  Filter : option string;
  KeyCondition : option string;
  Names : gmap string string;
  Projection : option string;
  Update : option string;
  Values : AttributeMap
}.
End Expression.

Definition NewExpression : Expression.t :=
  {| Expression.Condition := None; Expression.Filter := None;
     Expression.KeyCondition := None; Expression.Names := ∅;
     Expression.Projection := None; Expression.Update := None;
     Expression.Values := ∅ |}.

Record TransactionItem : Type := {
  Name : string;
  request : string;     (* C,R,U,D, CC (condition check) *)
  Item : any;
  TxTable : option Table;
  TxQuery : option Query;
  Expr : Expression.t
}.

Definition GetRequest (t : TransactionItem) : string := request t.

Definition NewCreateTxItem (name : string) (item : any) (t : option Table)
    (q : option Query) (e : Expression.t) : TransactionItem :=
  {| Name := name; request := "C"; Item := item; TxTable := t; TxQuery := q; Expr := e |}.

Definition NewUpdateTxItem (name : string) (t : option Table)
    (q : option Query) (e : Expression.t) : TransactionItem :=
  {| Name := name; request := "U"; Item := AnyNil; TxTable := t; TxQuery := q; Expr := e |}.

Definition NewReadTxItem (name : string) (t : option Table)
    (q : option Query) (e : Expression.t) : TransactionItem :=
  {| Name := name; request := "R"; Item := AnyNil; TxTable := t; TxQuery := q; Expr := e |}.

Definition NewDeleteTxItem (name : string) (t : option Table)
    (q : option Query) (e : Expression.t) : TransactionItem :=
  {| Name := name; request := "D"; Item := AnyNil; TxTable := t; TxQuery := q; Expr := e |}.

Definition NewConditionCheckTxItem (name : string) (t : option Table)
    (q : option Query) (e : Expression.t) : TransactionItem :=
  {| Name := name; request := "CC"; Item := AnyNil; TxTable := t; TxQuery := q; Expr := e |}.

(** ** The SDK types the package exchanges with the client *)

Inductive WriteRequest : Type :=
  | PutRequest (Item : AttributeMap)
  | DeleteRequest (Key : AttributeMap).

Record BatchWriteItemInput : Type := {
  RequestItems : gmap string (list WriteRequest)
}.

Record BatchWriteItemOutput : Type := {
  UnprocessedItems : gmap string (list WriteRequest)
}.

Record KeysAndAttributes : Type := {
  Keys : list AttributeMap
}.

Record BatchGetItemInput : Type := {
  RequestKeys : gmap string KeysAndAttributes   (* RequestItems *)
}.

Record BatchGetItemOutput : Type := {
  Responses : gmap string (list AttributeMap);
  UnprocessedKeys : gmap string KeysAndAttributes
}.

Inductive TransactWriteItem : Type :=
  | Put (Item : AttributeMap) (ConditionExpression : option string)
      (ExpressionAttributeNames : gmap string string)
      (ExpressionAttributeValues : AttributeMap) (TableName : string)
  | Update (ConditionExpression : option string)
      (ExpressionAttributeNames : gmap string string)
      (ExpressionAttributeValues : AttributeMap) (TableName : string)
      (Key : AttributeMap) (UpdateExpression : option string)
  | Delete (ConditionExpression : option string)
      (ExpressionAttributeNames : gmap string string)
      (ExpressionAttributeValues : AttributeMap) (TableName : string)
      (Key : AttributeMap)
  | ConditionCheck (ConditionExpression : option string)
      (ExpressionAttributeNames : gmap string string)
      (ExpressionAttributeValues : AttributeMap) (TableName : string)
      (Key : AttributeMap).

Record TransactWriteItemsInput : Type := {
  ClientRequestToken : option string;
  TransactItems : list TransactWriteItem
}.

(** What a client call returns: the output pointer and the error. *)
Abbreviation response A := (option A * option sdk_error)%type.

(** [DynamoDBQueriesClientAPI], the batch methods.  A client may answer
    differently from one call to the next: each method also receives the
    number of calls the client has served before. *)
Record DynamoDBQueriesClientAPI : Type := {
  BatchWriteItem : nat -> BatchWriteItemInput -> response BatchWriteItemOutput;
  BatchGetItem : nat -> BatchGetItemInput -> response BatchGetItemOutput
}.

(** [DynamoDBTransactionsClientAPI]; the output carries nothing the package
    reads. *)
Record DynamoDBTransactionsClientAPI : Type := {
  TransactWriteItems : nat -> TransactWriteItemsInput -> response unit
}.

(** The package [attributevalue] of the SDK. *)
Record attributevalue : Type := {
  MarshalMap : any -> AttributeMap + sdk_error;
  UnmarshalMap : AttributeMap -> any -> any + sdk_error
}.

(** ** The world outside one call *)

(** What an operation leaves in the world: the calls it made to the client,
    the calls it made to [ExponentialBackoff], and the durations handed to
    [time.Sleep]. *)
Record world : Type := {
  calls : nat;
  backoffs : nat;
  slept : list Z
}.

Definition world0 : world := {| calls := 0; backoffs := 0; slept := [] |}.

Definition called (w : world) : world :=
  {| calls := S (calls w); backoffs := backoffs w; slept := slept w |}.

Definition backed_off (ds : list Z) (w : world) : world :=
  {| calls := calls w; backoffs := S (backoffs w); slept := slept w ++ ds |}.

Record Queries : Type := {
  svc : DynamoDBQueriesClientAPI;
  tables : gmap string (option Table);
  fc : FailConfig
}.

Definition NewQueries (svc : DynamoDBQueriesClientAPI)
    (tables : gmap string (option Table)) (fc : option FailConfig) : Queries :=
  {| svc := svc; tables := tables; fc := default DefaultFailConfig fc |}.

Record Transactions : Type := {
  txsvc : DynamoDBTransactionsClientAPI;
  txfc : FailConfig
}.

Definition NewTransactions (svc : DynamoDBTransactionsClientAPI)
    (fc : option FailConfig) : Transactions :=
  {| txsvc := svc; txfc := default DefaultFailConfig fc |}.

(** ** Operations (godynamo/queries.go, godynamo/transactions.go) *)

(** How one turn of a loop body ends: the loop goes on with a new state, or
    the function returns. *)
Inductive step (S R : Type) : Type :=
  | Again (s : S)
  | Done (r : R).

Arguments Again {S R} s.
Arguments Done {S R} r.

(** A value or the error returned in its place. *)
Abbreviation result A := (A + error)%type.

(** [handleErr]: classifies an error of the client. *)
Definition handleErr (err : option error) : option error :=
  match err with
  | None => None
  | Some e =>
      Some match exception <$> as_sdk e with
           | Some ProvisionedThroughputExceededException => NewRateLimitExceededError
           | Some (ResourceNotFoundException m) => NewResourceNotFoundError m
           | Some ItemCollectionSizeLimitExceededException => NewCollectionSizeExceededError 0
           | Some RequestLimitExceeded => NewRateLimitExceededError
           | Some (ConditionalCheckFailedException m) => NewConditionCheckFailedError m
           | _ => NewInternalError e
           end
  end.

(** [(q *Queries) batchWriteUtil]: one call of the client; on an error the
    result returned is nil. *)
Definition batchWriteUtil (q : Queries) (input : BatchWriteItemInput) (w : world)
    : (option BatchWriteItemOutput * option error) * world :=
  let '(result, err) := BatchWriteItem (svc q) (calls w) input in
  match err with
  | Some e => ((None, handleErr (Some (Errorf "q.svc.BatchWriteItem: " (Sdk e)))), called w)
  | None => ((result, None), called w)
  end.

(** [(q *Queries) batchGetUtil]. *)
Definition batchGetUtil (q : Queries) (input : BatchGetItemInput) (w : world)
    : (option BatchGetItemOutput * option error) * world :=
  let '(result, err) := BatchGetItem (svc q) (calls w) input in
  match err with
  | Some e => ((None, handleErr (Some (Errorf "q.svc.BatchGetItem: " (Sdk e)))), called w)
  | None => ((result, None), called w)
  end.

Section Operations.

(** The marshaler of the SDK and the draws of the random source, one for
    each call of [ExponentialBackoff]. *)
Variable av : attributevalue.
Variable entropy : nat -> Z.

(** [marshalMap]. *)
Definition marshalMap (input : any) : result AttributeMap :=
  match MarshalMap av input with
  | inl m => inl m
  | inr e => inr (NewInternalError (Errorf "attributevalue.MarshalMap: " (Sdk e)))
  end.

(** The error switch at the head of the three batch loops:
<<
    if err != nil {
      switch {
      case errors.As(err, &throttled):
        input = &...Input{RequestItems: result.Unprocessed...}
        if err := retries.ExponentialBackoff(); err != nil {
          return fmt.Errorf("retries.ExponentialBackoff: %w", err)
        }
      case errors.As(err, &awsErr):
        if awsErr.Retryable() { ...the same two statements... }
        else { return fmt.Errorf("q.batch...Util: %w", err) }
      default:
        return goaws.NewInternalError(fmt.Errorf("q.batch...Util: %w", err))
      }
    }
>>
    [unprocessed] reads the unprocessed field of the result, [util] is the
    prefix that names the failing call.  [Again] carries the input and the
    retries with which the loop body goes on after the switch. *)
Definition onBatchError {I O : Type} (util : string) (unprocessed : O -> I)
    (result : option O) (err : option error) (input : I) (retries : Retries)
    (w : world) : go (step (I * Retries) error) * world :=
  match err with
  | None => (Val (Again (input, retries)), w)
  | Some e =>
      let retry :=
        match result with
        | None => (Panic NilDereference, w)
        | Some res =>
            match ExponentialBackoff retries (entropy (backoffs w)) with
            | Val b =>
                match failure b with
                | Some e' =>
                    (Val (Done (Errorf "retries.ExponentialBackoff: " e')),
                     backed_off (sleeps b) w)
                | None =>
                    (Val (Again (unprocessed res, after b)), backed_off (sleeps b) w)
                end
            | Panic p => (Panic p, w)
            | Spin => (Spin, w)
            end
        end in
      if as_dynamo RateLimitExceededError e then retry
      else match as_AwsError e with
           | Some true => retry
           | Some false => (Val (Done (Errorf util e)), w)
           | None => (Val (Done (NewInternalError (Errorf util e))), w)
           end
  end.

(** The retry loop of [BatchWriteCreate] and [BatchWriteDelete]; [fuel]
    bounds the number of turns. *)
Fixpoint batchWriteLoop (fuel : nat) (q : Queries) (input : BatchWriteItemInput)
    (retries : Retries) (w : world) : go (option error) * world :=
  match fuel with
  | O => (Spin, w)
  | S fuel' =>
      let '((result, err), w1) := batchWriteUtil q input w in
      match onBatchError "q.batchWriteUtil: "
              (fun res => {| RequestItems := UnprocessedItems res |})
              result err input retries w1 with
      | (Val (Done e), w2) => (Val (Some e), w2)
      | (Val (Again (input', retries')), w2) =>
          match result with
          | None => (Panic NilDereference, w2)
          | Some res =>
              if bool_decide (size (UnprocessedItems res) = 0%nat)
              then (Val None, w2)
              else batchWriteLoop fuel' q input' retries' w2
          end
      | (Panic p, w2) => (Panic p, w2)
      | (Spin, w2) => (Spin, w2)
      end
  end.

(** The loop of [BatchWriteCreate] over [items]: nil items are skipped, the
    first item that does not marshal ends the function. *)
Fixpoint putRequests (items : list any) : result (list WriteRequest) :=
  match items with
  | [] => inl []
  | AnyNil :: rest => putRequests rest
  | item :: rest =>
      match MarshalMap av item with
      | inr e => inr (NewInternalError (Errorf "attributevalue.MarshalMap: " (Sdk e)))
      | inl m =>
          match putRequests rest with
          | inr e => inr e
          | inl wrs => inl (PutRequest m :: wrs)
          end
      end
  end.

(** [(q *Queries) BatchWriteCreate]. *)
Definition BatchWriteCreate (fuel : nat) (q : Queries) (tableName : string)
    (items : list any) (w : world) : go (option error) * world :=
  if 25 <? Z.of_nat (length items) then
    (Val (Some (NewCollectionSizeExceededError (Z.of_nat (length items)))), w)
  else
    match tables q !! tableName with
    | None => (Val (Some (NewTableNotFoundError tableName)), w)
    | Some t =>
        match putRequests items with
        | inr e => (Val (Some e), w)
        | inl wrs =>
            match t with
            | None => (Panic NilDereference, w)
            | Some t =>
                let input := {| RequestItems := <[TableName t := wrs]> ∅ |} in
                batchWriteLoop fuel q input (NewRetries (fc q)) w
            end
        end
    end.

(** The loop of [BatchWriteDelete] over [queries]. *)
Fixpoint deleteRequests (queries : list (option Query)) (t : Table)
    : go (list WriteRequest) :=
  match queries with
  | [] => Val []
  | None :: rest => deleteRequests rest t
  | Some q :: rest =>
      match keyMaker (Some q) (Some t) with
      | Val key =>
          match deleteRequests rest t with
          | Val wrs => Val (DeleteRequest key :: wrs)
          | o => o
          end
      | Panic p => Panic p
      | Spin => Spin
      end
  end.

(** [(q *Queries) BatchWriteDelete]. *)
Definition BatchWriteDelete (fuel : nat) (q : Queries) (tableName : string)
    (queries : list (option Query)) (w : world) : go (option error) * world :=
  if 25 <? Z.of_nat (length queries) then
    (Val (Some (NewCollectionSizeExceededError (Z.of_nat (length queries)))), w)
  else
    match tables q !! tableName with
    | None | Some None => (Val (Some (NewTableNotFoundError tableName)), w)
    | Some (Some t) =>
        match deleteRequests queries t with
        | Val wrs =>
            let input := {| RequestItems := <[TableName t := wrs]> ∅ |} in
            batchWriteLoop fuel q input (NewRetries (fc q)) w
        | Panic p => (Panic p, w)
        | Spin => (Spin, w)
        end
    end.

(** The loop of [BatchGet] over [queries]. *)
Fixpoint getKeys (queries : list (option Query)) (t : Table)
    : go (list AttributeMap) :=
  match queries with
  | [] => Val []
  | None :: rest => getKeys rest t
  | Some q :: rest =>
      match keyMaker (Some q) (Some t) with
      | Val item =>
          match getKeys rest t with
          | Val keys => Val (item :: keys)
          | o => o
          end
      | Panic p => Panic p
      | Spin => Spin
      end
  end.

(** The loop of [BatchGet] over [result.Responses[t.TableName]], from index
    [i] on: response [i] is unmarshaled into a copy of [refObjs[i]]. *)
Fixpoint unmarshalResponses (refObjs : list any) (i : nat)
    (responses : list AttributeMap) (items : list any) : go (result (list any)) :=
  match responses with
  | [] => Val (inl items)
  | r :: rest =>
      match refObjs !! i with
      | None => Panic IndexOutOfRange
      | Some ref =>
          match UnmarshalMap av r ref with
          | inr e =>
              Val (inr (NewInternalError (Errorf "attributevalue.UnmarshalMap, " (Sdk e))))
          | inl ref' => unmarshalResponses refObjs (S i) rest (items ++ [ref'])
          end
      end
  end.

(** The retry loop of [BatchGet]. *)
Fixpoint batchGetLoop (fuel : nat) (q : Queries) (t : Table) (refObjs : list any)
    (input : BatchGetItemInput) (retries : Retries) (items : list any)
    (w : world) : go (list any * option error) * world :=
  match fuel with
  | O => (Spin, w)
  | S fuel' =>
      let '((result, err), w1) := batchGetUtil q input w in
      match onBatchError "q.batchGetUtil: "
              (fun res => {| RequestKeys := UnprocessedKeys res |})
              result err input retries w1 with
      | (Val (Done e), w2) => (Val ([], Some e), w2)
      | (Val (Again (input', retries')), w2) =>
          match result with
          | None => (Panic NilDereference, w2)
          | Some res =>
              match unmarshalResponses refObjs 0
                      (default [] (Responses res !! TableName t)) items with
              | Val (inl items') =>
                  if bool_decide (size (UnprocessedKeys res) = 0%nat)
                  then (Val (items', None), w2)
                  else batchGetLoop fuel' q t refObjs input' retries' items' w2
              | Val (inr e) => (Val ([], Some e), w2)
              | Panic p => (Panic p, w2)
              | Spin => (Spin, w2)
              end
          end
      | (Panic p, w2) => (Panic p, w2)
      | (Spin, w2) => (Spin, w2)
      end
  end.

(** [(q *Queries) BatchGet]; the parameter [expr] of the source is not
    read. *)
Definition BatchGet (fuel : nat) (q : Queries) (tableName : string)
    (queries : list (option Query)) (refObjs : list any) (expr : Expression.t)
    (w : world) : go (list any * option error) * world :=
  if 100 <? Z.of_nat (length queries) then
    (Val ([], Some (NewCollectionSizeExceededError (Z.of_nat (length queries)))), w)
  else if negb (length queries =? length refObjs)%nat then
    (Val ([], Some NewReferenceObjectsCountError), w)
  else
    match tables q !! tableName with
    | None | Some None => (Val ([], Some (NewTableNotFoundError tableName)), w)
    | Some (Some t) =>
        match getKeys queries t with
        | Val keys =>
            let input := {| RequestKeys := <[TableName t := {| Keys := keys |}]> ∅ |} in
            batchGetLoop fuel q t refObjs input (NewRetries (fc q)) [] w
        | Panic p => (Panic p, w)
        | Spin => (Spin, w)
        end
    end.

(** [newTxWriteItem]: the dispatch on the request kind of a member. *)
Definition newTxWriteItem (ti : TransactionItem) : go (result TransactWriteItem) :=
  let req := GetRequest ti in
  let e := Expr ti in
  if String.eqb req "C" then
    match marshalMap (Item ti) with
    | inr err => Val (inr (NewInternalError (Errorf "marshalMap: " err)))
    | inl m =>
        match TxTable ti with
        | None => Panic NilDereference
        | Some t =>
            Val (inl (Put m (Expression.Condition e) (Expression.Names e)
                        (Expression.Values e) (TableName t)))
        end
    end
  else if String.eqb req "U" then
    match TxTable ti with
    | None => Panic NilDereference
    | Some t =>
        match keyMaker (TxQuery ti) (Some t) with
        | Val key =>
            Val (inl (Update (Expression.Condition e) (Expression.Names e)
                        (Expression.Values e) (TableName t) key (Expression.Update e)))
        | Panic p => Panic p
        | Spin => Spin
        end
    end
  else if String.eqb req "D" then
    match TxTable ti with
    | None => Panic NilDereference
    | Some t =>
        match keyMaker (TxQuery ti) (Some t) with
        | Val key =>
            Val (inl (Delete (Expression.Condition e) (Expression.Names e)
                        (Expression.Values e) (TableName t) key))
        | Panic p => Panic p
        | Spin => Spin
        end
    end
  else if String.eqb req "CC" then
    match TxTable ti with
    | None => Panic NilDereference
    | Some t =>
        match keyMaker (TxQuery ti) (Some t) with
        | Val key =>
            Val (inl (ConditionCheck (Expression.Condition e) (Expression.Names e)
                        (Expression.Values e) (TableName t) key))
        | Panic p => Panic p
        | Spin => Spin
        end
    end
  else Val (inr NewInvalidRequestTypeError).

(** The loop of [TxWrite] that builds the members of the request; the first
    member that fails ends the function. *)
Fixpoint txWriteItems (items : list TransactionItem)
    : go (result (list TransactWriteItem)) :=
  match items with
  | [] => Val (inl [])
  | ti :: rest =>
      match newTxWriteItem ti with
      | Val (inl txItem) =>
          match txWriteItems rest with
          | Val (inl txItems) => Val (inl (txItem :: txItems))
          | o => o
          end
      | Val (inr err) => Val (inr (Errorf "newTxWriteItem: " err))
      | Panic p => Panic p
      | Spin => Spin
      end
  end.

(** The local variables of the cancellation arm of [TxWrite]. *)
Record scan : Type := {
  check : bool;        (* denotes conditional checks failed *)
  throttled : bool;    (* denotes if tx failed due to throttling *)
  msg : string;
  failed : list TransactionItem
}.

Definition ConditionalCheckFailed : string := "ConditionalCheckFailed".
Definition ThrottlingError : string := "ThrottlingError".

(** The loop of [TxWrite] over [txCanceled.CancellationReasons], from index
    [i] on. *)
Fixpoint scanReasons (items : list TransactionItem) (i : nat)
    (reasons : list CancellationReason) (s : scan) : go scan :=
  match reasons with
  | [] => Val s
  | r :: rest =>
      match Code r with
      | None => Panic NilDereference
      | Some code =>
          let s1 :=
            if String.eqb code ConditionalCheckFailed then
              match items !! i with
              | None => Panic IndexOutOfRange
              | Some ti =>
                  Val {| check := true; throttled := throttled s;
                         msg := default (msg s) (Message r);
                         failed := failed s ++ [ti] |}
              end
            else Val s in
          match s1 with
          | Val s1 =>
              let s2 :=
                if String.eqb code ThrottlingError then
                  match items !! i with
                  | None => Panic IndexOutOfRange
                  | Some ti =>
                      Val {| check := check s1; throttled := true;
                             msg := default "transaction request throttled" (Message r);
                             failed := failed s1 ++ [ti] |}
                  end
                else Val s1 in
              match s2 with
              | Val s2 => scanReasons items (S i) rest s2
              | o => o
              end
          | o => o
          end
      end
  end.

(** [(t *Transactions) TxWrite]: the failed members and the error. *)
Definition TxWrite (t : Transactions) (items : list TransactionItem)
    (requestToken : string) (w : world)
    : go (list TransactionItem * option error) * world :=
  if 25 <? Z.of_nat (length items) then
    (Val ([], Some NewTxItemsExceedsLimitError), w)
  else
    match txWriteItems items with
    | Val (inr err) => (Val ([], Some err), w)
    | Panic p => (Panic p, w)
    | Spin => (Spin, w)
    | Val (inl txItems) =>
        let txInput :=
          {| ClientRequestToken :=
               if String.eqb requestToken "" then None else Some requestToken;
             TransactItems := txItems |} in
        match snd (TransactWriteItems (txsvc t) (calls w) txInput) with
        | None => (Val ([], None), called w)
        | Some sdk =>
            let err := Sdk sdk in
            match exception sdk with
            | TransactionCanceledException reasons =>
                match scanReasons items 0 reasons
                        {| check := false; throttled := false; msg := ""; failed := [] |} with
                | Val s =>
                    if check s then
                      (Val (failed s, Some (NewTxConditonCheckFailedError (msg s))), called w)
                    else if throttled s then
                      (Val (failed s, Some NewTxThrottledError), called w)
                    else
                      (Val (failed s,
                            Some (NewInternalError (Errorf "d.svc.TransactWriteItems: " err))),
                       called w)
                | Panic p => (Panic p, called w)
                | Spin => (Spin, called w)
                end
            | TransactionConflictException => (Val ([], Some NewTxConflictError), called w)
            | TransactionInProgressException => (Val ([], Some NewTxInProgressError), called w)
            | ResponseError inner status =>
                if negb inner then
                  (Val ([], Some (NewInternalError (Errorf "s.svc.DeleteMessage: " err))),
                   called w)
                else if status =? 400 then (Val ([], Some NewBadTxRequestError), called w)
                else if status =? 404 then
                  (Val ([], Some (NewResourceNotFoundError (text sdk))), called w)
                else
                  (Val ([], Some (NewInternalError (Errorf "s.svc.DeleteMessage: " err))),
                   called w)
            | _ => (Val ([], Some (NewInternalError (Errorf "s.svc.DeleteMessage: " err))),
                    called w)
            end
        end
    end.

End Operations.

(** ** The deprecated package v1/go-dynamo/dynamo

    The batch loop of [BatchWriteCreate] and [TxWrite] of v1, on the data
    model above.  The file of v1 that holds [FailConfig] and its methods is
    not among the sources: the type and the three members the loop uses are
    variables of the section. *)
Module V1.

(** The error variables of errors.go. *)
Inductive sentinel : Type :=
  | ErrTableNotFound
  | ErrTxConditionCheckFailed
  | ErrTxConflict
  | ErrTxInProgress
  | ErrTxThrottled
  | ErrInvalidRequestType
  | ErrRateLimitExceeded
  | ErrResourceNotFound
  | ErrCollectionSizeExceeded
  | ErrReferenceObjectsCount
  | ErrResourceInUse.

#[global] Instance sentinel_eq_dec : EqDecision sentinel.
Proof. solve_decision. Defined.

Inductive error : Type :=
  | Sentinel (s : sentinel)
  | TableNotFoundErr (tableName : string)
  | ConditionCheckFailedErr (msg : string)
  | Aws (e : sdk_error)                    (* an error of the SDK *)
  | New (text : string)                    (* fmt.Errorf without an operand *)
  | Errorf (prefix : string) (e : error).  (* fmt.Errorf(prefix + "%w", e) *)

(** [errors.Is(err, target)] for one of the error variables. *)
Fixpoint Is (e : error) (target : sentinel) : bool :=
  match e with
  | Sentinel s => bool_decide (s = target)
  | Errorf _ e' => Is e' target
  | _ => false
  end.

(** [handleErr] on an error of the client, by the [Code()] of the
    [awserr.Error]. *)
Definition handleErr (e : sdk_error) : error :=
  match exception e with
  | ProvisionedThroughputExceededException => Sentinel ErrRateLimitExceeded
  | ResourceNotFoundException _ => Sentinel ErrResourceNotFound
  | ItemCollectionSizeLimitExceededException => Sentinel ErrCollectionSizeExceeded
  | RequestLimitExceeded => Sentinel ErrRateLimitExceeded
  | ConditionalCheckFailedException m => ConditionCheckFailedErr m
  | _ => Aws e
  end.

Record DynamoDB : Type := {
  svc : DynamoDBQueriesClientAPI;
  txsvc : DynamoDBTransactionsClientAPI;
  tables : gmap string (option Table)
}.

(** [(d *DynamoDB) batchWriteUtil]. *)
Definition batchWriteUtil (d : DynamoDB) (input : BatchWriteItemInput) (w : world)
    : (option BatchWriteItemOutput * option error) * world :=
  let '(result, err) := BatchWriteItem (svc d) (calls w) input in
  match err with
  | Some e => ((None, Some (Errorf "d.svc.BatchWriteItem: " (handleErr e))), called w)
  | None => ((result, None), called w)
  end.

Section Operations.

Variable av : attributevalue.

(** [FailConfig] of v1 with its method [ExponentialBackoff], its field
    [MaxRetriesReached] and its method [Reset]. *)
Variable FailConfig : Type.
Variable ExponentialBackoff : FailConfig -> FailConfig.
Variable MaxRetriesReached : FailConfig -> bool.
Variable Reset : FailConfig -> FailConfig.

(** The retry loop of [BatchWriteCreate]; the [FailConfig] of the caller is
    part of the state the loop leaves behind. *)
Fixpoint batchWriteLoop (fuel : nat) (d : DynamoDB) (input : BatchWriteItemInput)
    (fc : FailConfig) (w : world) : go (option error) * (world * FailConfig) :=
  match fuel with
  | O => (Spin, (w, fc))
  | S fuel' =>
      let '((result, err), w1) := batchWriteUtil d input w in
      let after_switch : go (step (BatchWriteItemInput * FailConfig) error) * FailConfig :=
        match err with
        | None => (Val (Again (input, fc)), fc)
        | Some e =>
            if Is e ErrRateLimitExceeded then
              match result with
              | None => (Panic NilDereference, fc)
              | Some res =>
                  let fc' := ExponentialBackoff fc in
                  if MaxRetriesReached fc'
                  then (Val (Done (Errorf "d.batchWriteUtil: " e)), fc')
                  else (Val (Again ({| RequestItems := UnprocessedItems res |}, fc')), fc')
              end
            else (Val (Done (Errorf "d.batchWriteUtil: " e)), fc)
        end in
      match after_switch with
      | (Val (Done e), fc1) => (Val (Some e), (w1, fc1))
      | (Val (Again (input', fc')), _) =>
          match result with
          | None => (Panic NilDereference, (w1, fc'))
          | Some res =>
              if bool_decide (size (UnprocessedItems res) = 0%nat)
              then (Val None, (w1, Reset fc'))
              else batchWriteLoop fuel' d input' fc' w1
          end
      | (Panic p, fc1) => (Panic p, (w1, fc1))
      | (Spin, fc1) => (Spin, (w1, fc1))
      end
  end.

(** The loop of [BatchWriteCreate] over [items]. *)
Fixpoint putRequests (items : list any) : list WriteRequest + error :=
  match items with
  | [] => inl []
  | AnyNil :: rest => putRequests rest
  | item :: rest =>
      match MarshalMap av item with
      | inr e => inr (Errorf "dynamodbattribute.MarshalMap: " (Aws e))
      | inl m =>
          match putRequests rest with
          | inr e => inr e
          | inl wrs => inl (PutRequest m :: wrs)
          end
      end
  end.

(** [(d *DynamoDB) BatchWriteCreate]. *)
Definition BatchWriteCreate (fuel : nat) (d : DynamoDB) (tableName : string)
    (fc : FailConfig) (items : list any) (w : world)
    : go (option error) * (world * FailConfig) :=
  if 25 <? Z.of_nat (length items) then
    (Val (Some (Sentinel ErrCollectionSizeExceeded)), (w, fc))
  else
    match tables d !! tableName with
    | None | Some None => (Val (Some (TableNotFoundErr tableName)), (w, fc))
    | Some (Some t) =>
        match putRequests items with
        | inr e => (Val (Some e), (w, fc))
        | inl wrs =>
            batchWriteLoop fuel d {| RequestItems := <[TableName t := wrs]> ∅ |} fc w
        end
    end.

(** [marshalMap]. *)
Definition marshalMap (input : any) : AttributeMap + error :=
  match MarshalMap av input with
  | inl m => inl m
  | inr e => inr (Errorf "dynamodbattribute.MarshalMap: " (Aws e))
  end.

(** [newTxWriteItem]. *)
Definition newTxWriteItem (ti : TransactionItem) : go (TransactWriteItem + error) :=
  let req := GetRequest ti in
  let e := Expr ti in
  if String.eqb req "C" then
    match marshalMap (Item ti) with
    | inr err => Val (inr (Errorf "marshalMap: " err))
    | inl m =>
        match TxTable ti with
        | None => Panic NilDereference
        | Some t =>
            Val (inl (Put m (Expression.Condition e) (Expression.Names e)
                        (Expression.Values e) (TableName t)))
        end
    end
  else if String.eqb req "U" then
    match TxTable ti with
    | None => Panic NilDereference
    | Some t =>
        match keyMaker (TxQuery ti) (Some t) with
        | Val key =>
            Val (inl (Update (Expression.Condition e) (Expression.Names e)
                        (Expression.Values e) (TableName t) key (Expression.Update e)))
        | Panic p => Panic p
        | Spin => Spin
        end
    end
  else if String.eqb req "D" then
    match TxTable ti with
    | None => Panic NilDereference
    | Some t =>
        match keyMaker (TxQuery ti) (Some t) with
        | Val key =>
            Val (inl (Delete (Expression.Condition e) (Expression.Names e)
                        (Expression.Values e) (TableName t) key))
        | Panic p => Panic p
        | Spin => Spin
        end
    end
  else if String.eqb req "CC" then
    match TxTable ti with
    | None => Panic NilDereference
    | Some t =>
        match keyMaker (TxQuery ti) (Some t) with
        | Val key =>
            Val (inl (ConditionCheck (Expression.Condition e) (Expression.Names e)
                        (Expression.Values e) (TableName t) key))
        | Panic p => Panic p
        | Spin => Spin
        end
    end
  else Val (inr (Sentinel ErrInvalidRequestType)).

(** The loop of [TxWrite] that builds the members of the request. *)
Fixpoint txWriteItems (items : list TransactionItem)
    : go (list TransactWriteItem + error) :=
  match items with
  | [] => Val (inl [])
  | ti :: rest =>
      match newTxWriteItem ti with
      | Val (inl txItem) =>
          match txWriteItems rest with
          | Val (inl txItems) => Val (inl (txItem :: txItems))
          | o => o
          end
      | Val (inr err) => Val (inr (Errorf "newTxWriteItem: " err))
      | Panic p => Panic p
      | Spin => Spin
      end
  end.

(** The loop of [TxWrite] over [t.CancellationReasons], from index [i] on,
    on the variables [check], [throttled] and [failed]. *)
Fixpoint scanReasons (items : list TransactionItem) (i : nat)
    (reasons : list CancellationReason) (s : bool * bool * list TransactionItem)
    : go (bool * bool * list TransactionItem) :=
  match reasons with
  | [] => Val s
  | r :: rest =>
      match Code r with
      | None => Panic NilDereference
      | Some code =>
          let '(check, throttled, failed) := s in
          let s1 :=
            if String.eqb code "ConditionalCheckFailed" then
              match items !! i with
              | None => Panic IndexOutOfRange
              | Some ti => Val (true, throttled, (failed ++ [ti])%list)
              end
            else Val s in
          match s1 with
          | Val (check1, throttled1, failed1) =>
              let s2 :=
                if String.eqb code "ThrottlingError" then
                  match items !! i with
                  | None => Panic IndexOutOfRange
                  | Some ti => Val (check1, true, (failed1 ++ [ti])%list)
                  end
                else Val (check1, throttled1, failed1) in
              match s2 with
              | Val s2 => scanReasons items (S i) rest s2
              | o => o
              end
          | o => o
          end
      end
  end.

(** [(d *DynamoDB) TxWrite]. *)
Definition TxWrite (d : DynamoDB) (items : list TransactionItem)
    (requestToken : string) (w : world)
    : go (list TransactionItem * option error) * world :=
  if 25 <? Z.of_nat (length items) then
    (Val ([], Some (New "TX_ITEMS_EXCEEDS_LIMIT")), w)
  else
    match txWriteItems items with
    | Val (inr err) => (Val ([], Some err), w)
    | Panic p => (Panic p, w)
    | Spin => (Spin, w)
    | Val (inl txItems) =>
        let txInput :=
          {| ClientRequestToken :=
               if String.eqb requestToken "" then None else Some requestToken;
             TransactItems := txItems |} in
        match snd (TransactWriteItems (txsvc d) (calls w) txInput) with
        | None => (Val ([], None), called w)
        | Some sdk =>
            match exception sdk with
            | TransactionCanceledException reasons =>
                match scanReasons items 0 reasons (false, false, []) with
                | Val (check, throttled, failed) =>
                    if check then
                      (Val (failed, Some (Sentinel ErrTxConditionCheckFailed)), called w)
                    else if throttled then
                      (Val (failed, Some (Sentinel ErrTxThrottled)), called w)
                    else
                      (Val (failed, Some (Errorf "d.svc.TransactWriteItems: " (Aws sdk))),
                       called w)
                | Panic p => (Panic p, called w)
                | Spin => (Spin, called w)
                end
            | TransactionConflictException =>
                (Val ([], Some (Sentinel ErrTxConflict)), called w)
            | TransactionInProgressException =>
                (Val ([], Some (Sentinel ErrTxInProgress)), called w)
            | _ => (Val ([], Some (Aws sdk)), called w)
            end
        end
    end.

End Operations.

End V1.

(** ** Statements about the backoff *)

(** A sequence of calls of [ExponentialBackoff] on one [Retries], one call
    for each draw: the states after each call. *)
Fixpoint backoff_calls (r : Retries) (draws : list Z) : go (list Retries) :=
  match draws with
  | [] => Val []
  | v :: draws' =>
      match ExponentialBackoff r v with
      | Val b =>
          match backoff_calls (after b) draws' with
          | Val rs => Val (after b :: rs)
          | o => o
          end
      | Panic p => Panic p
      | Spin => Spin
      end
  end.

(** The backoff step in the words of the specification: the exponent is the
    attempt before its increment, the wait is clamped at the cap, durations
    are milliseconds. *)
Definition backoff_as_specified (r : Retries) (v : Z) : Prop :=
  let jit := v mod jitter r in
  let wait := base r * 2 ^ attempt r + jit in
  exists b, ExponentialBackoff r v = Val b /\
    failure b = None /\
    attempt (after b) = attempt r + 1 /\
    if decide (cap r < elapsed r + wait)
    then elapsed (after b) = cap r /\ sleeps b = [(cap r - elapsed r) * Millisecond]
    else elapsed (after b) = elapsed r + wait /\ sleeps b = [wait * Millisecond].

(** A policy whose waits stay in the range of [int64]. *)
Definition policy_in_range (f : FailConfig) : Prop :=
  0 <= Base f /\ 0 <= Cap f /\ 0 < Jitter f /\
  2 * Cap f + 2 * Base f + Jitter f <= max_int64.

(** The states a [Retries] made by [NewRetries] goes through: the elapsed
    time is within the cap and, until the cap is reached, the next sleep is
    bounded by what has elapsed. *)
Definition retries_inv (f : FailConfig) (r : Retries) : Prop :=
  base r = Base f /\ cap r = Cap f /\ jitter r = Jitter f /\
  0 <= elapsed r <= cap r /\
  (elapsed r = cap r \/ base r = 0 \/
   (0 <= attempt r /\ base r * 2 ^ (attempt r + 1) <= elapsed r + 2 * base r)).

(** ** Statements about the batch operations *)

(** The errors of the client that [handleErr] turns into
    [RateLimitExceededError]. *)
Definition throttling (e : sdk_error) : bool :=
  match exception e with
  | ProvisionedThroughputExceededException | RequestLimitExceeded => true
  | _ => false
  end.

(** The client answers the calls [n], ..., [n + k - 1] made with [input]
    with an output that reports unprocessed items, without an error. *)
Definition write_busy (c : DynamoDBQueriesClientAPI) (input : BatchWriteItemInput)
    (n k : nat) : Prop :=
  forall i : nat, (i < k)%nat ->
    exists out : BatchWriteItemOutput,
      BatchWriteItem c (n + i) input = (Some out, None) /\ UnprocessedItems out <> ∅.

(** The same for [BatchGetItem], with responses for the table that unmarshal
    into the reference objects. *)
Definition get_busy (av : attributevalue) (c : DynamoDBQueriesClientAPI) (t : Table)
    (refObjs : list any) (input : BatchGetItemInput) (n k : nat) : Prop :=
  forall i : nat, (i < k)%nat ->
    exists (out : BatchGetItemOutput) (got : list any),
      BatchGetItem c (n + i) input = (Some out, None) /\ UnprocessedKeys out <> ∅ /\
      unmarshalResponses av refObjs 0 (default [] (Responses out !! TableName t)) [] =
        Val (inl got).

(** Between the worlds [w] and [w'] the client was called, and the last call
    returned an output, without an error, whose unprocessed set is empty. *)
Definition writes_done (c : DynamoDBQueriesClientAPI) (w w' : world) : Prop :=
  exists (input : BatchWriteItemInput) (out : BatchWriteItemOutput),
    (calls w < calls w')%nat /\
    BatchWriteItem c (pred (calls w')) input = (Some out, None) /\
    UnprocessedItems out = ∅.

Definition gets_done (c : DynamoDBQueriesClientAPI) (w w' : world) : Prop :=
  exists (input : BatchGetItemInput) (out : BatchGetItemOutput),
    (calls w < calls w')%nat /\
    BatchGetItem c (pred (calls w')) input = (Some out, None) /\
    UnprocessedKeys out = ∅.

(** What a write operation [run] (a function of the fuel of its loop) that
    sends [input] from the world [w] does once the client was busy for [k]
    calls: it is still running while the fuel lasts no longer than the busy
    calls; it returns success when the next call returns an output with no
    unprocessed item; it returns the classified error, wrapped with the name
    of the call, when the next call fails with an error that is not a
    throttling.  In each case it has made one call for each turn and nothing
    else. *)
Definition write_outcomes (run : nat -> go (option error) * world)
    (c : DynamoDBQueriesClientAPI) (input : BatchWriteItemInput) (w : world)
    (k : nat) : Prop :=
  (forall fuel : nat, (fuel <= k)%nat -> run fuel = (Spin, Nat.iter fuel called w)) /\
  (forall (fuel : nat) (out : BatchWriteItemOutput),
      (k < fuel)%nat ->
      BatchWriteItem c (calls w + k) input = (Some out, None) ->
      UnprocessedItems out = ∅ ->
      run fuel = (Val None, Nat.iter (S k) called w)) /\
  (forall (fuel : nat) (result : option BatchWriteItemOutput) (e : sdk_error),
      (k < fuel)%nat ->
      BatchWriteItem c (calls w + k) input = (result, Some e) ->
      throttling e = false ->
      exists e' : error,
        handleErr (Some (Errorf "q.svc.BatchWriteItem: " (Sdk e))) = Some e' /\
        as_AwsError e' = Some false /\
        run fuel = (Val (Some (Errorf "q.batchWriteUtil: " e')), Nat.iter (S k) called w)).

(** The same for [BatchGet]; on success it returns the items unmarshaled
    from the responses. *)
Definition get_outcomes (av : attributevalue)
    (run : nat -> go (list any * option error) * world)
    (c : DynamoDBQueriesClientAPI) (t : Table) (refObjs : list any)
    (input : BatchGetItemInput) (w : world) (k : nat) : Prop :=
  (forall fuel : nat, (fuel <= k)%nat -> run fuel = (Spin, Nat.iter fuel called w)) /\
  (forall (fuel : nat) (out : BatchGetItemOutput) (got : list any),
      (k < fuel)%nat ->
      BatchGetItem c (calls w + k) input = (Some out, None) ->
      UnprocessedKeys out = ∅ ->
      unmarshalResponses av refObjs 0 (default [] (Responses out !! TableName t)) [] =
        Val (inl got) ->
      exists items : list any,
        run fuel = (Val ((items ++ got)%list, None), Nat.iter (S k) called w)) /\
  (forall (fuel : nat) (result : option BatchGetItemOutput) (e : sdk_error),
      (k < fuel)%nat ->
      BatchGetItem c (calls w + k) input = (result, Some e) ->
      throttling e = false ->
      exists e' : error,
        handleErr (Some (Errorf "q.svc.BatchGetItem: " (Sdk e))) = Some e' /\
        as_AwsError e' = Some false /\
        run fuel = (Val ([], Some (Errorf "q.batchGetUtil: " e')), Nat.iter (S k) called w)).

(** ** Test doubles *)

(** A marshaler that accepts every value. *)
Definition plainMarshaler : attributevalue :=
  {| MarshalMap := fun _ => inl ∅; UnmarshalMap := fun _ ref => inl ref |}.

Definition testTable : Table :=
  {| TableName := "test-table"; PrimaryKeyName := "id"; PrimaryKeyType := "S";
     SortKeyName := ""; SortKeyType := "" |}.

Definition testTables : gmap string (option Table) :=
  {["test-table" := Some testTable]}.

(** A client that answers its calls from two scripts, in order, and answers
    every later call with an empty output. *)
Definition scriptedClient (writes : list (response BatchWriteItemOutput))
    (gets : list (response BatchGetItemOutput)) : DynamoDBQueriesClientAPI :=
  {| BatchWriteItem := fun n _ =>
       default (Some {| UnprocessedItems := ∅ |}, None) (writes !! n);
     BatchGetItem := fun n _ =>
       default (Some {| Responses := ∅; UnprocessedKeys := ∅ |}, None) (gets !! n) |}.

Definition scriptedTxClient (answers : list (response unit))
    : DynamoDBTransactionsClientAPI :=
  {| TransactWriteItems := fun n _ => default (Some (), None) (answers !! n) |}.

Definition throttledError : sdk_error :=
  {| exception := ProvisionedThroughputExceededException;
     text := "ProvisionedThroughputExceededException" |}.

Definition testItem : any := AnyOther "TestItem".

(** A source of entropy that always draws 0. *)
Definition noEntropy : nat -> Z := fun _ => 0.

(** ** Statements about the transactions *)

(** The reason carries the code [c]. *)
Definition has_code (c : string) (r : CancellationReason) : bool :=
  match Code r with
  | Some c' => String.eqb c' c
  | None => false
  end.

(** The members paired with a reason whose code is [ConditionalCheckFailed]
    or [ThrottlingError], member [i] with reason [i], in order. *)
Fixpoint attributed (items : list TransactionItem) (reasons : list CancellationReason)
    : list TransactionItem :=
  match items, reasons with
  | ti :: items', r :: reasons' =>
      if has_code ConditionalCheckFailed r || has_code ThrottlingError r
      then ti :: attributed items' reasons'
      else attributed items' reasons'
  | _, _ => []
  end.

(** The members paired with a reason whose code is [ConditionalCheckFailed]
    only, as the specification words the failed list of
    [TxConditionCheckFailed]. *)
Fixpoint check_failed (items : list TransactionItem) (reasons : list CancellationReason)
    : list TransactionItem :=
  match items, reasons with
  | ti :: items', r :: reasons' =>
      if has_code ConditionalCheckFailed r
      then ti :: check_failed items' reasons'
      else check_failed items' reasons'
  | _, _ => []
  end.

Definition canceled (reasons : list CancellationReason) : sdk_error :=
  {| exception := TransactionCanceledException reasons;
     text := "TransactionCanceledException" |}.

Definition reason (code : string) : CancellationReason :=
  {| Code := Some code; Message := None |}.

Definition createItem (name : string) : TransactionItem :=
  NewCreateTxItem name testItem (Some testTable) None NewExpression.

(** ** The operations on one item (godynamo/queries.go) *)

Record PutItemInput : Type := {
  PutItem_Item : AttributeMap;
  PutItem_TableName : string
}.

Record GetItemInput : Type := {
  GetItem_TableName : string;
  GetItem_Key : AttributeMap;
  GetItem_ExpressionAttributeNames : option (gmap string string);
  GetItem_ProjectionExpression : option string
}.

Record GetItemOutput : Type := {
  GetItem_Item : AttributeMap
}.

Record UpdateItemInput : Type := {
  UpdateItem_ExpressionAttributeNames : gmap string string;
  UpdateItem_ExpressionAttributeValues : AttributeMap;
  UpdateItem_TableName : string;
  UpdateItem_Key : AttributeMap;
  UpdateItem_ReturnValues : string;
  UpdateItem_UpdateExpression : option string;
  UpdateItem_ConditionExpression : option string
}.

Record DeleteItemInput : Type := {
  DeleteItem_Key : AttributeMap;
  DeleteItem_TableName : string
}.

(** [DynamoDBQueriesClientAPI], the methods on one item; as for the batch
    methods, each receives the number of calls served before. *)
Record DynamoDBItemClientAPI : Type := {
  PutItem : nat -> PutItemInput -> response unit;
  GetItem : nat -> GetItemInput -> response GetItemOutput;
  UpdateItem : nat -> UpdateItemInput -> response unit;
  DeleteItem : nat -> DeleteItemInput -> response unit
}.

Module Item.

Section Operations.

Variable av : attributevalue.

(** The client of the receiver, for the methods on one item. *)
Variable isvc : DynamoDBItemClientAPI.

(** [(q *Queries) CreateItem]. *)
Definition CreateItem (q : Queries) (item : any) (tableName : string) (w : world)
    : go (option error) * world :=
  match tables q !! tableName with
  | None | Some None => (Val (Some (NewTableNotFoundError tableName)), w)
  | Some (Some t) =>
      match MarshalMap av item with
      | inr e =>
          (Val (Some (NewInternalError (Errorf "attributevalue.MarshalMap: " (Sdk e)))), w)
      | inl m =>
          let input := {| PutItem_Item := m; PutItem_TableName := tableName |} in
          match snd (PutItem isvc (calls w) input) with
          | Some e =>
              (Val (Some (NewInternalError (Errorf "q.svc.PutItem: " (Sdk e)))), called w)
          | None => (Val None, called w)
          end
      end
  end.

(** [(q *Queries) GetItem]: the value the item pointer holds after the call,
    and the error. *)
Definition GetItem (q : Queries) (query : option Query) (tableName : string)
    (itemPtr : any) (expr : Expression.t) (w : world)
    : go (any * option error) * world :=
  match tables q !! tableName with
  | None | Some None => (Val (itemPtr, Some (NewTableNotFoundError tableName)), w)
  | Some (Some t) =>
      match keyMaker query (Some t) with
      | Panic p => (Panic p, w)
      | Spin => (Spin, w)
      | Val key =>
          let input :=
            match Expression.Projection expr with
            | Some projection =>
                {| GetItem_TableName := TableName t; GetItem_Key := key;
                   GetItem_ExpressionAttributeNames := Some (Expression.Names expr);
                   GetItem_ProjectionExpression := Some projection |}
            | None =>
                {| GetItem_TableName := TableName t; GetItem_Key := key;
                   GetItem_ExpressionAttributeNames := None;
                   GetItem_ProjectionExpression := None |}
            end in
          match GetItem isvc (calls w) input with
          | (_, Some e) =>
              (Val (itemPtr, handleErr (Some (Errorf "q.svc.GetItem: " (Sdk e)))),
               called w)
          | (None, None) => (Panic NilDereference, called w)
          | (Some result, None) =>
              match UnmarshalMap av (GetItem_Item result) itemPtr with
              | inr e =>
                  (Val (itemPtr,
                        Some (NewInternalError
                                (Errorf "attributevalue.UnmarshalMap: " (Sdk e)))),
                   called w)
              | inl item => (Val (item, None), called w)
              end
          end
      end
  end.

(** The request of [UpdateItem]: the literal, then the four assignments to
    [input.ConditionExpression], each made when its expression is not nil. *)
Definition updateItemInput (key : AttributeMap) (t : Table) (expr : Expression.t)
    : UpdateItemInput :=
  let set (e : option string) (input : UpdateItemInput) : UpdateItemInput :=
    match e with
    | Some c =>
        {| UpdateItem_ExpressionAttributeNames := UpdateItem_ExpressionAttributeNames input;
           UpdateItem_ExpressionAttributeValues :=
             UpdateItem_ExpressionAttributeValues input;
           UpdateItem_TableName := UpdateItem_TableName input;
           UpdateItem_Key := UpdateItem_Key input;
           UpdateItem_ReturnValues := UpdateItem_ReturnValues input;
           UpdateItem_UpdateExpression := UpdateItem_UpdateExpression input;
           UpdateItem_ConditionExpression := Some c |}
    | None => input
    end in
  set (Expression.Projection expr)
    (set (Expression.KeyCondition expr)
       (set (Expression.Filter expr)
          (set (Expression.Condition expr)
             {| UpdateItem_ExpressionAttributeNames := Expression.Names expr;
                UpdateItem_ExpressionAttributeValues := Expression.Values expr;
                UpdateItem_TableName := TableName t;
                UpdateItem_Key := key;
                UpdateItem_ReturnValues := "ALL_NEW";
                UpdateItem_UpdateExpression := Expression.Update expr;
                UpdateItem_ConditionExpression := None |}))).

(** [(q *Queries) UpdateItem]. *)
Definition UpdateItem (q : Queries) (query : option Query) (tableName : string)
    (expr : Expression.t) (w : world) : go (option error) * world :=
  match tables q !! tableName with
  | None => (Val (Some (NewTableNotFoundError tableName)), w)
  | Some None => (Panic NilDereference, w)
  | Some (Some t) =>
      match keyMaker query (Some t) with
      | Panic p => (Panic p, w)
      | Spin => (Spin, w)
      | Val key =>
          match snd (UpdateItem isvc (calls w) (updateItemInput key t expr)) with
          | Some e =>
              (Val (handleErr (Some (Errorf "q.svc.UpdateItem: " (Sdk e)))), called w)
          | None => (Val None, called w)
          end
      end
  end.

(** [(q *Queries) DeleteItem]; a table registered with a nil pointer is
    dereferenced by [keyMaker]. *)
Definition DeleteItem (q : Queries) (query : option Query) (tableName : string)
    (w : world) : go (option error) * world :=
  match tables q !! tableName with
  | None => (Val (Some (NewTableNotFoundError tableName)), w)
  | Some t =>
      match keyMaker query t, t with
      | Val key, Some t =>
          let input := {| DeleteItem_Key := key; DeleteItem_TableName := TableName t |} in
          match snd (DeleteItem isvc (calls w) input) with
          | Some e =>
              (Val (handleErr (Some (Errorf "q.svc.DeleteItem: " (Sdk e)))), called w)
          | None => (Val None, called w)
          end
      | Val _, None => (Panic NilDereference, w)
      | Panic p, _ => (Panic p, w)
      | Spin, _ => (Spin, w)
      end
  end.

End Operations.

End Item.

(** The last expression that is set, of a list in the order of the
    assignments. *)
Definition last_set (exprs : list (option string)) : option string :=
  last (omap id exprs).

(** A client of the item methods that answers every call with one error. *)
Definition failingItemClient (e : sdk_error) : DynamoDBItemClientAPI :=
  {| PutItem := fun _ _ => (None, Some e);
     GetItem := fun _ _ => (None, Some e);
     UpdateItem := fun _ _ => (None, Some e);
     DeleteItem := fun _ _ => (None, Some e) |}.

(** The client serves the table [name] and no other: a write addressed to
    [name] is accepted, a write addressed elsewhere gets the error [e]. *)
Definition serves (name : string) (e : sdk_error) (c : DynamoDBItemClientAPI) : Prop :=
  (forall n input,
      snd (PutItem c n input) =
        if String.eqb (PutItem_TableName input) name then None else Some e) /\
  (forall n input,
      snd (UpdateItem c n input) =
        if String.eqb (UpdateItem_TableName input) name then None else Some e) /\
  (forall n input,
      snd (DeleteItem c n input) =
        if String.eqb (DeleteItem_TableName input) name then None else Some e).

(** A client that holds one table, [name], with one item, [stored]. *)
Definition tableClient (name : string) (stored : AttributeMap) (e : sdk_error)
    : DynamoDBItemClientAPI :=
  {| PutItem := fun _ input =>
       if String.eqb (PutItem_TableName input) name then (Some tt, None)
       else (None, Some e);
     GetItem := fun _ input =>
       if String.eqb (GetItem_TableName input) name
       then (Some {| GetItem_Item := stored |}, None)
       else (None, Some e);
     UpdateItem := fun _ input =>
       if String.eqb (UpdateItem_TableName input) name then (Some tt, None)
       else (None, Some e);
     DeleteItem := fun _ input =>
       if String.eqb (DeleteItem_TableName input) name then (Some tt, None)
       else (None, Some e) |}.

(** ** Statements about further behaviour *)

(** A sequence of calls of [ExponentialBackoff] on one [Retries]: what each
    call leaves behind. *)
Fixpoint backoff_run (r : Retries) (draws : list Z) : go (list backoff) :=
  match draws with
  | [] => Val []
  | v :: draws' =>
      match ExponentialBackoff r v with
      | Val b =>
          match backoff_run (after b) draws' with
          | Val bs => Val (b :: bs)
          | o => o
          end
      | Panic p => Panic p
      | Spin => Spin
      end
  end.

(** The state after a run that started in [r]. *)
Definition final_state (r : Retries) (bs : list backoff) : Retries :=
  default r (last (after <$> bs)).

(** The nanoseconds handed to [time.Sleep] over a run. *)
Definition total_slept (bs : list backoff) : Z :=
  foldr (fun b acc => foldr Z.add 0 (sleeps b) + acc) 0 bs.

(** After [n] calls the state is at the cap, or the elapsed time is at least
    the sum of the first [n] sleeps without their jitter. *)
Definition elapsed_lower_bound (n : Z) (r : Retries) : Prop :=
  elapsed r = cap r \/
  ((base r = 0 \/ attempt r = n) /\ base r * (2 ^ (n + 1) - 2) <= elapsed r).

(** The value is the nil interface. *)
Definition is_nil (a : any) : bool :=
  match a with
  | AnyNil => true
  | _ => false
  end.

(** The items of a batch that are not nil, in order. *)
Definition non_nil (items : list any) : list any :=
  List.filter (fun a => negb (is_nil a)) items.

(** An output that reports one unprocessed request for the test table, and a
    client that returns it at every call. *)
Definition busyOutput : BatchWriteItemOutput :=
  {| UnprocessedItems := {["test-table" := [PutRequest ∅]]} |}.

Definition busyClient : DynamoDBQueriesClientAPI :=
  {| BatchWriteItem := fun _ _ => (Some busyOutput, None);
     BatchGetItem := fun _ _ =>
       (Some {| Responses := ∅; UnprocessedKeys := ∅ |}, None) |}.

Definition notFoundError : sdk_error :=
  {| exception := ResourceNotFoundException "no such table";
     text := "ResourceNotFoundException: no such table" |}.

(** A marshaler that rejects the strings. *)
Definition pickyMarshaler : attributevalue :=
  {| MarshalMap := fun a =>
       match a with
       | AnyString _ => inr {| exception := OtherException; text := "not a struct" |}
       | _ => inl ∅
       end;
     UnmarshalMap := fun _ ref => inl ref |}.

(** The request kinds [newTxWriteItem] handles. *)
Definition known_request (req : string) : bool :=
  String.eqb req "C" || String.eqb req "U" || String.eqb req "D" || String.eqb req "CC".

(** The request kind a member of the SDK's request stands for. *)
Definition kind_of (txItem : TransactWriteItem) : string :=
  match txItem with
  | Put _ _ _ _ _ => "C"
  | Update _ _ _ _ _ _ => "U"
  | Delete _ _ _ _ _ => "D"
  | ConditionCheck _ _ _ _ _ => "CC"
  end.

(** [Retryable()] of the error a transaction returns. *)
Definition retryable (err : option error) : bool :=
  match err with
  | Some e => default false (as_AwsError e)
  | None => false
  end.

(** * Properties *)

(** ** 64-bit arithmetic *)

Lemma wrap64_id (z : Z) : int64 z -> wrap64 z = z.
Proof.
  unfold int64, min_int64, max_int64, wrap64. intros H.
  rewrite Z.mod_small by lia. lia.
Qed.

Lemma pow2_int64_exact (a : Z) : 0 <= a <= 62 -> pow2_int64 a = 2 ^ a.
Proof.
  intros H. unfold pow2_int64.
  destruct (Z.ltb_spec a 0); [lia|].
  destruct (Z.leb_spec a 62); [reflexivity|lia].
Qed.

Lemma Int63n_positive (n v : Z) : 0 < n -> Int63n n v = Val (v mod n) /\ 0 <= v mod n < n.
Proof.
  intros H. unfold Int63n. destruct (Z.leb_spec n 0); [lia|].
  split; [reflexivity|]. apply Z.mod_pos_bound. lia.
Qed.

Lemma Int63n_not_positive (n v : Z) : n <= 0 -> Int63n n v = Panic InvalidInt63nArgument.
Proof. intros H. unfold Int63n. destruct (Z.leb_spec n 0); [reflexivity|lia]. Qed.

(** An exponent whose power of two, scaled by a positive base, fits in an
    [int64] is at most 62. *)
Lemma exponent_bound (b a : Z) : 0 < b -> 0 <= a -> b * 2 ^ a <= max_int64 -> a <= 62.
Proof.
  intros Hb Ha Hle. destruct (Z.le_gt_cases a 62) as [|Hgt]; [assumption|exfalso].
  assert (2 ^ 63 <= 2 ^ a) by (apply Z.pow_le_mono_r; lia).
  unfold max_int64 in Hle. nia.
Qed.

(** ** Exponential backoff *)

(** A call on a state whose elapsed time has reached the cap. *)
Lemma backoff_exhausted (r : Retries) (v : Z) :
  cap r <= elapsed r ->
  ExponentialBackoff r v =
    Val {| failure := Some NewMaxRetriesExceededError; after := r; sleeps := [] |}.
Proof.
  intros H. unfold ExponentialBackoff.
  destruct (Z.leb_spec (cap r) (elapsed r)); [reflexivity|lia].
Qed.

(** A call below the cap, when no operation leaves the range of [int64]:
    the exponent is the attempt after its increment. *)
Lemma backoff_below_cap (r : Retries) (v : Z) :
  elapsed r < cap r -> 0 < jitter r ->
  int64 (attempt r + 1) ->
  (base r = 0 \/ 0 <= attempt r + 1 <= 62) ->
  int64 (base r * 2 ^ (attempt r + 1)) ->
  int64 (base r * 2 ^ (attempt r + 1) + v mod jitter r) ->
  int64 (elapsed r + (base r * 2 ^ (attempt r + 1) + v mod jitter r)) ->
  ExponentialBackoff r v =
    let wait := base r * 2 ^ (attempt r + 1) + v mod jitter r in
    if cap r <? elapsed r + wait then
      Val {| failure := None;
             after := {| base := base r; cap := cap r; jitter := jitter r;
                         attempt := attempt r + 1; elapsed := cap r |};
             sleeps := [wrap64 (wait - wrap64 (wrap64 (wait + elapsed r) - cap r))] |}
    else
      Val {| failure := None;
             after := {| base := base r; cap := cap r; jitter := jitter r;
                         attempt := attempt r + 1; elapsed := elapsed r + wait |};
             sleeps := [wrap64 (wait * Millisecond)] |}.
Proof.
  intros Hlt Hj Ha Hb Hs Hw He. unfold ExponentialBackoff.
  destruct (Z.leb_spec (cap r) (elapsed r)); [lia|].
  destruct (Int63n_positive (jitter r) v Hj) as [-> _].
  rewrite (wrap64_id (attempt r + 1)) by assumption.
  assert (base r * pow2_int64 (attempt r + 1) = base r * 2 ^ (attempt r + 1)) as ->.
  { destruct Hb as [Hb|Hb].
    - rewrite Hb. lia.
    - rewrite pow2_int64_exact by assumption. reflexivity. }
  rewrite (wrap64_id (base r * 2 ^ (attempt r + 1))) by assumption.
  rewrite (wrap64_id (base r * 2 ^ (attempt r + 1) + v mod jitter r)) by assumption.
  rewrite (wrap64_id (elapsed r + _)) by assumption.
  reflexivity.
Qed.

Lemma NewRetries_inv (f : FailConfig) : policy_in_range f -> retries_inv f (NewRetries f).
Proof.
  intros (Hb & Hc & Hj & Hr). unfold retries_inv, NewRetries; simpl.
  repeat split; try lia.
Qed.

(** The sleep computed from a state of the invariant that is below the cap:
    it is in range and bounded by the elapsed time. *)
Lemma sleep_in_range (f : FailConfig) (r : Retries) :
  policy_in_range f -> retries_inv f r -> elapsed r < cap r ->
  exists s, wrap64 (base r * pow2_int64 (wrap64 (attempt r + 1))) = s /\
    0 <= s <= elapsed r + 2 * base r /\
    (base r = 0 \/
     (wrap64 (attempt r + 1) = attempt r + 1 /\ 0 <= attempt r /\
      s = base r * 2 ^ (attempt r + 1))).
Proof.
  intros (Hb & Hc & Hj & Hr) (Eb & Ec & Ej & He & Hs) Hlt.
  unfold max_int64 in Hr.
  destruct Hs as [Hs|[Hs|[Ha Hs]]]; [lia| |].
  - exists 0. rewrite Hs. split; [reflexivity|]. split; [lia|]. left; reflexivity.
  - destruct (Z.eq_dec (base r) 0) as [H0|H0].
    + exists 0. rewrite H0. split; [reflexivity|]. split; [lia|]. left; reflexivity.
    + assert (0 < 2 ^ (attempt r + 1)) by (apply Z.pow_pos_nonneg; lia).
      assert (attempt r + 1 <= 62)
        by (apply (exponent_bound (base r)); unfold max_int64; lia).
      exists (base r * 2 ^ (attempt r + 1)).
      rewrite (wrap64_id (attempt r + 1)) by (unfold int64, min_int64, max_int64; lia).
      rewrite pow2_int64_exact by lia.
      rewrite wrap64_id by (unfold int64, min_int64, max_int64; nia).
      split; [reflexivity|]. split; [nia|]. right. repeat split; lia.
Qed.

(** One call from a state of the invariant: it returns, keeps the
    invariant, and the elapsed time does not decrease. *)
Lemma backoff_preserves_inv (f : FailConfig) (r : Retries) (v : Z) :
  policy_in_range f -> retries_inv f r ->
  exists b, ExponentialBackoff r v = Val b /\
    retries_inv f (after b) /\ elapsed r <= elapsed (after b).
Proof.
  intros Hf Hinv.
  destruct (Z.le_gt_cases (cap r) (elapsed r)) as [Hge|Hlt].
  { eexists. split; [apply backoff_exhausted; assumption|]. simpl.
    split; [assumption|lia]. }
  destruct (sleep_in_range f r Hf Hinv Hlt) as (s & Es & Hs & Hcase).
  destruct Hf as (Hb & Hc & Hj & Hr). destruct Hinv as (Eb & Ec & Ej & He & _).
  unfold max_int64 in Hr.
  assert (Hjr : 0 < jitter r) by lia.
  destruct (Int63n_positive (jitter r) v Hjr) as [Ej' Hm].
  unfold ExponentialBackoff.
  destruct (Z.leb_spec (cap r) (elapsed r)); [lia|].
  rewrite Ej', Es.
  rewrite (wrap64_id (s + v mod jitter r))
    by (unfold int64, min_int64, max_int64; lia).
  rewrite (wrap64_id (elapsed r + _))
    by (unfold int64, min_int64, max_int64; lia).
  destruct (Z.ltb_spec (cap r) (elapsed r + (s + v mod jitter r))) as [Hc'|Hc'].
  - eexists. split; [reflexivity|]. unfold retries_inv; simpl. split; [|lia].
    repeat split; try assumption; try lia.
  - eexists. split; [reflexivity|]. unfold retries_inv; simpl. split; [|lia].
    repeat split; try assumption; try lia.
    destruct Hcase as [H0|(Ea & Ha & Es')]; [right; left; assumption|].
    right; right. rewrite Ea. split; [lia|].
    replace (attempt r + 1 + 1) with (Z.succ (attempt r + 1)) by lia.
    rewrite Z.pow_succ_r by lia. lia.
Qed.

(** Every sequence of calls from a state of the invariant returns its list
    of states. *)
Lemma backoff_calls_total (f : FailConfig) (draws : list Z) (r : Retries) :
  policy_in_range f -> retries_inv f r ->
  exists rs, backoff_calls r draws = Val rs /\ length rs = length draws /\
    Forall (retries_inv f) (r :: rs) /\
    (forall (i : nat) (r1 r2 : Retries),
        (r :: rs) !! i = Some r1 -> (r :: rs) !! S i = Some r2 ->
        elapsed r1 <= elapsed r2).
Proof.
  intros Hf. revert r. induction draws as [|v draws IH]; intros r Hinv.
  - exists []. simpl. repeat split.
    + constructor; [assumption|constructor].
    + intros i r1 r2 _ H2. destruct i; discriminate.
  - destruct (backoff_preserves_inv f r v Hf Hinv) as (b & Eb & Hinv' & Hle).
    destruct (IH (after b) Hinv') as (rs & Ers & Hlen & Hall & Hmono).
    exists (after b :: rs). simpl. rewrite Eb, Ers. repeat split.
    + simpl. lia.
    + constructor; assumption.
    + intros [|i] r1 r2 H1 H2; simpl in H1, H2.
      * injection H1 as <-. injection H2 as <-. assumption.
      * apply (Hmono i); assumption.
Qed.

(** A call below the cap with a jitter bound that is not positive panics in
    the random source. *)
Lemma backoff_jitter_not_positive (r : Retries) (v : Z) :
  elapsed r < cap r -> jitter r <= 0 ->
  ExponentialBackoff r v = Panic InvalidInt63nArgument.
Proof.
  intros Hlt Hj. unfold ExponentialBackoff.
  destruct (Z.leb_spec (cap r) (elapsed r)); [lia|].
  rewrite Int63n_not_positive by assumption. reflexivity.
Qed.

(** The clamped wait is handed to [time.Sleep] without the conversion to
    milliseconds of the other branch: with 59990 ms elapsed of 60000 and a
    wait of 100 ms, the call sleeps 10 nanoseconds. *)
Example backoff_clamped_sleep :
  ExponentialBackoff
    {| base := 50; cap := 60000; jitter := 250; attempt := 0; elapsed := 59990 |} 0 =
  Val {| failure := None;
         after := {| base := 50; cap := 60000; jitter := 250;
                     attempt := 1; elapsed := 60000 |};
         sleeps := [10] |}.
Proof. reflexivity. Qed.

(** C3 (as amended). A call with the elapsed time at or above the cap
    leaves the attempt as it is.  A call with the elapsed time below the cap,
    a positive jitter bound and no value leaving the range of [int64]
    increments the attempt by exactly 1 and computes
    [sleep = base * 2^(attempt+1)], that is with the attempt after its
    increment; the jitter is a value of [[0, jitterBound)] and
    [wait = sleep + jitter]; if [elapsed + wait > cap] the elapsed time
    becomes the cap, otherwise the call sleeps [wait] milliseconds and adds
    [wait] to the elapsed time. *)
Theorem C3_backoff_step (r : Retries) (v : Z) :
  (cap r <= elapsed r ->
   exists b, ExponentialBackoff r v = Val b /\
     failure b = Some NewMaxRetriesExceededError /\
     attempt (after b) = attempt r) /\
  (elapsed r < cap r -> 0 < jitter r -> 0 <= attempt r <= 61 ->
   let jit := v mod jitter r in
   let sleep := base r * 2 ^ (attempt r + 1) in
   let wait := sleep + jit in
   int64 sleep -> int64 wait -> int64 (elapsed r + wait) ->
   int64 (wait * Millisecond) ->
   0 <= jit < jitter r /\
   exists b, ExponentialBackoff r v = Val b /\
     failure b = None /\
     attempt (after b) = attempt r + 1 /\
     base (after b) = base r /\ cap (after b) = cap r /\
     jitter (after b) = jitter r /\
     (cap r < elapsed r + wait -> elapsed (after b) = cap r) /\
     (elapsed r + wait <= cap r ->
      elapsed (after b) = elapsed r + wait /\ sleeps b = [wait * Millisecond])).
Proof.
  split.
  - intros Hge. eexists. split; [apply backoff_exhausted; assumption|].
    simpl. split; reflexivity.
  - intros Hlt Hj Ha jit sleep wait Hs Hw He Hms.
    split; [apply Z.mod_pos_bound; assumption|].
    rewrite backoff_below_cap; try assumption;
      [|unfold int64, min_int64, max_int64; lia|right; lia].
    fold jit sleep wait. cbv zeta.
    destruct (Z.ltb_spec (cap r) (elapsed r + wait)) as [Hc|Hc];
      (eexists; split; [reflexivity|]); simpl.
    + repeat split; try reflexivity; lia.
    + rewrite (wrap64_id (wait * Millisecond)) by assumption.
      repeat split; try reflexivity; lia.
Qed.

Lemma C3_witness :
  exists b, ExponentialBackoff (NewRetries DefaultFailConfig) 7 = Val b /\
    attempt (after b) = 1 /\ elapsed (after b) = 107 /\
    sleeps b = [107 * Millisecond].
Proof.
  destruct (C3_backoff_step (NewRetries DefaultFailConfig) 7) as [_ H].
  destruct H as (_ & b & Eb & _ & Ha & _ & _ & _ & _ & Hn);
    try (simpl; lia); try (split; vm_compute; discriminate).
  exists b. destruct Hn as [He Hs]; [vm_compute; discriminate|].
  repeat split; assumption.
Defined.

(** C3, the claim as stated, fails on the first call with the default
    policy and a jitter of 0: the claim gives a wait of [50 * 2^0 = 50], the
    call waits [50 * 2^1 = 100]. *)
Lemma C3_counterexample : ~ backoff_as_specified (NewRetries DefaultFailConfig) 0.
Proof.
  intros (b & Eb & _ & _ & H).
  vm_compute in Eb. injection Eb as <-.
  destruct (decide _) as [Hd|Hd] in H; simpl in *; [lia|].
  destruct H as [H _]. discriminate H.
Qed.

(** C4 (as amended). For every sequence of backoff calls on the [Retries] of
    a policy in range (a base and a cap that are not negative, a positive
    jitter, and twice the cap plus twice the base plus the jitter within
    [int64]), every call returns, the elapsed time never decreases from one
    state to the next and never exceeds the cap, and a call on a state whose
    elapsed time has reached the cap fails with [MaxRetriesExceeded], without
    a sleep and without a change of the state. *)
Theorem C4_elapsed_monotone_within_cap (f : FailConfig) (draws : list Z) :
  policy_in_range f ->
  exists rs, backoff_calls (NewRetries f) draws = Val rs /\
    length rs = length draws /\
    (forall (i : nat) (r1 r2 : Retries),
        (NewRetries f :: rs) !! i = Some r1 ->
        (NewRetries f :: rs) !! S i = Some r2 ->
        elapsed r1 <= elapsed r2) /\
    Forall (fun r => elapsed r <= cap r /\ cap r = Cap f) (NewRetries f :: rs) /\
    (forall (r : Retries) (v : Z),
        r ∈ NewRetries f :: rs -> elapsed r = cap r ->
        ExponentialBackoff r v =
          Val {| failure := Some NewMaxRetriesExceededError; after := r; sleeps := [] |}).
Proof.
  intros Hf.
  destruct (backoff_calls_total f draws (NewRetries f) Hf (NewRetries_inv f Hf))
    as (rs & Ers & Hlen & Hall & Hmono).
  exists rs. repeat split; try assumption.
  - eapply Forall_impl; [exact Hall|].
    intros r (_ & Ec & _ & He & _). split; [lia|assumption].
  - intros r v _ He. apply backoff_exhausted. lia.
Qed.

Lemma C4_witness :
  policy_in_range DefaultFailConfig /\
  exists rs, backoff_calls (NewRetries DefaultFailConfig) [3; 1000; 77] = Val rs /\
    length rs = 3%nat.
Proof.
  assert (H : policy_in_range DefaultFailConfig)
    by (unfold policy_in_range, max_int64; simpl; lia).
  split; [exact H|].
  destruct (C4_elapsed_monotone_within_cap DefaultFailConfig [3; 1000; 77] H)
    as (rs & Ers & Hlen & _).
  exists rs. split; assumption.
Defined.

(** C4, the claim as stated, fails outside that range: with the policy
    [NewFailConfig(1 << 61, math.MaxInt64, 1)] the first call sleeps
    [2^61 * 2 = 2^62] and the second computes [2^61 * 4], which wraps to
    [-2^63]: the elapsed time goes from [2^62] down to [-2^62]. *)
Lemma C4_counterexample :
  exists r1 r2 : Retries,
    backoff_calls (NewRetries (NewFailConfig (2 ^ 61) max_int64 1)) [0; 0] =
      Val [r1; r2] /\
    elapsed r1 = 2 ^ 62 /\ elapsed r2 = - (2 ^ 62) /\
    ~ (elapsed r1 <= elapsed r2).
Proof.
  eexists _, _. split; [vm_compute; reflexivity|].
  simpl. repeat split. lia.
Qed.

(** C8. With a jitter bound of 0 and the elapsed time below the cap, the call
    does not complete: [rnd.Int63n(0)] panics.  The first call on
    [NewFailConfig(50, 60000, 0)], for every draw. *)
Theorem C8_zero_jitter_panics (v : Z) :
  ExponentialBackoff (NewRetries (NewFailConfig 50 60000 0)) v =
    Panic InvalidInt63nArgument.
Proof. apply backoff_jitter_not_positive; simpl; lia. Qed.

(** ** Batch operations *)

(** What [handleErr] makes of an error of the client: an error that
    [errors.As] finds to be a [goaws.AwsError], retryable exactly when the
    client was throttled. *)
Lemma handleErr_classifies (prefix : string) (e : sdk_error) :
  exists e', handleErr (Some (Errorf prefix (Sdk e))) = Some e' /\
    as_dynamo RateLimitExceededError e' = throttling e /\
    as_AwsError e' = Some (throttling e).
Proof.
  unfold handleErr, throttling; simpl.
  destruct (exception e); eexists; (split; [reflexivity|]); split; reflexivity.
Qed.

Section BatchLoops.

Variable entropy : nat -> Z.

(** One turn of the write loop when the client returns an error: a
    throttling error reaches [result.UnprocessedItems] with a nil [result];
    every other error is returned, wrapped with the name of the call. *)
Lemma batchWriteLoop_error (fuel : nat) (q : Queries) (input : BatchWriteItemInput)
    (retries : Retries) (w : world) (result : option BatchWriteItemOutput)
    (e : sdk_error) :
  BatchWriteItem (svc q) (calls w) input = (result, Some e) ->
  exists e', handleErr (Some (Errorf "q.svc.BatchWriteItem: " (Sdk e))) = Some e' /\
    batchWriteLoop entropy (S fuel) q input retries w =
      if throttling e then (Panic NilDereference, called w)
      else (Val (Some (Errorf "q.batchWriteUtil: " e')), called w).
Proof.
  intros Hcall.
  destruct (handleErr_classifies "q.svc.BatchWriteItem: " e) as (e' & He & Ht & Ha).
  exists e'. split; [assumption|].
  simpl. unfold batchWriteUtil. rewrite Hcall, He.
  unfold onBatchError. rewrite Ht, Ha.
  destruct (throttling e); reflexivity.
Qed.

(** One turn of the write loop when the client returns an output. *)
Lemma batchWriteLoop_output (fuel : nat) (q : Queries) (input : BatchWriteItemInput)
    (retries : Retries) (w : world) (out : BatchWriteItemOutput) :
  BatchWriteItem (svc q) (calls w) input = (Some out, None) ->
  batchWriteLoop entropy (S fuel) q input retries w =
    if bool_decide (size (UnprocessedItems out) = 0%nat) then (Val None, called w)
    else batchWriteLoop entropy fuel q input retries (called w).
Proof.
  intros Hcall. simpl. unfold batchWriteUtil. rewrite Hcall. reflexivity.
Qed.

(** One turn of the write loop when the client returns neither. *)
Lemma batchWriteLoop_nil (fuel : nat) (q : Queries) (input : BatchWriteItemInput)
    (retries : Retries) (w : world) :
  BatchWriteItem (svc q) (calls w) input = (None, None) ->
  batchWriteLoop entropy (S fuel) q input retries w = (Panic NilDereference, called w).
Proof.
  intros Hcall. simpl. unfold batchWriteUtil. rewrite Hcall. reflexivity.
Qed.

(** The write loop returns nil only from a turn whose output has no
    unprocessed items. *)
Lemma batchWriteLoop_success (fuel : nat) (q : Queries) (input : BatchWriteItemInput)
    (retries : Retries) (w w' : world) :
  batchWriteLoop entropy fuel q input retries w = (Val None, w') ->
  exists (input' : BatchWriteItemInput) (out : BatchWriteItemOutput),
    (calls w < calls w')%nat /\
    BatchWriteItem (svc q) (pred (calls w')) input' = (Some out, None) /\
    UnprocessedItems out = ∅.
Proof.
  revert w. induction fuel as [|fuel IH]; intros w Hrun; [discriminate|].
  destruct (BatchWriteItem (svc q) (calls w) input) as [result [e|]] eqn:Hcall.
  - destruct (batchWriteLoop_error fuel q input retries w result e Hcall)
      as (e' & _ & Hturn).
    rewrite Hturn in Hrun. destruct (throttling e); discriminate.
  - destruct result as [out|].
    + rewrite (batchWriteLoop_output fuel q input retries w out Hcall) in Hrun.
      case_bool_decide as Hsize.
      * injection Hrun as <-. exists input, out. simpl.
        split; [lia|]. split; [assumption|].
        apply map_size_empty_iff. assumption.
      * destruct (IH _ Hrun) as (input' & out' & Hlt & Hlast & Hempty).
        exists input', out'. simpl in Hlt. split; [lia|]. split; assumption.
    + rewrite (batchWriteLoop_nil fuel q input retries w Hcall) in Hrun.
      discriminate.
Qed.

(** One turn of the get loop when the client returns an error. *)
Lemma batchGetLoop_error (fuel : nat) (q : Queries) (t : Table) (refObjs : list any)
    (input : BatchGetItemInput) (retries : Retries) (items : list any) (w : world)
    (av : attributevalue) (result : option BatchGetItemOutput) (e : sdk_error) :
  BatchGetItem (svc q) (calls w) input = (result, Some e) ->
  exists e', handleErr (Some (Errorf "q.svc.BatchGetItem: " (Sdk e))) = Some e' /\
    batchGetLoop av entropy (S fuel) q t refObjs input retries items w =
      if throttling e then (Panic NilDereference, called w)
      else (Val ([], Some (Errorf "q.batchGetUtil: " e')), called w).
Proof.
  intros Hcall.
  destruct (handleErr_classifies "q.svc.BatchGetItem: " e) as (e' & He & Ht & Ha).
  exists e'. split; [assumption|].
  simpl. unfold batchGetUtil. rewrite Hcall, He.
  unfold onBatchError. rewrite Ht, Ha.
  destruct (throttling e); reflexivity.
Qed.

(** One turn of the get loop when the client returns an output. *)
Lemma batchGetLoop_output (fuel : nat) (q : Queries) (t : Table) (refObjs : list any)
    (input : BatchGetItemInput) (retries : Retries) (items : list any) (w : world)
    (av : attributevalue) (out : BatchGetItemOutput) :
  BatchGetItem (svc q) (calls w) input = (Some out, None) ->
  batchGetLoop av entropy (S fuel) q t refObjs input retries items w =
    match unmarshalResponses av refObjs 0
            (default [] (Responses out !! TableName t)) items with
    | Val (inl items') =>
        if bool_decide (size (UnprocessedKeys out) = 0%nat)
        then (Val (items', None), called w)
        else batchGetLoop av entropy fuel q t refObjs input retries items' (called w)
    | Val (inr e) => (Val ([], Some e), called w)
    | Panic p => (Panic p, called w)
    | Spin => (Spin, called w)
    end.
Proof.
  intros Hcall. simpl. unfold batchGetUtil. rewrite Hcall. reflexivity.
Qed.

(** One turn of the get loop when the client returns neither. *)
Lemma batchGetLoop_nil (fuel : nat) (q : Queries) (t : Table) (refObjs : list any)
    (input : BatchGetItemInput) (retries : Retries) (items : list any) (w : world)
    (av : attributevalue) :
  BatchGetItem (svc q) (calls w) input = (None, None) ->
  batchGetLoop av entropy (S fuel) q t refObjs input retries items w =
    (Panic NilDereference, called w).
Proof.
  intros Hcall. simpl. unfold batchGetUtil. rewrite Hcall. reflexivity.
Qed.

(** The get loop returns a nil error only from a turn whose output has no
    unprocessed keys. *)
Lemma batchGetLoop_success (fuel : nat) (q : Queries) (t : Table) (refObjs : list any)
    (input : BatchGetItemInput) (retries : Retries) (items got : list any)
    (w w' : world) (av : attributevalue) :
  batchGetLoop av entropy fuel q t refObjs input retries items w = (Val (got, None), w') ->
  exists (input' : BatchGetItemInput) (out : BatchGetItemOutput),
    (calls w < calls w')%nat /\
    BatchGetItem (svc q) (pred (calls w')) input' = (Some out, None) /\
    UnprocessedKeys out = ∅.
Proof.
  revert w items. induction fuel as [|fuel IH]; intros w items Hrun; [discriminate|].
  destruct (BatchGetItem (svc q) (calls w) input) as [result [e|]] eqn:Hcall.
  - destruct (batchGetLoop_error fuel q t refObjs input retries items w av result e Hcall)
      as (e' & _ & Hturn).
    rewrite Hturn in Hrun. destruct (throttling e); discriminate.
  - destruct result as [out|].
    + rewrite (batchGetLoop_output fuel q t refObjs input retries items w av out Hcall)
        in Hrun.
      destruct (unmarshalResponses av refObjs 0 _ items) as [[items'|e]|p|];
        try discriminate.
      case_bool_decide as Hsize.
      * injection Hrun as _ <-. exists input, out. simpl.
        split; [lia|]. split; [assumption|].
        apply map_size_empty_iff. assumption.
      * destruct (IH _ _ Hrun) as (input' & out' & Hlt & Hlast & Hempty).
        exists input', out'. simpl in Hlt. split; [lia|]. split; assumption.
    + rewrite (batchGetLoop_nil fuel q t refObjs input retries items w av Hcall) in Hrun.
      discriminate.
Qed.

(** Every turn of the write loop calls the client: the loop never makes
    fewer calls than it found made, and one more as soon as it runs. *)
Lemma batchWriteLoop_calls (fuel : nat) (q : Queries) (input : BatchWriteItemInput)
    (retries : Retries) (w : world) :
  (calls w + Nat.min 1 fuel <=
   calls (snd (batchWriteLoop entropy fuel q input retries w)))%nat.
Proof.
  revert w. induction fuel as [|fuel IH]; intros w; [simpl; lia|].
  destruct (BatchWriteItem (svc q) (calls w) input) as [result [e|]] eqn:Hcall.
  - destruct (batchWriteLoop_error fuel q input retries w result e Hcall)
      as (e' & _ & Hturn).
    rewrite Hturn. destruct (throttling e); simpl; lia.
  - destruct result as [out|].
    + rewrite (batchWriteLoop_output fuel q input retries w out Hcall).
      case_bool_decide; [simpl; lia|].
      specialize (IH (called w)). simpl in *. lia.
    + rewrite (batchWriteLoop_nil fuel q input retries w Hcall). simpl. lia.
Qed.

(** The same for the get loop. *)
Lemma batchGetLoop_calls (fuel : nat) (q : Queries) (t : Table) (refObjs : list any)
    (input : BatchGetItemInput) (retries : Retries) (items : list any) (w : world)
    (av : attributevalue) :
  (calls w + Nat.min 1 fuel <=
   calls (snd (batchGetLoop av entropy fuel q t refObjs input retries items w)))%nat.
Proof.
  revert w items. induction fuel as [|fuel IH]; intros w items; [simpl; lia|].
  destruct (BatchGetItem (svc q) (calls w) input) as [result [e|]] eqn:Hcall.
  - destruct (batchGetLoop_error fuel q t refObjs input retries items w av result e Hcall)
      as (e' & _ & Hturn).
    rewrite Hturn. destruct (throttling e); simpl; lia.
  - destruct result as [out|].
    + rewrite (batchGetLoop_output fuel q t refObjs input retries items w av out Hcall).
      destruct (unmarshalResponses av refObjs 0 _ items) as [[items'|e]|p|];
        try (simpl; lia).
      case_bool_decide; [simpl; lia|].
      specialize (IH (called w) items'). simpl in *. lia.
    + rewrite (batchGetLoop_nil fuel q t refObjs input retries items w av Hcall).
      simpl. lia.
Qed.

End BatchLoops.

(** C2. A throttling error of the client is not retried: the retry arm reads
    [result.UnprocessedItems] (or [result.UnprocessedKeys]) of the nil result
    that [batchWriteUtil] (or [batchGetUtil]) returns with every error, and
    the operation panics before it backs off.  The three operations, on a
    client whose first call fails with
    [ProvisionedThroughputExceededException]. *)
Theorem C2_throttling_error_panics (fuel : nat) :
  let q := NewQueries (scriptedClient [(None, Some throttledError)]
                         [(None, Some throttledError)]) testTables None in
  BatchWriteCreate plainMarshaler noEntropy (S fuel) q "test-table" [testItem] world0 =
    (Panic NilDereference, called world0) /\
  BatchWriteDelete noEntropy (S fuel) q "test-table"
    [Some (CreateNewQueryObj (AnyString "1") AnyNil)] world0 =
    (Panic NilDereference, called world0) /\
  BatchGet plainMarshaler noEntropy (S fuel) q "test-table"
    [Some (CreateNewQueryObj (AnyString "1") AnyNil)] [testItem] NewExpression world0 =
    (Panic NilDereference, called world0).
Proof. repeat split; vm_compute; reflexivity. Qed.

(** A non-retryable error of the client ends the operation at once: it is
    returned wrapped with the name of the failing call, after that one
    call. *)
Lemma batch_error_surfaces (fuel : nat) :
  let notFound := {| exception := ResourceNotFoundException "no such table";
                     text := "ResourceNotFoundException: no such table" |} in
  let q := NewQueries (scriptedClient [(None, Some notFound)] []) testTables None in
  BatchWriteCreate plainMarshaler noEntropy (S fuel) q "test-table" [testItem] world0 =
    (Val (Some (Errorf "q.batchWriteUtil: "
                  (NewResourceNotFoundError "no such table"))), called world0).
Proof. vm_compute. reflexivity. Qed.

(** The case "Error" of TestQueries_BatchWriteCreate: the text of the error
    returned for an error the client does not classify. *)
Example batch_unclassified_error_text (fuel : nat) :
  let q := NewQueries
             (scriptedClient [(None, Some {| exception := OtherException;
                                             text := "batch error" |})] [])
             testTables None in
  exists e, fst (BatchWriteCreate plainMarshaler noEntropy (S fuel) q "test-table"
                   [testItem] world0) = Val (Some e) /\
    Error e = "q.batchWriteUtil: q.svc.BatchWriteItem: batch error" /\
    as_AwsError e = Some false.
Proof. eexists. vm_compute. repeat split; reflexivity. Qed.

(** C7 (as amended). A write batch of more than 25 items and a multi-get of
    more than 100 queries fail with [CollectionSizeExceeded] without a call
    to the client; a multi-get of at most 100 queries whose number differs
    from the number of reference objects fails with
    [ReferenceObjectsCountError] without a call to the client. *)
Theorem C7_validation_before_any_call (av : attributevalue) (entropy : nat -> Z)
    (fuel : nat) (q : Queries) (tableName : string) (w : world) :
  (forall items : list any,
      (25 < length items)%nat ->
      BatchWriteCreate av entropy fuel q tableName items w =
        (Val (Some (NewCollectionSizeExceededError (Z.of_nat (length items)))), w)) /\
  (forall queries : list (option Query),
      (25 < length queries)%nat ->
      BatchWriteDelete entropy fuel q tableName queries w =
        (Val (Some (NewCollectionSizeExceededError (Z.of_nat (length queries)))), w)) /\
  (forall (queries : list (option Query)) (refObjs : list any) (expr : Expression.t),
      (100 < length queries)%nat ->
      BatchGet av entropy fuel q tableName queries refObjs expr w =
        (Val ([], Some (NewCollectionSizeExceededError (Z.of_nat (length queries)))), w)) /\
  (forall (queries : list (option Query)) (refObjs : list any) (expr : Expression.t),
      (length queries <= 100)%nat ->
      length queries <> length refObjs ->
      BatchGet av entropy fuel q tableName queries refObjs expr w =
        (Val ([], Some NewReferenceObjectsCountError), w)).
Proof.
  repeat split.
  - intros items H. unfold BatchWriteCreate.
    destruct (Z.ltb_spec 25 (Z.of_nat (length items))); [reflexivity|lia].
  - intros queries H. unfold BatchWriteDelete.
    destruct (Z.ltb_spec 25 (Z.of_nat (length queries))); [reflexivity|lia].
  - intros queries refObjs expr H. unfold BatchGet.
    destruct (Z.ltb_spec 100 (Z.of_nat (length queries))); [reflexivity|lia].
  - intros queries refObjs expr H Hne. unfold BatchGet.
    destruct (Z.ltb_spec 100 (Z.of_nat (length queries))); [lia|].
    destruct (Nat.eqb_spec (length queries) (length refObjs)); [contradiction|].
    reflexivity.
Qed.

Lemma C7_witness :
  let q := NewQueries (scriptedClient [] []) testTables None in
  BatchWriteCreate plainMarshaler noEntropy 3 q "test-table" (replicate 26 AnyNil) world0 =
    (Val (Some (NewCollectionSizeExceededError 26)), world0) /\
  BatchGet plainMarshaler noEntropy 3 q "test-table" [None; None] [testItem]
    NewExpression world0 =
    (Val ([], Some NewReferenceObjectsCountError), world0).
Proof.
  intros q.
  destruct (C7_validation_before_any_call plainMarshaler noEntropy 3 q "test-table" world0)
    as (Hcreate & _ & _ & Hcount).
  split.
  - apply (Hcreate (replicate 26 AnyNil)). simpl. lia.
  - apply (Hcount [None; None] [testItem] NewExpression); simpl; lia.
Defined.

(** C7, the claim as stated, fails for a multi-get of 101 queries and no
    reference object: the numbers differ, and the error is
    [CollectionSizeExceeded], not [ReferenceObjectsCountError]. *)
Lemma C7_counterexample :
  let q := NewQueries (scriptedClient [] []) testTables None in
  let queries := replicate 101 (@None Query) in
  length queries <> length (@nil any) /\
  BatchGet plainMarshaler noEntropy 3 q "test-table" queries [] NewExpression world0 =
    (Val ([], Some (NewCollectionSizeExceededError 101)), world0) /\
  NewCollectionSizeExceededError 101 <> NewReferenceObjectsCountError.
Proof.
  repeat split.
  - simpl. lia.
  - discriminate.
Qed.

(** C9. An empty batch is not a no-op.  On an empty (or nil) list, with the
    table registered, each of the three operations calls the client as soon
    as its loop runs, whatever the client answers: no operation tests for an
    empty request.  The first call carries a request that holds no item for
    the table, and when it returns an output without an error and without
    unprocessed items (for [BatchGet], also without a response for the
    table), the operation returns success after that one call; the case
    [NilItems] of [TestQueries_BatchWriteCreate] expects no call and
    [NilModelError]. *)
Theorem C9_empty_batch_calls_the_client (av : attributevalue) (entropy : nat -> Z)
    (fuel : nat) (q : Queries) (tableName : string) (t : Table) (w : world) :
  tables q !! tableName = Some (Some t) ->
  (calls w < calls (snd (BatchWriteCreate av entropy (S fuel) q tableName [] w)))%nat /\
  (calls w < calls (snd (BatchWriteDelete entropy (S fuel) q tableName [] w)))%nat /\
  (forall expr : Expression.t,
      (calls w <
       calls (snd (BatchGet av entropy (S fuel) q tableName [] [] expr w)))%nat) /\
  (forall out : BatchWriteItemOutput,
      BatchWriteItem (svc q) (calls w) {| RequestItems := <[TableName t := []]> ∅ |} =
        (Some out, None) ->
      UnprocessedItems out = ∅ ->
      BatchWriteCreate av entropy (S fuel) q tableName [] w = (Val None, called w) /\
      BatchWriteDelete entropy (S fuel) q tableName [] w = (Val None, called w)) /\
  (forall (out : BatchGetItemOutput) (expr : Expression.t),
      BatchGetItem (svc q) (calls w)
        {| RequestKeys := <[TableName t := {| Keys := [] |}]> ∅ |} = (Some out, None) ->
      UnprocessedKeys out = ∅ ->
      default [] (Responses out !! TableName t) = [] ->
      BatchGet av entropy (S fuel) q tableName [] [] expr w = (Val ([], None), called w)).
Proof.
  intros Ht.
  assert (Hcreate : BatchWriteCreate av entropy (S fuel) q tableName [] w =
            batchWriteLoop entropy (S fuel) q
              {| RequestItems := <[TableName t := []]> ∅ |} (NewRetries (fc q)) w).
  { unfold BatchWriteCreate. simpl length. simpl Z.ltb. rewrite Ht. reflexivity. }
  assert (Hdelete : BatchWriteDelete entropy (S fuel) q tableName [] w =
            batchWriteLoop entropy (S fuel) q
              {| RequestItems := <[TableName t := []]> ∅ |} (NewRetries (fc q)) w).
  { unfold BatchWriteDelete. simpl length. simpl Z.ltb. rewrite Ht. reflexivity. }
  assert (Hget : forall expr, BatchGet av entropy (S fuel) q tableName [] [] expr w =
            batchGetLoop av entropy (S fuel) q t []
              {| RequestKeys := <[TableName t := {| Keys := [] |}]> ∅ |}
              (NewRetries (fc q)) [] w).
  { intros expr. unfold BatchGet. simpl length. simpl Z.ltb. simpl negb.
    rewrite Ht. reflexivity. }
  split; [|split; [|split; [|split]]].
  - rewrite Hcreate.
    pose proof (batchWriteLoop_calls entropy (S fuel) q
                  {| RequestItems := <[TableName t := []]> ∅ |} (NewRetries (fc q)) w).
    simpl Nat.min in *. lia.
  - rewrite Hdelete.
    pose proof (batchWriteLoop_calls entropy (S fuel) q
                  {| RequestItems := <[TableName t := []]> ∅ |} (NewRetries (fc q)) w).
    simpl Nat.min in *. lia.
  - intros expr. rewrite Hget.
    pose proof (batchGetLoop_calls entropy (S fuel) q t []
                  {| RequestKeys := <[TableName t := {| Keys := [] |}]> ∅ |}
                  (NewRetries (fc q)) [] w av).
    simpl Nat.min in *. lia.
  - intros out Hcall Hempty. rewrite Hcreate, Hdelete.
    rewrite (batchWriteLoop_output entropy fuel q _ _ w out Hcall).
    rewrite Hempty, map_size_empty. split; reflexivity.
  - intros out expr Hcall Hempty Hresp. rewrite Hget.
    rewrite (batchGetLoop_output entropy fuel q t [] _ _ [] w av out Hcall).
    rewrite Hresp. simpl unmarshalResponses.
    rewrite Hempty, map_size_empty. reflexivity.
Qed.

(** The input of the case [NilItems], on a client that answers every call
    with an empty output: one call, and success. *)
Lemma C9_witness :
  let q := NewQueries (scriptedClient [] []) testTables None in
  BatchWriteCreate plainMarshaler noEntropy 1 q "test-table" [] world0 =
    (Val None, called world0) /\
  (calls world0 <
   calls (snd (BatchGet plainMarshaler noEntropy 1 q "test-table" [] [] NewExpression
                 world0)))%nat.
Proof.
  intros q.
  destruct (C9_empty_batch_calls_the_client plainMarshaler noEntropy 0 q "test-table"
              testTable world0) as (_ & _ & Hget & Hwrite & _).
  - vm_compute. reflexivity.
  - split.
    + apply (Hwrite {| UnprocessedItems := ∅ |}); reflexivity.
    + apply Hget.
Defined.

(** ** Transactions *)

(** The scan of the cancellation reasons when every reason has a code and a
    member at its position: it returns, the failed list grows by the members
    whose reason is a failed condition check or a throttling, and the two
    flags record which of the codes were seen. *)
Lemma scanReasons_attributes (items : list TransactionItem)
    (reasons : list CancellationReason) (i : nat) (s : scan) :
  Forall (fun r => Code r <> None) reasons ->
  (i + length reasons <= length items)%nat ->
  exists s', scanReasons items i reasons s = Val s' /\
    failed s' = (failed s ++ attributed (drop i items) reasons)%list /\
    check s' = check s || existsb (has_code ConditionalCheckFailed) reasons /\
    throttled s' = throttled s || existsb (has_code ThrottlingError) reasons.
Proof.
  intros Hcodes. revert i s.
  induction Hcodes as [|r reasons Hr _ IH]; intros i s Hlen.
  - exists s. simpl. destruct (drop i items); simpl;
      rewrite app_nil_r, !orb_false_r; repeat split; reflexivity.
  - simpl in Hlen.
    destruct (lookup_lt_is_Some_2 items i) as [ti Hti]; [lia|].
    rewrite (drop_S _ _ _ Hti).
    destruct (Code r) as [code|] eqn:Hcode; [|contradiction].
    assert (Hh : forall c, has_code c r = String.eqb code c)
      by (intros c; unfold has_code; rewrite Hcode; reflexivity).
    simpl. rewrite Hcode, Hti, !Hh.
    destruct (String.eqb_spec code ConditionalCheckFailed) as [->|Hc].
    + simpl.
      destruct (IH (S i) {| check := true; throttled := throttled s;
                            msg := default (msg s) (Message r);
                            failed := failed s ++ [ti] |}) as (s' & Es & Hf & Hck & Hth);
        [lia|].
      exists s'. split; [assumption|]. simpl in Hf, Hck, Hth.
      rewrite Hf, Hck, Hth, <- app_assoc, orb_true_r. repeat split; reflexivity.
    + destruct (String.eqb_spec code ThrottlingError) as [->|Ht].
      * simpl.
        destruct (IH (S i) {| check := check s; throttled := true;
                              msg := default "transaction request throttled" (Message r);
                              failed := failed s ++ [ti] |})
          as (s' & Es & Hf & Hck & Hth); [lia|].
        exists s'. split; [assumption|]. simpl in Hf, Hck, Hth.
        rewrite Hf, Hck, Hth, <- app_assoc, orb_true_r. repeat split; reflexivity.
      * simpl.
        destruct (IH (S i) s) as (s' & Es & Hf & Hck & Hth); [lia|].
        exists s'. split; [assumption|]. repeat split; assumption.
Qed.

(** A cancelled transaction whose reasons all have a code and a member at
    their position: [TxWrite] returns the members attributed by position,
    with [TxConditonCheckFailedError] if a condition check failed, else
    [TxThrottledError] if a member was throttled, else an internal error. *)
Lemma TxWrite_cancellation (av : attributevalue) (t : Transactions)
    (items : list TransactionItem) (requestToken : string) (w : world)
    (txItems : list TransactWriteItem) (reasons : list CancellationReason)
    (output : option unit) (sdk : sdk_error) :
  (length items <= 25)%nat ->
  txWriteItems av items = Val (inl txItems) ->
  TransactWriteItems (txsvc t) (calls w)
    {| ClientRequestToken := if String.eqb requestToken "" then None else Some requestToken;
       TransactItems := txItems |} = (output, Some sdk) ->
  exception sdk = TransactionCanceledException reasons ->
  Forall (fun r => Code r <> None) reasons ->
  (length reasons <= length items)%nat ->
  exists m : string,
    TxWrite av t items requestToken w =
      (Val (attributed items reasons,
            Some (if existsb (has_code ConditionalCheckFailed) reasons
                  then NewTxConditonCheckFailedError m
                  else if existsb (has_code ThrottlingError) reasons
                       then NewTxThrottledError
                       else NewInternalError
                              (Errorf "d.svc.TransactWriteItems: " (Sdk sdk)))),
       called w).
Proof.
  intros Hlen Hbuild Hcall Hexc Hcodes Hreasons.
  destruct (scanReasons_attributes items reasons 0
              {| check := false; throttled := false; msg := ""; failed := [] |}
              Hcodes) as (s & Es & Hf & Hck & Hth); [simpl; lia|].
  simpl in Hf, Hck, Hth. rewrite drop_0 in Hf.
  exists (msg s). unfold TxWrite.
  destruct (Z.ltb_spec 25 (Z.of_nat (length items))); [lia|].
  rewrite Hbuild, Hcall. simpl snd. cbv iota beta zeta. rewrite Hexc, Es, Hf, Hck, Hth.
  destruct (existsb (has_code ConditionalCheckFailed) reasons); [reflexivity|].
  destruct (existsb (has_code ThrottlingError) reasons); reflexivity.
Qed.

(** C5. When one reason is a failed condition check and another is a
    throttling, the failed list returned with [TxConditonCheckFailedError]
    holds the throttled member too, and the message of the error is the one
    of the throttling: members a and b, reasons [ConditionalCheckFailed] and
    [ThrottlingError]. *)
Theorem C5_mixed_reasons_blame_throttled_member :
  let t := NewTransactions
             (scriptedTxClient
                [(None, Some (canceled [reason ConditionalCheckFailed;
                                        reason ThrottlingError]))]) None in
  let items := [createItem "a"; createItem "b"] in
  TxWrite plainMarshaler t items "" world0 =
    (Val ([createItem "a"; createItem "b"],
          Some (NewTxConditonCheckFailedError "transaction request throttled")),
     called world0) /\
  check_failed items [reason ConditionalCheckFailed; reason ThrottlingError] =
    [createItem "a"].
Proof. split; vm_compute; reflexivity. Qed.

(** The case of the specification: five members, a failed condition check at
    index 2; the failed list is exactly member 2. *)
Example TxWrite_check_failed_at_index_2 :
  let none := reason "None" in
  let t := NewTransactions
             (scriptedTxClient
                [(None, Some (canceled [none; none; reason ConditionalCheckFailed;
                                        none; none]))]) None in
  TxWrite plainMarshaler t
    [createItem "0"; createItem "1"; createItem "2"; createItem "3"; createItem "4"]
    "token" world0 =
    (Val ([createItem "2"], Some (NewTxConditonCheckFailedError "")), called world0).
Proof. vm_compute. reflexivity. Qed.

(** C6. When the cancellation carries more reasons than the transaction has
    members and a reason beyond the last member is a failed condition check,
    [TxWrite] does not complete: [items[i]] is out of range.  One member,
    reasons [None] and [ConditionalCheckFailed]. *)
Theorem C6_longer_reason_list_panics :
  let t := NewTransactions
             (scriptedTxClient
                [(None, Some (canceled [reason "None";
                                        reason ConditionalCheckFailed]))]) None in
  TxWrite plainMarshaler t [createItem "a"] "" world0 =
    (Panic IndexOutOfRange, called world0).
Proof. vm_compute. reflexivity. Qed.

(** The dispatch of [newTxWriteItem] on a member made by [NewReadTxItem]. *)
Lemma newTxWriteItem_read (av : attributevalue) (name : string) (t : option Table)
    (q : option Query) (e : Expression.t) :
  newTxWriteItem av (NewReadTxItem name t q e) = Val (inr NewInvalidRequestTypeError).
Proof. reflexivity. Qed.

(** The members are built in order: a read member after members that are
    built without an error ends the loop with the wrapped
    [InvalidRequestTypeError]. *)
Lemma txWriteItems_read (av : attributevalue) (before after : list TransactionItem)
    (name : string) (t : option Table) (q : option Query) (e : Expression.t) :
  Forall (fun ti => exists txItem, newTxWriteItem av ti = Val (inl txItem)) before ->
  txWriteItems av (before ++ NewReadTxItem name t q e :: after) =
    Val (inr (Errorf "newTxWriteItem: " NewInvalidRequestTypeError)).
Proof.
  induction 1 as [|ti before [txItem Hti] _ IH].
  - cbn [app txWriteItems]. rewrite newTxWriteItem_read. reflexivity.
  - cbn [app txWriteItems]. rewrite Hti.
    cbn [app txWriteItems] in IH. rewrite IH. reflexivity.
Qed.

(** C10 (as amended). A submission of at most 25 members that contains a
    member made by [NewReadTxItem], every member before it being built
    without an error, fails with [InvalidRequestTypeError], wrapped with the
    name of [newTxWriteItem], without a call to the client. *)
Theorem C10_read_member_is_rejected (av : attributevalue) (t : Transactions)
    (before after : list TransactionItem) (name : string) (tbl : option Table)
    (q : option Query) (e : Expression.t) (requestToken : string) (w : world) :
  (length (before ++ NewReadTxItem name tbl q e :: after) <= 25)%nat ->
  Forall (fun ti => exists txItem, newTxWriteItem av ti = Val (inl txItem)) before ->
  TxWrite av t (before ++ NewReadTxItem name tbl q e :: after) requestToken w =
    (Val ([], Some (Errorf "newTxWriteItem: " NewInvalidRequestTypeError)), w) /\
  as_dynamo InvalidRequestTypeError
    (Errorf "newTxWriteItem: " NewInvalidRequestTypeError) = true.
Proof.
  intros Hlen Hbefore. split; [|reflexivity].
  unfold TxWrite.
  destruct (Z.ltb_spec 25 (Z.of_nat (length (before ++ NewReadTxItem name tbl q e :: after))));
    [lia|].
  rewrite txWriteItems_read by assumption. reflexivity.
Qed.

Lemma C10_witness :
  let t := NewTransactions (scriptedTxClient []) None in
  TxWrite plainMarshaler t
    [createItem "a"; NewReadTxItem "r" (Some testTable) None NewExpression; createItem "b"]
    "" world0 =
    (Val ([], Some (Errorf "newTxWriteItem: " NewInvalidRequestTypeError)), world0).
Proof.
  intros t.
  apply (C10_read_member_is_rejected plainMarshaler t [createItem "a"] [createItem "b"]
           "r" (Some testTable) None NewExpression "" world0).
  - simpl. lia.
  - constructor; [|constructor]. eexists. reflexivity.
Defined.

(** C10, the claim as stated, fails for a submission of 26 read members: it
    fails with [TxItemsExceedsLimitError], not with
    [InvalidRequestTypeError]. *)
Lemma C10_counterexample :
  let t := NewTransactions (scriptedTxClient []) None in
  let r := NewReadTxItem "r" (Some testTable) None NewExpression in
  exists e : error,
    TxWrite plainMarshaler t (replicate 26 r) "" world0 = (Val ([], Some e), world0) /\
    r ∈ replicate 26 r /\
    as_dynamo TxItemsExceedsLimitError e = true /\
    as_dynamo InvalidRequestTypeError e = false.
Proof.
  eexists. split; [vm_compute; reflexivity|].
  split; [|split; reflexivity].
  apply elem_of_replicate. split; [reflexivity|lia].
Qed.

(** ** The cases of the package's tests *)

(** TestQueries_BatchWriteCreate: "Success", "TooManyItems" and
    "TableNotFound" ("Error" is [batch_unclassified_error_text]). *)
Example test_BatchWriteCreate :
  let q := NewQueries (scriptedClient [(Some {| UnprocessedItems := ∅ |}, None)] [])
             testTables None in
  BatchWriteCreate plainMarshaler noEntropy 2 q "test-table" [testItem] world0 =
    (Val None, called world0) /\
  BatchWriteCreate plainMarshaler noEntropy 2 q "test-table" (replicate 26 AnyNil) world0 =
    (Val (Some (NewCollectionSizeExceededError 26)), world0) /\
  BatchWriteCreate plainMarshaler noEntropy 2 q "missing-table" [testItem] world0 =
    (Val (Some (NewTableNotFoundError "missing-table")), world0).
Proof. repeat split. Qed.

(** TestTransactions_TxWrite: the seven cases, with the error and the length
    of the failed list each expects. *)
Example test_TxWrite :
  let run answer items :=
    TxWrite plainMarshaler (NewTransactions (scriptedTxClient [answer]) None)
      items "" world0 in
  let one := [createItem "create-1"] in
  let coded code message := {| Code := Some code; Message := Some message |} in
  TxWrite plainMarshaler (NewTransactions (scriptedTxClient [(Some (), None)]) None)
    one "token-1" world0 = (Val ([], None), called world0) /\
  run (Some (), None) (replicate 26 (createItem "create")) =
    (Val ([], Some NewTxItemsExceedsLimitError), world0) /\
  run (None, Some (canceled [coded ConditionalCheckFailed "Condition failed"])) one =
    (Val (one, Some (NewTxConditonCheckFailedError "Condition failed")), called world0) /\
  run (None, Some (canceled [coded ThrottlingError "Throttled"])) one =
    (Val (one, Some NewTxThrottledError), called world0) /\
  run (None, Some {| exception := TransactionConflictException; text := "" |}) one =
    (Val ([], Some NewTxConflictError), called world0) /\
  run (None, Some {| exception := TransactionInProgressException; text := "" |}) one =
    (Val ([], Some NewTxInProgressError), called world0) /\
  run (None, Some {| exception := OtherException; text := "some error" |}) one =
    (Val ([], Some (InternalError "s.svc.DeleteMessage: some error")), called world0).
Proof. repeat split; vm_compute; reflexivity. Qed.

(** ** The deprecated package v1: the same loops *)

Section V1Loops.

Variable FailConfig : Type.
Variable ExponentialBackoff : FailConfig -> FailConfig.
Variable MaxRetriesReached : FailConfig -> bool.
Variable Reset : FailConfig -> FailConfig.

(** [handleErr] of v1 yields [ErrRateLimitExceeded] exactly for the
    throttling errors. *)
Lemma v1_handleErr_throttling (prefix : string) (e : sdk_error) :
  V1.Is (V1.Errorf prefix (V1.handleErr e)) V1.ErrRateLimitExceeded = throttling e.
Proof. unfold V1.handleErr, throttling. destruct (exception e); reflexivity. Qed.

(** One turn of the v1 write loop when the client returns an error: as in
    v2, a throttling error reaches [result.UnprocessedItems] with a nil
    [result], before [fc.ExponentialBackoff()]. *)
Lemma v1_batchWriteLoop_error (fuel : nat) (d : V1.DynamoDB)
    (input : BatchWriteItemInput) (fc : FailConfig) (w : world)
    (result : option BatchWriteItemOutput) (e : sdk_error) :
  BatchWriteItem (V1.svc d) (calls w) input = (result, Some e) ->
  V1.batchWriteLoop FailConfig ExponentialBackoff MaxRetriesReached Reset
    (S fuel) d input fc w =
    if throttling e then (Panic NilDereference, (called w, fc))
    else (Val (Some (V1.Errorf "d.batchWriteUtil: "
                       (V1.Errorf "d.svc.BatchWriteItem: " (V1.handleErr e)))),
          (called w, fc)).
Proof.
  intros Hcall. simpl. unfold V1.batchWriteUtil. rewrite Hcall.
  rewrite v1_handleErr_throttling. destruct (throttling e); reflexivity.
Qed.

(** One turn of the v1 write loop when the client returns an output. *)
Lemma v1_batchWriteLoop_output (fuel : nat) (d : V1.DynamoDB)
    (input : BatchWriteItemInput) (fc : FailConfig) (w : world)
    (out : BatchWriteItemOutput) :
  BatchWriteItem (V1.svc d) (calls w) input = (Some out, None) ->
  V1.batchWriteLoop FailConfig ExponentialBackoff MaxRetriesReached Reset
    (S fuel) d input fc w =
    if bool_decide (size (UnprocessedItems out) = 0%nat)
    then (Val None, (called w, Reset fc))
    else V1.batchWriteLoop FailConfig ExponentialBackoff MaxRetriesReached Reset
           fuel d input fc (called w).
Proof.
  intros Hcall. simpl. unfold V1.batchWriteUtil. rewrite Hcall. reflexivity.
Qed.

(** The v1 write loop returns nil only from a turn whose output has no
    unprocessed items. *)
Lemma v1_batchWriteLoop_success (fuel : nat) (d : V1.DynamoDB)
    (input : BatchWriteItemInput) (fc fc' : FailConfig) (w w' : world) :
  V1.batchWriteLoop FailConfig ExponentialBackoff MaxRetriesReached Reset
    fuel d input fc w = (Val None, (w', fc')) ->
  exists (input' : BatchWriteItemInput) (out : BatchWriteItemOutput),
    (calls w < calls w')%nat /\
    BatchWriteItem (V1.svc d) (pred (calls w')) input' = (Some out, None) /\
    UnprocessedItems out = ∅.
Proof.
  revert w. induction fuel as [|fuel IH]; intros w Hrun; [discriminate|].
  destruct (BatchWriteItem (V1.svc d) (calls w) input) as [result [e|]] eqn:Hcall.
  - rewrite (v1_batchWriteLoop_error fuel d input fc w result e Hcall) in Hrun.
    destruct (throttling e); discriminate.
  - destruct result as [out|].
    + rewrite (v1_batchWriteLoop_output fuel d input fc w out Hcall) in Hrun.
      case_bool_decide as Hsize.
      * injection Hrun as <- _. exists input, out. simpl.
        split; [lia|]. split; [assumption|].
        apply map_size_empty_iff. assumption.
      * destruct (IH _ Hrun) as (input' & out' & Hlt & Hlast & Hempty).
        exists input', out'. simpl in Hlt. split; [lia|]. split; assumption.
    + simpl in Hrun. unfold V1.batchWriteUtil in Hrun. rewrite Hcall in Hrun.
      discriminate.
Qed.

End V1Loops.

(** v1, on the inputs of C2, C9, C5 and C6: the throttled call panics, the
    empty batch makes one call, the mixed reasons blame both members, the
    longer reason list is indexed out of range. *)
Example v1_same_behaviour :
  let d answers txAnswers :=
    {| V1.svc := scriptedClient answers []; V1.txsvc := scriptedTxClient txAnswers;
       V1.tables := testTables |} in
  let batch answers items :=
    V1.BatchWriteCreate plainMarshaler unit id (fun _ => false) id 2
      (d answers []) "test-table" () items world0 in
  let tx reasons items :=
    V1.TxWrite plainMarshaler (d [] [(None, Some (canceled reasons))]) items "" world0 in
  batch [(None, Some throttledError)] [testItem] =
    (Panic NilDereference, (called world0, ())) /\
  batch [] [] = (Val None, (called world0, ())) /\
  tx [reason ConditionalCheckFailed; reason ThrottlingError]
     [createItem "a"; createItem "b"] =
    (Val ([createItem "a"; createItem "b"], Some (V1.Sentinel V1.ErrTxConditionCheckFailed)),
     called world0) /\
  tx [reason "None"; reason ConditionalCheckFailed] [createItem "a"] =
    (Panic IndexOutOfRange, called world0).
Proof. repeat split; vm_compute; reflexivity. Qed.

(** ** Outputs that report unprocessed items *)

(** What [n] calls to the client leave in the world. *)
Lemma iter_called (n : nat) (w : world) :
  calls (Nat.iter n called w) = (calls w + n)%nat /\
  backoffs (Nat.iter n called w) = backoffs w /\
  slept (Nat.iter n called w) = slept w.
Proof.
  induction n as [|n (Hc & Hb & Hs)]; simpl; [repeat split; lia|].
  rewrite Hc. repeat split; [lia|assumption..].
Qed.

Section Unprocessed.

Variable entropy : nat -> Z.

(** While the client returns outputs that report unprocessed items, the
    write loop sends the same input again, without a backoff; it returns
    success at the first output that reports none.  [k] outputs with
    unprocessed items followed by one without: [k + 1] calls. *)
Lemma batchWriteLoop_completes (k fuel : nat) (q : Queries)
    (input : BatchWriteItemInput) (retries : Retries) (w : world)
    (last : BatchWriteItemOutput) :
  (forall i : nat, (i < k)%nat ->
     exists out, BatchWriteItem (svc q) (calls w + i) input = (Some out, None) /\
       UnprocessedItems out <> ∅) ->
  BatchWriteItem (svc q) (calls w + k) input = (Some last, None) ->
  UnprocessedItems last = ∅ ->
  (k < fuel)%nat ->
  batchWriteLoop entropy fuel q input retries w = (Val None, Nat.iter (S k) called w).
Proof.
  revert fuel w. induction k as [|k IH]; intros fuel w Hbusy Hlast Hempty Hfuel.
  - destruct fuel as [|fuel]; [lia|].
    rewrite Nat.add_0_r in Hlast.
    rewrite (batchWriteLoop_output entropy fuel q input retries w last Hlast).
    rewrite Hempty, map_size_empty. reflexivity.
  - destruct fuel as [|fuel]; [lia|].
    destruct (Hbusy 0%nat) as (out & Hcall & Hsome); [lia|].
    rewrite Nat.add_0_r in Hcall.
    rewrite (batchWriteLoop_output entropy fuel q input retries w out Hcall).
    case_bool_decide as Hsize; [apply map_size_empty_iff in Hsize; contradiction|].
    rewrite (IH fuel (called w)).
    + rewrite <- Nat.iter_succ_r. reflexivity.
    + intros i Hi. destruct (Hbusy (S i)) as (out' & Hcall' & Hsome'); [lia|].
      exists out'. simpl. rewrite <- Nat.add_succ_r. split; assumption.
    + simpl. rewrite <- Nat.add_succ_r. assumption.
    + assumption.
    + lia.
Qed.

(** A client whose every output reports unprocessed items keeps the write
    loop running for any number of turns: the loop exhausts no policy. *)
Lemma batchWriteLoop_spins (fuel : nat) (q : Queries) (input : BatchWriteItemInput)
    (retries : Retries) (w : world) :
  (forall n : nat, exists out,
     BatchWriteItem (svc q) n input = (Some out, None) /\ UnprocessedItems out <> ∅) ->
  batchWriteLoop entropy fuel q input retries w = (Spin, Nat.iter fuel called w).
Proof.
  intros Hbusy. revert w. induction fuel as [|fuel IH]; intros w; [reflexivity|].
  destruct (Hbusy (calls w)) as (out & Hcall & Hsome).
  rewrite (batchWriteLoop_output entropy fuel q input retries w out Hcall).
  case_bool_decide as Hsize; [apply map_size_empty_iff in Hsize; contradiction|].
  rewrite IH, <- Nat.iter_succ_r. reflexivity.
Qed.

End Unprocessed.

(** ** The outcomes of a batch operation *)

Section BatchOutcomes.

Variable av : attributevalue.
Variable entropy : nat -> Z.

(** [k] busy calls are [k] turns of the write loop: the same input is sent
    again and nothing but the calls is left in the world. *)
Lemma batchWriteLoop_busy (k fuel : nat) (q : Queries) (input : BatchWriteItemInput)
    (retries : Retries) (w : world) :
  write_busy (svc q) input (calls w) k -> (k <= fuel)%nat ->
  batchWriteLoop entropy fuel q input retries w =
    batchWriteLoop entropy (fuel - k) q input retries (Nat.iter k called w).
Proof.
  revert fuel w. induction k as [|k IH]; intros fuel w Hbusy Hfuel.
  - rewrite Nat.sub_0_r. reflexivity.
  - destruct fuel as [|fuel]; [lia|].
    destruct (Hbusy 0%nat) as (out & Hcall & Hsome); [lia|].
    rewrite Nat.add_0_r in Hcall.
    rewrite (batchWriteLoop_output entropy fuel q input retries w out Hcall).
    case_bool_decide as Hsize; [apply map_size_empty_iff in Hsize; contradiction|].
    rewrite (IH fuel (called w)).
    + rewrite <- Nat.iter_succ_r. reflexivity.
    + intros i Hi. destruct (Hbusy (S i)) as (out' & Hcall' & Hsome'); [lia|].
      exists out'. simpl. rewrite <- Nat.add_succ_r. split; assumption.
    + lia.
Qed.

(** The three outcomes of the write loop after [k] busy calls. *)
Lemma batchWriteLoop_outcomes (k : nat) (q : Queries) (input : BatchWriteItemInput)
    (retries : Retries) (w : world) :
  write_busy (svc q) input (calls w) k ->
  write_outcomes (fun fuel => batchWriteLoop entropy fuel q input retries w)
    (svc q) input w k.
Proof.
  intros Hbusy. split; [|split].
  - intros fuel Hfuel.
    rewrite (batchWriteLoop_busy fuel fuel q input retries w); [|
      intros i Hi; apply Hbusy; lia|lia].
    rewrite Nat.sub_diag. reflexivity.
  - intros fuel out Hfuel Hcall Hempty.
    apply (batchWriteLoop_completes entropy k fuel q input retries w out); assumption.
  - intros fuel result e Hfuel Hcall Hthr.
    rewrite (batchWriteLoop_busy k fuel q input retries w Hbusy) by lia.
    destruct (fuel - k)%nat as [|m] eqn:Hm; [lia|].
    destruct (iter_called k w) as (Hcalls & _).
    rewrite <- Hcalls in Hcall.
    destruct (batchWriteLoop_error entropy m q input retries _ result e Hcall)
      as (e' & He & Hturn).
    destruct (handleErr_classifies "q.svc.BatchWriteItem: " e) as (e'' & He' & _ & Ha).
    rewrite He in He'. injection He' as <-.
    exists e'. split; [assumption|]. rewrite Hthr in *. split; [assumption|].
    rewrite Hturn. reflexivity.
Qed.

(** The loop over the responses appends to the items it is given. *)
Lemma unmarshalResponses_acc (refObjs : list any) (responses : list AttributeMap)
    (i : nat) (acc got items : list any) :
  unmarshalResponses av refObjs i responses acc = Val (inl got) ->
  unmarshalResponses av refObjs i responses (items ++ acc)%list =
    Val (inl (items ++ got)%list).
Proof.
  revert i acc. induction responses as [|r responses IH]; intros i acc Hrun.
  - simpl in *. injection Hrun as <-. reflexivity.
  - simpl in *. destruct (refObjs !! i) as [ref|]; [|discriminate].
    destruct (UnmarshalMap av r ref) as [ref'|e]; [|discriminate].
    rewrite <- app_assoc. apply IH. assumption.
Qed.

(** [k] busy calls are [k] turns of the get loop. *)
Lemma batchGetLoop_busy (k fuel : nat) (q : Queries) (t : Table) (refObjs : list any)
    (input : BatchGetItemInput) (retries : Retries) (items : list any) (w : world) :
  get_busy av (svc q) t refObjs input (calls w) k -> (k <= fuel)%nat ->
  exists items' : list any,
    batchGetLoop av entropy fuel q t refObjs input retries items w =
      batchGetLoop av entropy (fuel - k) q t refObjs input retries items'
        (Nat.iter k called w).
Proof.
  revert fuel items w. induction k as [|k IH]; intros fuel items w Hbusy Hfuel.
  - exists items. rewrite Nat.sub_0_r. reflexivity.
  - destruct fuel as [|fuel]; [lia|].
    destruct (Hbusy 0%nat) as (out & got & Hcall & Hsome & Hgot); [lia|].
    rewrite Nat.add_0_r in Hcall.
    rewrite (batchGetLoop_output entropy fuel q t refObjs input retries items w av out
               Hcall).
    apply (unmarshalResponses_acc _ _ _ _ _ items) in Hgot.
    rewrite app_nil_r in Hgot. rewrite Hgot.
    case_bool_decide as Hsize; [apply map_size_empty_iff in Hsize; contradiction|].
    destruct (IH fuel (items ++ got)%list (called w)) as (items' & Hrun).
    + intros i Hi. destruct (Hbusy (S i)) as (out' & got' & Hcall' & Hrest); [lia|].
      exists out', got'. simpl. rewrite <- Nat.add_succ_r. split; assumption.
    + lia.
    + exists items'. rewrite Hrun, <- Nat.iter_succ_r. reflexivity.
Qed.

(** The three outcomes of the get loop after [k] busy calls. *)
Lemma batchGetLoop_outcomes (k : nat) (q : Queries) (t : Table) (refObjs : list any)
    (input : BatchGetItemInput) (retries : Retries) (w : world) :
  get_busy av (svc q) t refObjs input (calls w) k ->
  get_outcomes av
    (fun fuel => batchGetLoop av entropy fuel q t refObjs input retries [] w)
    (svc q) t refObjs input w k.
Proof.
  intros Hbusy. split; [|split].
  - intros fuel Hfuel.
    destruct (batchGetLoop_busy fuel fuel q t refObjs input retries [] w)
      as (items' & Hrun); [intros i Hi; apply Hbusy; lia|lia|].
    rewrite Hrun, Nat.sub_diag. reflexivity.
  - intros fuel out got Hfuel Hcall Hempty Hgot.
    destruct (batchGetLoop_busy k fuel q t refObjs input retries [] w Hbusy)
      as (items' & Hrun); [lia|].
    exists items'. rewrite Hrun.
    destruct (fuel - k)%nat as [|m] eqn:Hm; [lia|].
    destruct (iter_called k w) as (Hcalls & _).
    rewrite <- Hcalls in Hcall.
    rewrite (batchGetLoop_output entropy m q t refObjs input retries items' _ av out
               Hcall).
    apply (unmarshalResponses_acc _ _ _ _ _ items') in Hgot.
    rewrite app_nil_r in Hgot. rewrite Hgot, Hempty, map_size_empty. reflexivity.
  - intros fuel result e Hfuel Hcall Hthr.
    destruct (batchGetLoop_busy k fuel q t refObjs input retries [] w Hbusy)
      as (items' & Hrun); [lia|].
    rewrite Hrun.
    destruct (fuel - k)%nat as [|m] eqn:Hm; [lia|].
    destruct (iter_called k w) as (Hcalls & _).
    rewrite <- Hcalls in Hcall.
    destruct (batchGetLoop_error entropy m q t refObjs input retries items' _ av
                result e Hcall) as (e' & He & Hturn).
    destruct (handleErr_classifies "q.svc.BatchGetItem: " e) as (e'' & He' & _ & Ha).
    rewrite He in He'. injection He' as <-.
    exists e'. split; [assumption|]. rewrite Hthr in *. split; [assumption|].
    rewrite Hturn. reflexivity.
Qed.

(** C1 (as amended). A batch operation never returns success while the
    client reports unprocessed items: [BatchWriteCreate], [BatchWriteDelete]
    and [BatchGet] return a nil error only after a call whose output, without
    an error, has an empty unprocessed set.  Otherwise the operation does not
    always return an error.  Once its request is built, and after any number
    [k] of calls that reported unprocessed items without an error: it is
    still running, having made [k] calls and no backoff; it returns success
    after call [k + 1] when that one reports no unprocessed item; and it
    returns an explicit error after call [k + 1], the classified error
    wrapped with the name of the call, when that one fails with an error that
    is not a throttling.  (What a throttling error does is C2's.) *)
Theorem C1_batch_outcomes (q : Queries) (tableName : string) (t : Table) (w : world)
    (k : nat) :
  (forall (fuel : nat) (w' : world),
      (forall items : list any,
          BatchWriteCreate av entropy fuel q tableName items w = (Val None, w') ->
          writes_done (svc q) w w') /\
      (forall queries : list (option Query),
          BatchWriteDelete entropy fuel q tableName queries w = (Val None, w') ->
          writes_done (svc q) w w') /\
      (forall (queries : list (option Query)) (refObjs : list any)
          (expr : Expression.t) (got : list any),
          BatchGet av entropy fuel q tableName queries refObjs expr w =
            (Val (got, None), w') ->
          gets_done (svc q) w w')) /\
  (tables q !! tableName = Some (Some t) ->
    (forall (items : list any) (wrs : list WriteRequest),
        (length items <= 25)%nat ->
        putRequests av items = inl wrs ->
        write_busy (svc q) {| RequestItems := <[TableName t := wrs]> ∅ |} (calls w) k ->
        write_outcomes (fun fuel => BatchWriteCreate av entropy fuel q tableName items w)
          (svc q) {| RequestItems := <[TableName t := wrs]> ∅ |} w k) /\
    (forall (queries : list (option Query)) (wrs : list WriteRequest),
        (length queries <= 25)%nat ->
        deleteRequests queries t = Val wrs ->
        write_busy (svc q) {| RequestItems := <[TableName t := wrs]> ∅ |} (calls w) k ->
        write_outcomes (fun fuel => BatchWriteDelete entropy fuel q tableName queries w)
          (svc q) {| RequestItems := <[TableName t := wrs]> ∅ |} w k) /\
    (forall (queries : list (option Query)) (refObjs : list any) (expr : Expression.t)
        (keys : list AttributeMap),
        (length queries <= 100)%nat ->
        length queries = length refObjs ->
        getKeys queries t = Val keys ->
        get_busy av (svc q) t refObjs
          {| RequestKeys := <[TableName t := {| Keys := keys |}]> ∅ |} (calls w) k ->
        get_outcomes av
          (fun fuel => BatchGet av entropy fuel q tableName queries refObjs expr w)
          (svc q) t refObjs
          {| RequestKeys := <[TableName t := {| Keys := keys |}]> ∅ |} w k)).
Proof.
  split; [|intros Ht; split; [|split]].
  - intros fuel w'. split; [|split].
    + intros items Hrun. unfold BatchWriteCreate in Hrun.
      destruct (25 <? Z.of_nat (length items)); [discriminate|].
      destruct (tables q !! tableName) as [t'|]; [|discriminate].
      destruct (putRequests av items) as [wrs|e]; [|discriminate].
      destruct t' as [t'|]; [|discriminate].
      eapply batchWriteLoop_success; eassumption.
    + intros queries Hrun. unfold BatchWriteDelete in Hrun.
      destruct (25 <? Z.of_nat (length queries)); [discriminate|].
      destruct (tables q !! tableName) as [[t'|]|]; try discriminate.
      destruct (deleteRequests queries t') as [wrs|p|]; try discriminate.
      eapply batchWriteLoop_success; eassumption.
    + intros queries refObjs expr got Hrun. unfold BatchGet in Hrun.
      destruct (100 <? Z.of_nat (length queries)); [discriminate|].
      destruct (negb _); [discriminate|].
      destruct (tables q !! tableName) as [[t'|]|]; try discriminate.
      destruct (getKeys queries t') as [keys|p|]; try discriminate.
      eapply batchGetLoop_success; eassumption.
  - intros items wrs Hlen Hput Hbusy.
    assert (Hrun : forall fuel,
               BatchWriteCreate av entropy fuel q tableName items w =
                 batchWriteLoop entropy fuel q
                   {| RequestItems := <[TableName t := wrs]> ∅ |} (NewRetries (fc q)) w).
    { intros fuel. unfold BatchWriteCreate.
      destruct (Z.ltb_spec 25 (Z.of_nat (length items))); [lia|].
      rewrite Ht, Hput. reflexivity. }
    destruct (batchWriteLoop_outcomes k q _ (NewRetries (fc q)) w Hbusy)
      as (Hspin & Hdone & Herr).
    split; [|split].
    + intros fuel Hfuel. rewrite Hrun. apply Hspin. assumption.
    + intros fuel out Hfuel Hcall Hempty. rewrite Hrun. eapply Hdone; eassumption.
    + intros fuel result e Hfuel Hcall Hthr.
      destruct (Herr fuel result e Hfuel Hcall Hthr) as (e' & He & Ha & Hloop).
      exists e'. rewrite Hrun. repeat split; assumption.
  - intros queries wrs Hlen Hdel Hbusy.
    assert (Hrun : forall fuel,
               BatchWriteDelete entropy fuel q tableName queries w =
                 batchWriteLoop entropy fuel q
                   {| RequestItems := <[TableName t := wrs]> ∅ |} (NewRetries (fc q)) w).
    { intros fuel. unfold BatchWriteDelete.
      destruct (Z.ltb_spec 25 (Z.of_nat (length queries))); [lia|].
      rewrite Ht, Hdel. reflexivity. }
    destruct (batchWriteLoop_outcomes k q _ (NewRetries (fc q)) w Hbusy)
      as (Hspin & Hdone & Herr).
    split; [|split].
    + intros fuel Hfuel. rewrite Hrun. apply Hspin. assumption.
    + intros fuel out Hfuel Hcall Hempty. rewrite Hrun. eapply Hdone; eassumption.
    + intros fuel result e Hfuel Hcall Hthr.
      destruct (Herr fuel result e Hfuel Hcall Hthr) as (e' & He & Ha & Hloop).
      exists e'. rewrite Hrun. repeat split; assumption.
  - intros queries refObjs expr keys Hlen Hrefs Hkeys Hbusy.
    assert (Hrun : forall fuel,
               BatchGet av entropy fuel q tableName queries refObjs expr w =
                 batchGetLoop av entropy fuel q t refObjs
                   {| RequestKeys := <[TableName t := {| Keys := keys |}]> ∅ |}
                   (NewRetries (fc q)) [] w).
    { intros fuel. unfold BatchGet.
      destruct (Z.ltb_spec 100 (Z.of_nat (length queries))); [lia|].
      rewrite Hrefs, Nat.eqb_refl. simpl negb. cbv iota.
      rewrite Ht, Hkeys. reflexivity. }
    destruct (batchGetLoop_outcomes k q t refObjs _ (NewRetries (fc q)) w Hbusy)
      as (Hspin & Hdone & Herr).
    split; [|split].
    + intros fuel Hfuel. rewrite Hrun. apply Hspin. assumption.
    + intros fuel out got Hfuel Hcall Hempty Hgot. rewrite Hrun.
      eapply Hdone; eassumption.
    + intros fuel result e Hfuel Hcall Hthr.
      destruct (Herr fuel result e Hfuel Hcall Hthr) as (e' & He & Ha & Hloop).
      exists e'. rewrite Hrun. repeat split; assumption.
Qed.

End BatchOutcomes.

(** One busy call, then an output without unprocessed items: success after
    two calls; one busy call, then an error that is not a throttling: the
    error, after two calls. *)
Lemma C1_witness :
  let busy := (Some busyOutput, None) in
  let done := NewQueries (scriptedClient [busy] []) testTables None in
  let fails := NewQueries (scriptedClient [busy; (None, Some notFoundError)] [])
                 testTables None in
  BatchWriteCreate plainMarshaler noEntropy 5 done "test-table" [testItem] world0 =
    (Val None, called (called world0)) /\
  BatchWriteCreate plainMarshaler noEntropy 5 fails "test-table" [testItem] world0 =
    (Val (Some (Errorf "q.batchWriteUtil: "
                  (NewResourceNotFoundError "no such table"))), called (called world0)).
Proof.
  intros busy done fails.
  assert (Hbusy : forall q answers,
             svc q = scriptedClient (busy :: answers) [] ->
             write_busy (svc q) {| RequestItems := <[TableName testTable := [PutRequest ∅]]> ∅ |}
               (calls world0) 1).
  { intros q answers Hq i Hi. exists busyOutput. rewrite Hq.
    destruct i as [|i]; [|lia]. split; [reflexivity|].
    unfold busyOutput. simpl. apply insert_non_empty. }
  split.
  - destruct (C1_batch_outcomes plainMarshaler noEntropy done "test-table" testTable
                world0 1) as (_ & Hloop).
    destruct Hloop as (Hcreate & _); [reflexivity|].
    destruct (Hcreate [testItem] [PutRequest ∅]) as (_ & Hdone & _);
      [simpl; lia|reflexivity|apply (Hbusy done []); reflexivity|].
    apply (Hdone 5%nat {| UnprocessedItems := ∅ |}); [lia|reflexivity..].
  - destruct (C1_batch_outcomes plainMarshaler noEntropy fails "test-table" testTable
                world0 1) as (_ & Hloop).
    destruct Hloop as (Hcreate & _); [reflexivity|].
    destruct (Hcreate [testItem] [PutRequest ∅]) as (_ & _ & Herr);
      [simpl; lia|reflexivity|
       apply (Hbusy fails [(None, Some notFoundError)]); reflexivity|].
    destruct (Herr 5%nat None notFoundError) as (e' & He & _ & Hrun);
      [lia|reflexivity..|].
    vm_compute in He. injection He as <-. exact Hrun.
Defined.

(** C1, the claim as stated, fails on a client whose every output reports
    unprocessed items without an error: [BatchWriteCreate] returns neither
    success nor an error, however long it runs. *)
Lemma C1_counterexample :
  ~ exists (fuel : nat) (r : option error) (w' : world),
      BatchWriteCreate plainMarshaler noEntropy fuel
        (NewQueries busyClient testTables None) "test-table" [testItem] world0 =
        (Val r, w').
Proof.
  intros (fuel & r & w' & Hrun).
  unfold BatchWriteCreate in Hrun. simpl length in Hrun. simpl Z.ltb in Hrun.
  change (tables (NewQueries busyClient testTables None) !! "test-table")
    with (Some (Some testTable)) in Hrun.
  cbv iota beta in Hrun.
  change (putRequests plainMarshaler [testItem]) with (@inl _ error [PutRequest ∅]) in Hrun.
  cbv iota beta zeta in Hrun.
  rewrite batchWriteLoop_spins in Hrun; [discriminate|].
  intros n. exists busyOutput. split; [reflexivity|].
  unfold busyOutput. simpl. apply insert_non_empty.
Qed.

(** * Further properties of the code *)

(** ** Exponential backoff: exhaustion and accounting *)

(** One call from a state within the lower bound of [n] calls gives a state
    within the lower bound of [n + 1] calls. *)
Lemma backoff_raises_lower_bound (f : FailConfig) (r : Retries) (v n : Z) :
  policy_in_range f -> retries_inv f r -> 0 <= n -> elapsed_lower_bound n r ->
  exists b, ExponentialBackoff r v = Val b /\
    retries_inv f (after b) /\ elapsed_lower_bound (n + 1) (after b).
Proof.
  intros Hf Hinv Hn Hlow.
  destruct (Z.le_gt_cases (cap r) (elapsed r)) as [Hge|Hlt].
  { eexists. split; [apply backoff_exhausted; assumption|]. simpl.
    split; [assumption|]. left. destruct Hinv as (_ & _ & _ & He & _). lia. }
  destruct Hlow as [Hcap|[Hatt Hlow]]; [lia|].
  destruct (sleep_in_range f r Hf Hinv Hlt) as (s & Es & Hs & Hcase).
  destruct (backoff_preserves_inv f r v Hf Hinv) as (b & Eb & Hinv' & _).
  exists b. split; [assumption|]. split; [assumption|].
  destruct Hf as (Hb & Hc & Hj & Hr). destruct Hinv as (Eb' & Ec & Ej & He & _).
  unfold max_int64 in Hr.
  assert (Hjr : 0 < jitter r) by lia.
  destruct (Int63n_positive (jitter r) v Hjr) as [Ej' Hm].
  unfold ExponentialBackoff in Eb.
  destruct (Z.leb_spec (cap r) (elapsed r)); [lia|].
  rewrite Ej', Es in Eb.
  rewrite (wrap64_id (s + v mod jitter r)) in Eb
    by (unfold int64, min_int64, max_int64; lia).
  rewrite (wrap64_id (elapsed r + _)) in Eb
    by (unfold int64, min_int64, max_int64; lia).
  destruct (Z.ltb_spec (cap r) (elapsed r + (s + v mod jitter r))) as [Hc'|Hc'];
    injection Eb as <-; unfold elapsed_lower_bound; simpl.
  - left. reflexivity.
  - right.
    assert (Hpow : 2 ^ (n + 1 + 1) = 2 * 2 ^ (n + 1)).
    { replace (n + 1 + 1) with (Z.succ (n + 1)) by lia. apply Z.pow_succ_r. lia. }
    destruct Hcase as [H0|(Ea & Ha & Es')].
    + split; [left; assumption|]. rewrite H0 in *. lia.
    + destruct Hatt as [H0|Hatt].
      * split; [left; assumption|]. rewrite H0 in *. lia.
      * split; [right; rewrite Ea; lia|].
        rewrite Hpow. rewrite Hatt in Es'. nia.
Qed.

(** The states of a run: [backoff_calls] lists the states [backoff_run]
    leaves. *)
Lemma backoff_calls_run (r : Retries) (draws : list Z) :
  backoff_calls r draws =
    match backoff_run r draws with
    | Val bs => Val (after <$> bs)
    | Panic p => Panic p
    | Spin => Spin
    end.
Proof.
  revert r. induction draws as [|v draws IH]; intros r; [reflexivity|].
  simpl. destruct (ExponentialBackoff r v) as [b| |]; try reflexivity.
  rewrite IH. destruct (backoff_run (after b) draws); reflexivity.
Qed.

(** A run from a state within the lower bound of [n] calls ends within the
    lower bound of [n + length draws] calls. *)
Lemma backoff_run_lower_bound (f : FailConfig) (draws : list Z) (r : Retries) (n : Z) :
  policy_in_range f -> retries_inv f r -> 0 <= n -> elapsed_lower_bound n r ->
  exists bs, backoff_run r draws = Val bs /\ length bs = length draws /\
    retries_inv f (final_state r bs) /\
    elapsed_lower_bound (n + Z.of_nat (length draws)) (final_state r bs).
Proof.
  intros Hf. revert r n. induction draws as [|v draws IH]; intros r n Hinv Hn Hlow.
  - exists []. unfold final_state. simpl. rewrite Z.add_0_r.
    split; [reflexivity|]. split; [reflexivity|]. split; assumption.
  - destruct (backoff_raises_lower_bound f r v n Hf Hinv Hn Hlow)
      as (b & Eb & Hinv' & Hlow').
    destruct (IH (after b) (n + 1) Hinv' ltac:(lia) Hlow')
      as (bs & Ebs & Hlen & Hinv'' & Hlow'').
    exists (b :: bs). simpl. rewrite Eb, Ebs.
    split; [reflexivity|]. split; [simpl; lia|].
    assert (Hfinal : final_state r (b :: bs) = final_state (after b) bs).
    { unfold final_state. rewrite fmap_cons, last_cons.
      destruct (last (after <$> bs)); reflexivity. }
    rewrite Hfinal. split; [assumption|].
    replace (n + Z.of_nat (S (length draws))) with (n + 1 + Z.of_nat (length draws))
      by lia.
    assumption.
Qed.

(** X1. The policy is exhausted after a bounded number of calls: for a
    policy in range ([0 <= Base], [0 <= Cap], [0 < Jitter] and
    [2 * Cap + 2 * Base + Jitter] within [int64]), once [n] calls were made
    with [Cap <= Base * (2^(n+1) - 2)], the elapsed time is at the cap,
    whatever the draws, and every further call fails with
    [MaxRetriesExceeded]. *)
Theorem X1_backoff_exhausts (f : FailConfig) (draws : list Z) :
  policy_in_range f ->
  Cap f <= Base f * (2 ^ (Z.of_nat (length draws) + 1) - 2) ->
  exists bs, backoff_run (NewRetries f) draws = Val bs /\
    elapsed (final_state (NewRetries f) bs) = Cap f /\
    forall v : Z,
      ExponentialBackoff (final_state (NewRetries f) bs) v =
        Val {| failure := Some NewMaxRetriesExceededError;
               after := final_state (NewRetries f) bs; sleeps := [] |}.
Proof.
  intros Hf Hn.
  destruct (backoff_run_lower_bound f draws (NewRetries f) 0 Hf (NewRetries_inv f Hf))
    as (bs & Ebs & _ & Hinv & Hlow); [lia| |].
  { right. simpl. split; [right; reflexivity|]. change (2 ^ (0 + 1)) with 2. lia. }
  exists bs. split; [assumption|].
  destruct Hinv as (Eb & Ec & _ & He & _).
  assert (Hcap : elapsed (final_state (NewRetries f) bs) = Cap f).
  { destruct Hlow as [Hcap|[_ Hlow]]; [lia|].
    rewrite Z.add_0_l, Eb in Hlow. lia. }
  split; [assumption|].
  intros v. apply backoff_exhausted. lia.
Qed.

Lemma X1_witness :
  exists bs, backoff_run (NewRetries DefaultFailConfig) (replicate 10 0) = Val bs /\
    elapsed (final_state (NewRetries DefaultFailConfig) bs) = 60000.
Proof.
  destruct (X1_backoff_exhausts DefaultFailConfig (replicate 10 0))
    as (bs & Ebs & He & _).
  - unfold policy_in_range, max_int64; simpl; lia.
  - vm_compute. discriminate.
  - exists bs. split; assumption.
Defined.

(** A call that leaves the elapsed time below the cap slept, in
    milliseconds, exactly the time it added. *)
Lemma backoff_below_cap_sleeps (f : FailConfig) (r : Retries) (v : Z) (b : backoff) :
  policy_in_range f -> Cap f * Millisecond <= max_int64 -> retries_inv f r ->
  ExponentialBackoff r v = Val b -> elapsed (after b) < cap r ->
  failure b = None /\
  sleeps b = [(elapsed (after b) - elapsed r) * Millisecond].
Proof.
  intros Hf Hms Hinv Eb Hbelow.
  destruct (Z.le_gt_cases (cap r) (elapsed r)) as [Hge|Hlt].
  { rewrite backoff_exhausted in Eb by assumption. injection Eb as <-.
    simpl in Hbelow. lia. }
  destruct (sleep_in_range f r Hf Hinv Hlt) as (s & Es & Hs & _).
  destruct Hf as (Hb & Hc & Hj & Hr). destruct Hinv as (Eb' & Ec & Ej & He & _).
  unfold max_int64 in Hr, Hms. unfold Millisecond in *.
  assert (Hjr : 0 < jitter r) by lia.
  destruct (Int63n_positive (jitter r) v Hjr) as [Ej' Hm].
  unfold ExponentialBackoff in Eb.
  destruct (Z.leb_spec (cap r) (elapsed r)); [lia|].
  rewrite Ej', Es in Eb.
  rewrite (wrap64_id (s + v mod jitter r)) in Eb
    by (unfold int64, min_int64, max_int64; lia).
  rewrite (wrap64_id (elapsed r + _)) in Eb
    by (unfold int64, min_int64, max_int64; lia).
  destruct (Z.ltb_spec (cap r) (elapsed r + (s + v mod jitter r))) as [Hc'|Hc'];
    injection Eb as <-; simpl in *; [lia|].
  split; [reflexivity|].
  rewrite wrap64_id by (unfold int64, min_int64, max_int64, Millisecond; lia).
  f_equal. unfold Millisecond. lia.
Qed.

(** The elapsed time does not decrease over a run, and the cap stays. *)
Lemma backoff_run_monotone (f : FailConfig) (draws : list Z) (r : Retries)
    (bs : list backoff) :
  policy_in_range f -> retries_inv f r -> backoff_run r draws = Val bs ->
  elapsed r <= elapsed (final_state r bs) /\ cap (final_state r bs) = cap r.
Proof.
  intros Hf. revert r bs. induction draws as [|v draws IH]; intros r bs Hinv Hrun.
  - injection Hrun as <-. unfold final_state. simpl. lia.
  - simpl in Hrun.
    destruct (backoff_preserves_inv f r v Hf Hinv) as (b & Eb & Hinv' & Hle).
    rewrite Eb in Hrun.
    destruct (backoff_run (after b) draws) as [bs'| |] eqn:Ebs; try discriminate.
    injection Hrun as <-.
    destruct (IH (after b) bs' Hinv' Ebs) as [Hle' Hcap'].
    assert (Hfinal : final_state r (b :: bs') = final_state (after b) bs').
    { unfold final_state. rewrite fmap_cons, last_cons.
      destruct (last (after <$> bs')); reflexivity. }
    rewrite Hfinal.
    destruct Hinv as (_ & Ec & _). destruct Hinv' as (_ & Ec' & _).
    split; [lia|congruence].
Qed.

(** X2. The elapsed time counts the time slept: for a policy in range whose
    cap in nanoseconds fits an [int64], a run that ends below the cap made no
    failing call and handed to [time.Sleep], in total, exactly the elapsed
    time in milliseconds. *)
Theorem X2_elapsed_counts_time_slept (f : FailConfig) (draws : list Z)
    (bs : list backoff) :
  policy_in_range f -> Cap f * Millisecond <= max_int64 ->
  backoff_run (NewRetries f) draws = Val bs ->
  elapsed (final_state (NewRetries f) bs) < Cap f ->
  Forall (fun b => failure b = None) bs /\
  total_slept bs = elapsed (final_state (NewRetries f) bs) * Millisecond.
Proof.
  intros Hf Hms Hrun Hbelow.
  assert (Hgen : forall draws r bs,
             retries_inv f r -> backoff_run r draws = Val bs ->
             elapsed (final_state r bs) < cap r ->
             Forall (fun b => failure b = None) bs /\
             total_slept bs = (elapsed (final_state r bs) - elapsed r) * Millisecond).
  { clear draws bs Hrun Hbelow.
    induction draws as [|v draws IH]; intros r bs Hinv Hrun Hbelow.
    - injection Hrun as <-. unfold final_state. simpl. split; [constructor|lia].
    - simpl in Hrun.
      destruct (backoff_preserves_inv f r v Hf Hinv) as (b & Eb & Hinv' & Hle).
      rewrite Eb in Hrun.
      destruct (backoff_run (after b) draws) as [bs'| |] eqn:Ebs; try discriminate.
      injection Hrun as <-.
      assert (Hfinal : final_state r (b :: bs') = final_state (after b) bs').
      { unfold final_state. rewrite fmap_cons, last_cons.
        destruct (last (after <$> bs')); reflexivity. }
      rewrite Hfinal in *.
      destruct (backoff_run_monotone f draws (after b) bs' Hf Hinv' Ebs) as [Hmono _].
      assert (Hcap : cap (after b) = cap r).
      { destruct Hinv as (_ & Ec & _). destruct Hinv' as (_ & Ec' & _). congruence. }
      destruct (backoff_below_cap_sleeps f r v b Hf Hms Hinv Eb) as [Hok Hsl]; [lia|].
      destruct (IH (after b) bs' Hinv' Ebs) as [Hall Hsum]; [lia|].
      split; [constructor; assumption|].
      cbn [total_slept foldr]. fold (total_slept bs').
      rewrite Hsl, Hsum. simpl. lia. }
  destruct (Hgen draws (NewRetries f) bs (NewRetries_inv f Hf) Hrun) as [Hall Hsum].
  { simpl. assumption. }
  split; [assumption|]. rewrite Hsum. simpl. lia.
Qed.

Lemma X2_witness :
  let bs :=
    [ {| failure := None;
         after := {| base := 50; cap := 60000; jitter := 250;
                     attempt := 1; elapsed := 103 |};
         sleeps := [103 * Millisecond] |};
      {| failure := None;
         after := {| base := 50; cap := 60000; jitter := 250;
                     attempt := 2; elapsed := 303 |};
         sleeps := [200 * Millisecond] |};
      {| failure := None;
         after := {| base := 50; cap := 60000; jitter := 250;
                     attempt := 3; elapsed := 780 |};
         sleeps := [477 * Millisecond] |} ] in
  backoff_run (NewRetries DefaultFailConfig) [3; 1000; 77] = Val bs /\
  total_slept bs = 780 * Millisecond.
Proof.
  intros bs.
  assert (Hrun : backoff_run (NewRetries DefaultFailConfig) [3; 1000; 77] = Val bs)
    by (vm_compute; reflexivity).
  split; [exact Hrun|].
  apply (X2_elapsed_counts_time_slept DefaultFailConfig [3; 1000; 77] bs).
  - unfold policy_in_range, max_int64; simpl; lia.
  - vm_compute. discriminate.
  - exact Hrun.
  - vm_compute. reflexivity.
Defined.

(** ** Classification of the client's errors *)

(** X3. [handleErr] never returns nil for an error and never lets an error of
    the SDK through: the error it returns is a [goaws.AwsError] that holds no
    SDK error, and it is retryable exactly when the chain of the input holds
    a [ProvisionedThroughputExceededException] or a [RequestLimitExceeded],
    in which case it is a [RateLimitExceededError]. *)
Theorem X3_handleErr_classifies_every_error (e : error) :
  exists e', handleErr (Some e) = Some e' /\
    as_sdk e' = None /\
    as_AwsError e' = Some (as_dynamo RateLimitExceededError e') /\
    as_dynamo RateLimitExceededError e' =
      match as_sdk e with
      | Some s => throttling s
      | None => false
      end.
Proof.
  unfold handleErr, throttling.
  destruct (as_sdk e) as [s|]; simpl.
  - destruct (exception s); eexists; repeat split; reflexivity.
  - eexists; repeat split; reflexivity.
Qed.

Section BatchErrors.

Variable av : attributevalue.
Variable entropy : nat -> Z.

(** The errors [ExponentialBackoff] returns are [goaws.AwsError]s. *)
Lemma backoff_failure_is_AwsError (r : Retries) (v : Z) (b : backoff) (e : error) :
  ExponentialBackoff r v = Val b -> failure b = Some e -> is_Some (as_AwsError e).
Proof.
  unfold ExponentialBackoff. intros Hb He.
  destruct (cap r <=? elapsed r).
  - injection Hb as <-. simpl in He. injection He as <-. eexists; reflexivity.
  - destruct (Int63n (jitter r) v); try discriminate.
    destruct (cap r <? _); injection Hb as <-; discriminate.
Qed.

(** Every error the switch of the loops returns is a [goaws.AwsError]. *)
Lemma onBatchError_is_AwsError {I O : Type} (util : string) (unprocessed : O -> I)
    (result : option O) (err : option error) (input : I) (retries : Retries)
    (w w' : world) (e : error) :
  onBatchError entropy util unprocessed result err input retries w = (Val (Done e), w') ->
  is_Some (as_AwsError e).
Proof.
  unfold onBatchError. destruct err as [e0|]; [|discriminate].
  assert (Hretry : forall (w1 : world),
             match result with
             | None => (Panic NilDereference, w)
             | Some res =>
                 match ExponentialBackoff retries (entropy (backoffs w)) with
                 | Val b =>
                     match failure b with
                     | Some e' =>
                         (Val (Done (Errorf "retries.ExponentialBackoff: " e')),
                          backed_off (sleeps b) w)
                     | None =>
                         (Val (Again (unprocessed res, after b)), backed_off (sleeps b) w)
                     end
                 | Panic p => (Panic p, w)
                 | Spin => (Spin, w)
                 end
             end = (Val (Done e), w1) -> is_Some (as_AwsError e)).
  { intros w1. destruct result as [res|]; [|discriminate].
    destruct (ExponentialBackoff retries (entropy (backoffs w))) as [b| |] eqn:Eb;
      try discriminate.
    destruct (failure b) as [e'|] eqn:Ef; [|discriminate].
    intros H. injection H as <- _. simpl.
    eapply backoff_failure_is_AwsError; eassumption. }
  destruct (as_dynamo RateLimitExceededError e0); [apply Hretry|].
  destruct (as_AwsError e0) as [[|]|] eqn:Ea; [apply Hretry| |].
  - intros H. injection H as <- _. simpl. rewrite Ea. eexists; reflexivity.
  - intros H. injection H as <- _. eexists; reflexivity.
Qed.

Lemma batchWriteLoop_is_AwsError (fuel : nat) (q : Queries) (input : BatchWriteItemInput)
    (retries : Retries) (w w' : world) (e : error) :
  batchWriteLoop entropy fuel q input retries w = (Val (Some e), w') ->
  is_Some (as_AwsError e).
Proof.
  revert input retries w. induction fuel as [|fuel IH]; intros input retries w Hrun;
    [discriminate|].
  simpl in Hrun.
  destruct (batchWriteUtil q input w) as [[result err] w1].
  destruct (onBatchError entropy "q.batchWriteUtil: " _ result err input retries w1)
    as [[[[input' retries']|e']|p|] w2] eqn:Hswitch; try discriminate.
  - destruct result as [res|]; [|discriminate].
    destruct (bool_decide _); [discriminate|]. eapply IH; eassumption.
  - injection Hrun as <- _. eapply onBatchError_is_AwsError; eassumption.
Qed.

Lemma putRequests_is_AwsError (items : list any) (e : error) :
  putRequests av items = inr e -> is_Some (as_AwsError e).
Proof.
  induction items as [|item items IH]; [discriminate|].
  intros H.
  assert (Hcons : match MarshalMap av item with
                  | inr e0 =>
                      inr (NewInternalError
                             (Errorf "attributevalue.MarshalMap: " (Sdk e0)))
                  | inl m =>
                      match putRequests av items with
                      | inr e0 => inr e0
                      | inl wrs => inl (PutRequest m :: wrs)
                      end
                  end = inr e -> is_Some (as_AwsError e)).
  { destruct (MarshalMap av item) as [m|e0].
    - destruct (putRequests av items) as [wrs|e1]; [discriminate|].
      intros H'. injection H' as <-. apply IH. reflexivity.
    - intros H'. injection H' as <-. eexists; reflexivity. }
  destruct item; simpl in H; try (apply Hcons; exact H).
  apply IH. exact H.
Qed.

Lemma batchGetLoop_is_AwsError (fuel : nat) (q : Queries) (t : Table)
    (refObjs : list any) (input : BatchGetItemInput) (retries : Retries)
    (items got : list any) (w w' : world) (e : error) :
  batchGetLoop av entropy fuel q t refObjs input retries items w =
    (Val (got, Some e), w') ->
  is_Some (as_AwsError e).
Proof.
  revert input retries items w.
  induction fuel as [|fuel IH]; intros input retries items w Hrun; [discriminate|].
  simpl in Hrun.
  destruct (batchGetUtil q input w) as [[result err] w1].
  destruct (onBatchError entropy "q.batchGetUtil: " _ result err input retries w1)
    as [[[[input' retries']|e']|p|] w2] eqn:Hswitch; try discriminate.
  - destruct result as [res|]; [|discriminate].
    destruct (unmarshalResponses av refObjs 0 _ items) as [[items'|e']|p|] eqn:Hun;
      try discriminate.
    + destruct (bool_decide _); [discriminate|]. eapply IH; eassumption.
    + injection Hrun as _ <- _.
      clear -Hun. revert Hun. generalize 0%nat. generalize items.
      induction (default [] (Responses res !! TableName t)) as [|r rs IHr];
        intros items0 i Hun; [discriminate|].
      simpl in Hun. destruct (refObjs !! i) as [ref|]; [|discriminate].
      destruct (UnmarshalMap av r ref) as [ref'|e0].
      * eapply IHr; eassumption.
      * injection Hun as <-. eexists; reflexivity.
  - injection Hrun as _ <- _. eapply onBatchError_is_AwsError; eassumption.
Qed.

(** X4. Every error [BatchWriteCreate], [BatchWriteDelete] and [BatchGet]
    return is one that [errors.As] finds to be a [goaws.AwsError], as the
    tests of the package assert for each of their cases. *)
Theorem X4_batch_errors_are_AwsErrors (fuel : nat) (q : Queries) (tableName : string)
    (w w' : world) (e : error) :
  (forall items : list any,
      BatchWriteCreate av entropy fuel q tableName items w = (Val (Some e), w') ->
      is_Some (as_AwsError e)) /\
  (forall queries : list (option Query),
      BatchWriteDelete entropy fuel q tableName queries w = (Val (Some e), w') ->
      is_Some (as_AwsError e)) /\
  (forall (queries : list (option Query)) (refObjs got : list any) (expr : Expression.t),
      BatchGet av entropy fuel q tableName queries refObjs expr w =
        (Val (got, Some e), w') ->
      is_Some (as_AwsError e)).
Proof.
  repeat split.
  - intros items Hrun. unfold BatchWriteCreate in Hrun.
    destruct (25 <? Z.of_nat (length items)).
    { injection Hrun as <- _. eexists; reflexivity. }
    destruct (tables q !! tableName) as [t|].
    2:{ injection Hrun as <- _. eexists; reflexivity. }
    destruct (putRequests av items) as [wrs|e0] eqn:Hput.
    2:{ injection Hrun as <- _. eapply putRequests_is_AwsError; eassumption. }
    destruct t as [t|]; [|discriminate].
    eapply batchWriteLoop_is_AwsError; eassumption.
  - intros queries Hrun. unfold BatchWriteDelete in Hrun.
    destruct (25 <? Z.of_nat (length queries)).
    { injection Hrun as <- _. eexists; reflexivity. }
    destruct (tables q !! tableName) as [[t|]|];
      try (injection Hrun as <- _; eexists; reflexivity).
    destruct (deleteRequests queries t) as [wrs|p|]; try discriminate.
    eapply batchWriteLoop_is_AwsError; eassumption.
  - intros queries refObjs got expr Hrun. unfold BatchGet in Hrun.
    destruct (100 <? Z.of_nat (length queries)).
    { injection Hrun as _ <- _. eexists; reflexivity. }
    destruct (negb _).
    { injection Hrun as _ <- _. eexists; reflexivity. }
    destruct (tables q !! tableName) as [[t|]|];
      try (injection Hrun as _ <- _; eexists; reflexivity).
    destruct (getKeys queries t) as [keys|p|]; try discriminate.
    eapply batchGetLoop_is_AwsError; eassumption.
Qed.

End BatchErrors.

Lemma X4_witness :
  is_Some (as_AwsError (NewCollectionSizeExceededError 26)).
Proof.
  destruct (X4_batch_errors_are_AwsErrors plainMarshaler noEntropy 3
              (NewQueries (scriptedClient [] []) testTables None) "test-table"
              world0 world0 (NewCollectionSizeExceededError 26)) as [H _].
  apply (H (replicate 26 AnyNil)). reflexivity.
Defined.

(** ** Batch operations: errors, requests and turns *)

Section BatchBehaviour.

Variable av : attributevalue.
Variable entropy : nat -> Z.

(** X5. An error of the client that is not a throttling ends a batch
    operation after that one call: the operation returns the classified
    error wrapped with the name of the failing call, and the error is not
    retryable.  For [BatchWriteCreate] and [BatchGet], on the request each
    builds. *)
Theorem X5_other_errors_end_the_batch (fuel : nat) (q : Queries) (tableName : string)
    (t : Table) (w : world) (e : sdk_error) :
  tables q !! tableName = Some (Some t) ->
  throttling e = false ->
  (forall (items : list any) (wrs : list WriteRequest)
      (result : option BatchWriteItemOutput),
      (length items <= 25)%nat ->
      putRequests av items = inl wrs ->
      BatchWriteItem (svc q) (calls w) {| RequestItems := <[TableName t := wrs]> ∅ |} =
        (result, Some e) ->
      exists e', handleErr (Some (Errorf "q.svc.BatchWriteItem: " (Sdk e))) = Some e' /\
        BatchWriteCreate av entropy (S fuel) q tableName items w =
          (Val (Some (Errorf "q.batchWriteUtil: " e')), called w) /\
        as_AwsError (Errorf "q.batchWriteUtil: " e') = Some false) /\
  (forall (queries : list (option Query)) (refObjs : list any) (expr : Expression.t)
      (keys : list AttributeMap) (result : option BatchGetItemOutput),
      (length queries <= 100)%nat ->
      length queries = length refObjs ->
      getKeys queries t = Val keys ->
      BatchGetItem (svc q) (calls w)
        {| RequestKeys := <[TableName t := {| Keys := keys |}]> ∅ |} = (result, Some e) ->
      exists e', handleErr (Some (Errorf "q.svc.BatchGetItem: " (Sdk e))) = Some e' /\
        BatchGet av entropy (S fuel) q tableName queries refObjs expr w =
          (Val ([], Some (Errorf "q.batchGetUtil: " e')), called w) /\
        as_AwsError (Errorf "q.batchGetUtil: " e') = Some false).
Proof.
  intros Ht Hthr. split.
  - intros items wrs result Hlen Hput Hcall.
    destruct (batchWriteLoop_error entropy fuel q _ (NewRetries (fc q)) w result e Hcall)
      as (e' & He & Hturn).
    destruct (handleErr_classifies "q.svc.BatchWriteItem: " e) as (e'' & He' & _ & Ha).
    rewrite He in He'. injection He' as <-.
    exists e'. split; [assumption|]. split.
    + unfold BatchWriteCreate.
      destruct (Z.ltb_spec 25 (Z.of_nat (length items))); [lia|].
      rewrite Ht, Hput, Hturn, Hthr. reflexivity.
    + simpl. rewrite Ha, Hthr. reflexivity.
  - intros queries refObjs expr keys result Hlen Heq Hkeys Hcall.
    destruct (batchGetLoop_error entropy fuel q t refObjs _ (NewRetries (fc q)) [] w av
                result e Hcall) as (e' & He & Hturn).
    destruct (handleErr_classifies "q.svc.BatchGetItem: " e) as (e'' & He' & _ & Ha).
    rewrite He in He'. injection He' as <-.
    exists e'. split; [assumption|]. split.
    + unfold BatchGet.
      destruct (Z.ltb_spec 100 (Z.of_nat (length queries))); [lia|].
      rewrite Heq, Nat.eqb_refl. simpl negb. cbv iota.
      rewrite Ht, Hkeys, Hturn, Hthr. reflexivity.
    + simpl. rewrite Ha, Hthr. reflexivity.
Qed.

(** The loop over the items skips the nil ones. *)
Lemma putRequests_non_nil (items : list any) :
  putRequests av items = putRequests av (non_nil items).
Proof.
  induction items as [|item items IH]; [reflexivity|].
  destruct item; simpl; rewrite <- ?IH; reflexivity.
Qed.

(** X6. The request of [BatchWriteCreate] holds one [PutRequest] for each
    item that is not nil, in the order of the items, with the map the
    marshaler gives for it; and when an item that is not nil does not
    marshal, the items before it marshaling, [BatchWriteCreate] returns an
    internal error that names [attributevalue.MarshalMap] without a call to
    the client. *)
Theorem X6_put_requests_follow_the_items (items : list any) :
  (forall ms : list AttributeMap,
      Forall2 (fun item m => MarshalMap av item = inl m) (non_nil items) ms ->
      putRequests av items = inl (PutRequest <$> ms)) /\
  (forall (fuel : nat) (q : Queries) (tableName : string) (t : option Table) (w : world)
      (before after : list any) (item : any) (e : sdk_error),
      items = (before ++ item :: after)%list ->
      (length items <= 25)%nat ->
      tables q !! tableName = Some t ->
      Forall (fun a => is_nil a = true \/ exists m, MarshalMap av a = inl m) before ->
      is_nil item = false ->
      MarshalMap av item = inr e ->
      BatchWriteCreate av entropy fuel q tableName items w =
        (Val (Some (InternalError ("attributevalue.MarshalMap: " +:+ text e))), w)).
Proof.
  split.
  - intros ms Hms. rewrite putRequests_non_nil.
    assert (Hnn : Forall (fun a => is_nil a = false) (non_nil items)).
    { unfold non_nil. apply Forall_forall. intros a Ha.
      apply list_elem_of_In, List.filter_In in Ha as [_ Ha].
      destruct (is_nil a); [discriminate|reflexivity]. }
    revert Hnn. induction Hms as [|item m l ms' Hm _ IH]; intros Hnn; [reflexivity|].
    apply Forall_cons in Hnn as [Hitem Hnn].
    rewrite fmap_cons.
    destruct item; try discriminate Hitem; simpl; simpl in Hm;
      rewrite Hm, (IH Hnn); reflexivity.
  - intros fuel q tableName t w before after item e -> Hlen Ht Hbefore Hitem He.
    assert (Hput : putRequests av (before ++ item :: after)%list =
                   inr (InternalError ("attributevalue.MarshalMap: " +:+ text e))).
    { clear Hlen. induction Hbefore as [|a before [Ha|[m Ha]] _ IH].
      - destruct item; try discriminate Hitem; simpl; simpl in He; rewrite He;
          reflexivity.
      - destruct a; try discriminate Ha. simpl. exact IH.
      - destruct a; simpl; simpl in Ha; rewrite ?Ha, ?IH; try reflexivity; exact IH. }
    unfold BatchWriteCreate.
    destruct (Z.ltb_spec 25 (Z.of_nat (length (before ++ item :: after)%list))); [lia|].
    rewrite Ht, Hput. reflexivity.
Qed.

(** X7. A table that is not registered ends the three operations with
    [TableNotFoundError] without a call to the client, for every batch within
    the size limit of its operation (25 items, 25 deletes, 100 queries with
    as many reference objects).  A table registered
    with a nil pointer does the same for [BatchWriteDelete] and [BatchGet],
    which test the pointer; [BatchWriteCreate] tests the presence of the key
    only and dereferences the nil pointer once the items are marshaled. *)
Theorem X7_table_lookup (fuel : nat) (q : Queries) (tableName : string) (w : world)
    (items : list any) (deletes queries : list (option Query)) (refObjs : list any)
    (expr : Expression.t) :
  (length items <= 25)%nat -> (length deletes <= 25)%nat ->
  (length queries <= 100)%nat -> length queries = length refObjs ->
  (tables q !! tableName = None ->
   BatchWriteCreate av entropy fuel q tableName items w =
     (Val (Some (NewTableNotFoundError tableName)), w) /\
   BatchWriteDelete entropy fuel q tableName deletes w =
     (Val (Some (NewTableNotFoundError tableName)), w) /\
   BatchGet av entropy fuel q tableName queries refObjs expr w =
     (Val ([], Some (NewTableNotFoundError tableName)), w)) /\
  (tables q !! tableName = Some None ->
   BatchWriteDelete entropy fuel q tableName deletes w =
     (Val (Some (NewTableNotFoundError tableName)), w) /\
   BatchGet av entropy fuel q tableName queries refObjs expr w =
     (Val ([], Some (NewTableNotFoundError tableName)), w) /\
   forall wrs : list WriteRequest,
     putRequests av items = inl wrs ->
     BatchWriteCreate av entropy fuel q tableName items w = (Panic NilDereference, w)).
Proof.
  intros Hitems Hdeletes Hqueries Hrefs.
  assert (Hget : forall r : go (list any * option error) * world,
             (if 100 <? Z.of_nat (length queries)
              then (Val ([], Some (NewCollectionSizeExceededError
                                     (Z.of_nat (length queries)))), w)
              else if negb (length queries =? length refObjs)%nat
                   then (Val ([], Some NewReferenceObjectsCountError), w)
                   else r) = r).
  { intros r. destruct (Z.ltb_spec 100 (Z.of_nat (length queries))); [lia|].
    rewrite Hrefs, Nat.eqb_refl. reflexivity. }
  split; intros Ht.
  - unfold BatchWriteCreate, BatchWriteDelete, BatchGet. rewrite Hget, Ht.
    destruct (Z.ltb_spec 25 (Z.of_nat (length items))); [lia|].
    destruct (Z.ltb_spec 25 (Z.of_nat (length deletes))); [lia|].
    repeat split.
  - unfold BatchWriteCreate, BatchWriteDelete, BatchGet. rewrite Hget, Ht.
    destruct (Z.ltb_spec 25 (Z.of_nat (length items))); [lia|].
    destruct (Z.ltb_spec 25 (Z.of_nat (length deletes))); [lia|].
    repeat split. intros wrs ->. reflexivity.
Qed.

(** X8. While every output of the client reports unprocessed items without
    an error, [BatchWriteCreate] goes on without end: after any number of
    turns it is still running, it has made one call for each turn, and it
    has not called [ExponentialBackoff] nor slept. *)
Theorem X8_unprocessed_items_are_resent_without_backoff (fuel : nat) (q : Queries)
    (tableName : string) (t : Table) (items : list any) (wrs : list WriteRequest)
    (w : world) :
  (length items <= 25)%nat ->
  tables q !! tableName = Some (Some t) ->
  putRequests av items = inl wrs ->
  (forall n : nat, exists out,
     BatchWriteItem (svc q) n {| RequestItems := <[TableName t := wrs]> ∅ |} =
       (Some out, None) /\ UnprocessedItems out <> ∅) ->
  exists w' : world,
    BatchWriteCreate av entropy fuel q tableName items w = (Spin, w') /\
    calls w' = (calls w + fuel)%nat /\
    backoffs w' = backoffs w /\ slept w' = slept w.
Proof.
  intros Hlen Ht Hput Hbusy.
  exists (Nat.iter fuel called w). split.
  - unfold BatchWriteCreate.
    destruct (Z.ltb_spec 25 (Z.of_nat (length items))); [lia|].
    rewrite Ht, Hput. apply batchWriteLoop_spins. assumption.
  - apply iter_called.
Qed.

(** X9. When the client reports unprocessed items for [k] calls and none at
    the next, all without an error, [BatchWriteCreate] returns success after
    [k + 1] calls, each with the request built from all the items, and
    without a backoff: the unprocessed items an output reports are not what
    the next call sends. *)
Theorem X9_full_request_is_resent_until_done (k fuel : nat) (q : Queries)
    (tableName : string) (t : Table) (items : list any) (wrs : list WriteRequest)
    (w : world) (last : BatchWriteItemOutput) :
  (length items <= 25)%nat ->
  tables q !! tableName = Some (Some t) ->
  putRequests av items = inl wrs ->
  (forall i : nat, (i < k)%nat ->
     exists out,
       BatchWriteItem (svc q) (calls w + i)
         {| RequestItems := <[TableName t := wrs]> ∅ |} = (Some out, None) /\
       UnprocessedItems out <> ∅) ->
  BatchWriteItem (svc q) (calls w + k) {| RequestItems := <[TableName t := wrs]> ∅ |} =
    (Some last, None) ->
  UnprocessedItems last = ∅ ->
  (k < fuel)%nat ->
  exists w' : world,
    BatchWriteCreate av entropy fuel q tableName items w = (Val None, w') /\
    calls w' = (calls w + k + 1)%nat /\
    backoffs w' = backoffs w /\ slept w' = slept w.
Proof.
  intros Hlen Ht Hput Hbusy Hlast Hempty Hfuel.
  exists (Nat.iter (S k) called w). split.
  - unfold BatchWriteCreate.
    destruct (Z.ltb_spec 25 (Z.of_nat (length items))); [lia|].
    rewrite Ht, Hput.
    apply (batchWriteLoop_completes entropy k fuel q _ _ w last); assumption.
  - destruct (iter_called (S k) w) as (Hc & Hb & Hs).
    rewrite Hc. repeat split; [lia|assumption..].
Qed.

End BatchBehaviour.

Lemma X5_witness :
  let q := NewQueries (scriptedClient [(None, Some notFoundError)] []) testTables None in
  exists e',
    BatchWriteCreate plainMarshaler noEntropy 1 q "test-table" [testItem] world0 =
      (Val (Some (Errorf "q.batchWriteUtil: " e')), called world0) /\
    as_AwsError (Errorf "q.batchWriteUtil: " e') = Some false.
Proof.
  intros q.
  destruct (X5_other_errors_end_the_batch plainMarshaler noEntropy 0 q "test-table"
              testTable world0 notFoundError) as [Hwrite _]; [reflexivity..|].
  destruct (Hwrite [testItem] [PutRequest ∅] None) as (e' & _ & Hrun & Hno);
    [simpl; lia|reflexivity|reflexivity|].
  exists e'. split; assumption.
Defined.

Lemma X6_witness :
  let q := NewQueries (scriptedClient [] []) testTables None in
  putRequests pickyMarshaler [AnyNil; AnyInt 1; AnyNil; AnyInt 2] =
    inl [PutRequest ∅; PutRequest ∅] /\
  BatchWriteCreate pickyMarshaler noEntropy 1 q "test-table"
    [AnyInt 1; AnyNil; AnyString "x"; AnyInt 2] world0 =
    (Val (Some (InternalError "attributevalue.MarshalMap: not a struct")), world0).
Proof.
  intros q. split.
  - destruct (X6_put_requests_follow_the_items pickyMarshaler noEntropy
                [AnyNil; AnyInt 1; AnyNil; AnyInt 2]) as [H _].
    apply (H [∅; ∅]). repeat constructor.
  - destruct (X6_put_requests_follow_the_items pickyMarshaler noEntropy
                [AnyInt 1; AnyNil; AnyString "x"; AnyInt 2]) as [_ H].
    apply (H 1%nat q "test-table" (Some testTable) world0 [AnyInt 1; AnyNil] [AnyInt 2]
             (AnyString "x") {| exception := OtherException; text := "not a struct" |});
      try reflexivity.
    + simpl. lia.
    + constructor; [right; eexists; reflexivity|].
      constructor; [left; reflexivity|constructor].
Defined.

Lemma X7_witness :
  let q := NewQueries (scriptedClient [] []) {["nil-table" := None]} None in
  BatchWriteDelete noEntropy 1 q "nil-table" [] world0 =
    (Val (Some (NewTableNotFoundError "nil-table")), world0) /\
  BatchWriteCreate plainMarshaler noEntropy 1 q "nil-table" [testItem] world0 =
    (Panic NilDereference, world0) /\
  BatchWriteCreate plainMarshaler noEntropy 1 q "other" [testItem] world0 =
    (Val (Some (NewTableNotFoundError "other")), world0) /\
  BatchGet plainMarshaler noEntropy 1 q "other" (replicate 50 None)
    (replicate 50 testItem) NewExpression world0 =
    (Val ([], Some (NewTableNotFoundError "other")), world0).
Proof.
  intros q.
  destruct (X7_table_lookup plainMarshaler noEntropy 1 q "nil-table" world0 [testItem]
              [] [] [] NewExpression) as [_ Hnil]; [simpl; lia..|reflexivity|].
  destruct (X7_table_lookup plainMarshaler noEntropy 1 q "other" world0 [testItem]
              [] (replicate 50 None) (replicate 50 testItem) NewExpression)
    as [Hmiss _]; [simpl; lia..|reflexivity|].
  destruct Hnil as (Hdel & _ & Hcreate); [reflexivity|].
  destruct Hmiss as (Hcreate' & _ & Hget); [reflexivity|].
  split; [exact Hdel|]. split; [|split; [exact Hcreate'|exact Hget]].
  apply (Hcreate [PutRequest ∅]). reflexivity.
Defined.

Lemma X8_witness :
  let q := NewQueries busyClient testTables None in
  exists w' : world,
    BatchWriteCreate plainMarshaler noEntropy 1000 q "test-table" [testItem] world0 =
      (Spin, w') /\
    calls w' = 1000%nat /\ backoffs w' = 0%nat.
Proof.
  intros q.
  destruct (X8_unprocessed_items_are_resent_without_backoff plainMarshaler noEntropy 1000
              q "test-table" testTable [testItem] [PutRequest ∅] world0)
    as (w' & Hrun & Hc & Hb & _).
  - simpl. lia.
  - reflexivity.
  - reflexivity.
  - intros n. exists busyOutput. split; [reflexivity|].
    apply insert_non_empty.
  - exists w'. repeat split; assumption.
Defined.

Lemma X9_witness :
  let q := NewQueries (scriptedClient [(Some busyOutput, None)] []) testTables None in
  exists w' : world,
    BatchWriteCreate plainMarshaler noEntropy 5 q "test-table" [testItem] world0 =
      (Val None, w') /\
    calls w' = 2%nat /\ backoffs w' = 0%nat.
Proof.
  intros q.
  destruct (X9_full_request_is_resent_until_done plainMarshaler noEntropy 1 5 q
              "test-table" testTable [testItem] [PutRequest ∅] world0
              {| UnprocessedItems := ∅ |})
    as (w' & Hrun & Hc & Hb & _).
  - simpl. lia.
  - reflexivity.
  - reflexivity.
  - intros i Hi. assert (i = 0%nat) as -> by lia.
    exists busyOutput. split; [reflexivity|]. apply insert_non_empty.
  - reflexivity.
  - reflexivity.
  - lia.
  - exists w'. repeat split; assumption.
Defined.

(** ** BatchGet: responses and reference objects *)

Section BatchGetResponses.

Variable av : attributevalue.
Variable entropy : nat -> Z.

(** The loop over the responses, when each response has a reference object
    at its index and unmarshals into it. *)
Lemma unmarshalResponses_in_range (refObjs : list any) (responses : list AttributeMap)
    (i : nat) (items new : list any) :
  length new = length responses ->
  (forall (j : nat) (r : AttributeMap),
      responses !! j = Some r ->
      exists ref x, refObjs !! (i + j)%nat = Some ref /\
        UnmarshalMap av r ref = inl x /\ new !! j = Some x) ->
  unmarshalResponses av refObjs i responses items = Val (inl (items ++ new)%list).
Proof.
  revert i items new.
  induction responses as [|r responses IH]; intros i items new Hlen Hall.
  - destruct new; [|discriminate]. simpl. rewrite app_nil_r. reflexivity.
  - destruct new as [|x new]; [discriminate|].
    destruct (Hall 0%nat r eq_refl) as (ref & x' & Href & Hun & Hx).
    rewrite Nat.add_0_r in Href. simpl in Hx. injection Hx as <-.
    simpl. rewrite Href, Hun.
    rewrite (IH (S i) (items ++ [x]) new)%list.
    + rewrite <- app_assoc. reflexivity.
    + simpl in Hlen. lia.
    + intros j r' Hj. destruct (Hall (S j) r' Hj) as (ref' & x'' & Href' & Hun' & Hx').
      exists ref', x''. replace (S i + j)%nat with (i + S j)%nat by lia.
      repeat split; assumption.
Qed.

(** The loop over the responses, when there are more responses than
    reference objects from the index on and no response fails to unmarshal. *)
Lemma unmarshalResponses_out_of_range (refObjs : list any) (responses : list AttributeMap)
    (i : nat) (items : list any) :
  (forall r ref, exists x, UnmarshalMap av r ref = inl x) ->
  (i <= length refObjs < i + length responses)%nat ->
  unmarshalResponses av refObjs i responses items = Panic IndexOutOfRange.
Proof.
  intros Hok. revert i items.
  induction responses as [|r responses IH]; intros i items Hlen; simpl in *; [lia|].
  destruct (refObjs !! i) as [ref|] eqn:Href; [|reflexivity].
  destruct (Hok r ref) as [x ->].
  apply IH. apply lookup_lt_Some in Href. lia.
Qed.

(** X10. On a first output without an error and without unprocessed keys,
    [BatchGet] returns one item for each response of the table, in the order
    of the responses: response [j] unmarshaled into a copy of reference
    object [j].  When the output holds more responses for the table than
    there are reference objects (and each unmarshals), [BatchGet] does not
    return: the index of the reference object is out of range. *)
Theorem X10_results_follow_the_responses (fuel : nat) (q : Queries) (tableName : string)
    (t : Table) (queries : list (option Query)) (refObjs : list any)
    (expr : Expression.t) (keys : list AttributeMap) (w : world)
    (out : BatchGetItemOutput) (responses : list AttributeMap) :
  (length queries <= 100)%nat ->
  length queries = length refObjs ->
  tables q !! tableName = Some (Some t) ->
  getKeys queries t = Val keys ->
  BatchGetItem (svc q) (calls w)
    {| RequestKeys := <[TableName t := {| Keys := keys |}]> ∅ |} = (Some out, None) ->
  default [] (Responses out !! TableName t) = responses ->
  (forall got : list any,
      UnprocessedKeys out = ∅ ->
      length got = length responses ->
      (forall (j : nat) (r : AttributeMap),
          responses !! j = Some r ->
          exists ref x, refObjs !! j = Some ref /\
            UnmarshalMap av r ref = inl x /\ got !! j = Some x) ->
      BatchGet av entropy (S fuel) q tableName queries refObjs expr w =
        (Val (got, None), called w)) /\
  ((forall r ref, exists x, UnmarshalMap av r ref = inl x) ->
   (length refObjs < length responses)%nat ->
   BatchGet av entropy (S fuel) q tableName queries refObjs expr w =
     (Panic IndexOutOfRange, called w)).
Proof.
  intros Hlen Heq Ht Hkeys Hcall Hresp.
  assert (Hrun : BatchGet av entropy (S fuel) q tableName queries refObjs expr w =
                 match unmarshalResponses av refObjs 0 responses [] with
                 | Val (inl items') =>
                     if bool_decide (size (UnprocessedKeys out) = 0%nat)
                     then (Val (items', None), called w)
                     else batchGetLoop av entropy fuel q t refObjs
                            {| RequestKeys := <[TableName t := {| Keys := keys |}]> ∅ |}
                            (NewRetries (fc q)) items' (called w)
                 | Val (inr e) => (Val ([], Some e), called w)
                 | Panic p => (Panic p, called w)
                 | Spin => (Spin, called w)
                 end).
  { unfold BatchGet.
    destruct (Z.ltb_spec 100 (Z.of_nat (length queries))); [lia|].
    rewrite Heq, Nat.eqb_refl. simpl negb. cbv iota.
    rewrite Ht, Hkeys.
    rewrite (batchGetLoop_output entropy fuel q t refObjs _ _ [] w av out Hcall), Hresp.
    reflexivity. }
  split.
  - intros got Hempty Hgot Hall.
    rewrite Hrun, (unmarshalResponses_in_range refObjs responses 0 [] got Hgot Hall).
    rewrite Hempty, map_size_empty. reflexivity.
  - intros Hok Hmore.
    rewrite Hrun, unmarshalResponses_out_of_range by (assumption || simpl; lia).
    reflexivity.
Qed.

End BatchGetResponses.

Lemma X10_witness :
  let out := {| Responses := {["test-table" := [∅; ∅]]}; UnprocessedKeys := ∅ |} in
  let q := NewQueries (scriptedClient [] [(Some out, None)]) testTables None in
  let query := Some (CreateNewQueryObj (AnyString "1") AnyNil) in
  BatchGet plainMarshaler noEntropy 1 q "test-table" [query; query]
    [AnyInt 1; AnyInt 2] NewExpression world0 =
    (Val ([AnyInt 1; AnyInt 2], None), called world0) /\
  BatchGet plainMarshaler noEntropy 1 q "test-table" [query] [AnyInt 1]
    NewExpression world0 = (Panic IndexOutOfRange, called world0).
Proof.
  intros out q query. split.
  - destruct (X10_results_follow_the_responses plainMarshaler noEntropy 0 q "test-table"
                testTable [query; query] [AnyInt 1; AnyInt 2] NewExpression
                [{["id" := Some (AttributeValueMemberS "1")]};
                 {["id" := Some (AttributeValueMemberS "1")]}]
                world0 out [∅; ∅]) as [H _];
      [simpl; lia|reflexivity..|].
    apply H; [reflexivity|reflexivity|].
    intros [|[|j]] r Hr; try discriminate; injection Hr as <-;
      eexists _, _; repeat split; reflexivity.
  - destruct (X10_results_follow_the_responses plainMarshaler noEntropy 0 q "test-table"
                testTable [query] [AnyInt 1] NewExpression
                [{["id" := Some (AttributeValueMemberS "1")]}]
                world0 out [∅; ∅]) as [_ H];
      [simpl; lia|reflexivity..|].
    apply H; [|simpl; lia].
    intros r ref. eexists. reflexivity.
Defined.

(** ** Keys *)

(** X11. [createAV] gives distinct attribute values to distinct values of
    the types it knows, nil included: two values with the same attribute
    value, one that is not the nil interface of the last line, are the same
    value. *)
Theorem X11_createAV_injective (a b : any) :
  createAV a = createAV b -> createAV a <> None -> a = b.
Proof.
  destruct a, b; simpl; intros Heq Hsome;
    try discriminate; try reflexivity; try (exfalso; apply Hsome; reflexivity);
    try (injection Heq as ->; reflexivity).
  - injection Heq as Heq. apply (inj pretty) in Heq. congruence.
  - injection Heq as Heq. apply (inj (fmap pretty)) in Heq. congruence.
Qed.

Lemma X11_witness : AnyInt 42 = AnyInt 42.
Proof.
  apply (X11_createAV_injective (AnyInt 42) (AnyInt 42)); [reflexivity|discriminate].
Defined.

(** X12. The key [keyMaker] builds for a query and a table holds the
    attributes of the table's key and nothing else: without a sort key, the
    primary key alone with the attribute value of the primary value; with a
    sort key of another name, the two; and when the sort key has the name of
    the primary key, one entry, that holds the sort value. *)
Theorem X12_keyMaker_entries (q : Query) (t : Table) :
  exists keys : AttributeMap,
    keyMaker (Some q) (Some t) = Val keys /\
    (forall k : string,
        is_Some (keys !! k) -> k = PrimaryKeyName t \/ k = SortKeyName t) /\
    (SortKeyName t = "" ->
     keys = {[PrimaryKeyName t := createAV (PrimaryValue q)]}) /\
    (SortKeyName t <> "" ->
     keys !! SortKeyName t = Some (createAV (SortValue q)) /\
     (PrimaryKeyName t <> SortKeyName t ->
      keys !! PrimaryKeyName t = Some (createAV (PrimaryValue q)) /\
      size keys = 2%nat) /\
     (PrimaryKeyName t = SortKeyName t -> size keys = 1%nat)).
Proof.
  unfold keyMaker. case_bool_decide as Hsort; eexists; (split; [reflexivity|]).
  - split; [|split; [intros _; reflexivity|contradiction]].
    intros k [x Hk]. left.
    destruct (decide (k = PrimaryKeyName t)) as [|Hne]; [assumption|].
    rewrite lookup_insert_ne, lookup_empty in Hk by congruence. discriminate.
  - split; [|split; [contradiction|intros _]].
    + intros k [x Hk].
      destruct (decide (k = SortKeyName t)) as [|Hs]; [right; assumption|].
      destruct (decide (k = PrimaryKeyName t)) as [|Hp]; [left; assumption|].
      rewrite !lookup_insert_ne, lookup_empty in Hk by congruence. discriminate.
    + split; [apply lookup_insert_eq|]. split.
      * intros Hne. split.
        -- rewrite lookup_insert_ne by congruence. apply lookup_insert_eq.
        -- rewrite map_size_insert_None, map_size_insert_None, map_size_empty;
             [reflexivity|apply lookup_empty|].
           rewrite lookup_insert_ne by congruence. apply lookup_empty.
      * intros ->. rewrite insert_insert_eq, map_size_insert_None, map_size_empty;
          [reflexivity|apply lookup_empty].
Qed.

(** ** Transactions: members, attribution and retry guidance *)

Section TransactionMembers.

Variable av : attributevalue.

(** X13. [newTxWriteItem] returns [InvalidRequestTypeError] exactly for the
    request kinds other than C, U, D and CC, whatever else the member holds;
    and a member it builds is a Put for C, an Update for U, a Delete for D
    and a ConditionCheck for CC. *)
Theorem X13_member_dispatch (ti : TransactionItem) :
  (known_request (request ti) = false ->
   newTxWriteItem av ti = Val (inr NewInvalidRequestTypeError)) /\
  (forall e : error,
      newTxWriteItem av ti = Val (inr e) ->
      as_dynamo InvalidRequestTypeError e = negb (known_request (request ti))) /\
  (forall txItem : TransactWriteItem,
      newTxWriteItem av ti = Val (inl txItem) -> kind_of txItem = request ti).
Proof.
  unfold newTxWriteItem, known_request, GetRequest, marshalMap.
  destruct (String.eqb_spec (request ti) "C") as [HC|HC].
  { rewrite HC. simpl. split; [discriminate|]. split.
    - intros e. destruct (MarshalMap av (Item ti)); destruct (TxTable ti);
        intros H; try discriminate; injection H as <-; reflexivity.
    - intros txItem. destruct (MarshalMap av (Item ti)); destruct (TxTable ti);
        intros H; try discriminate; injection H as <-; reflexivity. }
  destruct (String.eqb_spec (request ti) "U") as [HU|HU].
  { rewrite HU. simpl. split; [discriminate|].
    destruct (TxTable ti); [|split; intros; discriminate].
    destruct (keyMaker (TxQuery ti) (Some t)); split; intros; try discriminate.
    injection H as <-. reflexivity. }
  destruct (String.eqb_spec (request ti) "D") as [HD|HD].
  { rewrite HD. simpl. split; [discriminate|].
    destruct (TxTable ti); [|split; intros; discriminate].
    destruct (keyMaker (TxQuery ti) (Some t)); split; intros; try discriminate.
    injection H as <-. reflexivity. }
  destruct (String.eqb_spec (request ti) "CC") as [HCC|HCC].
  { rewrite HCC. simpl. split; [discriminate|].
    destruct (TxTable ti); [|split; intros; discriminate].
    destruct (keyMaker (TxQuery ti) (Some t)); split; intros; try discriminate.
    injection H as <-. reflexivity. }
  simpl. split; [reflexivity|]. split.
  - intros e H. injection H as <-. reflexivity.
  - intros txItem H. discriminate.
Qed.

(** X14. [TxWrite] builds the request member by member, in order: the loop
    returns a list of members exactly when each member of the input is
    built, member [i] of the request from member [i] of the input, so that
    the request has as many members as the input. *)
Theorem X14_request_members_are_positional (items : list TransactionItem)
    (txItems : list TransactWriteItem) :
  txWriteItems av items = Val (inl txItems) <->
  Forall2 (fun ti txItem => newTxWriteItem av ti = Val (inl txItem)) items txItems.
Proof.
  split.
  - revert txItems. induction items as [|ti items IH]; intros txItems H.
    + injection H as <-. constructor.
    + simpl in H.
      destruct (newTxWriteItem av ti) as [[txItem|e]|p|] eqn:Hti; try discriminate.
      destruct (txWriteItems av items) as [[rest|e]|p|]; try discriminate.
      injection H as <-. constructor; [assumption|]. apply IH. reflexivity.
  - induction 1 as [|ti txItem items txItems Hti _ IH]; [reflexivity|].
    simpl. rewrite Hti, IH. reflexivity.
Qed.

(** The scan of the reasons only appends members of the input, each at most
    once and in order, and appends one only with one of the two flags set. *)
Lemma scanReasons_appends_members (items : list TransactionItem)
    (reasons : list CancellationReason) (i : nat) (s s' : scan) :
  scanReasons items i reasons s = Val s' ->
  exists l : list TransactionItem,
    failed s' = (failed s ++ l)%list /\
    l `sublist_of` drop i items /\
    (l <> [] -> check s' || throttled s' = true) /\
    (check s || throttled s = true -> check s' || throttled s' = true).
Proof.
  revert i s. induction reasons as [|r reasons IH]; intros i s Hscan.
  - injection Hscan as <-. exists []. rewrite app_nil_r.
    split; [reflexivity|]. split; [apply sublist_nil_l|].
    split; [contradiction|]. intros H; exact H.
  - cbn [scanReasons] in Hscan. destruct (Code r) as [code|]; [|discriminate].
    assert (Hskip : forall l, l `sublist_of` drop (S i) items ->
                              l `sublist_of` drop i items).
    { intros l Hl. destruct (items !! i) as [ti|] eqn:Hti.
      - rewrite (drop_S _ _ _ Hti). apply sublist_cons. assumption.
      - rewrite drop_ge in Hl by (apply lookup_ge_None in Hti; lia).
        rewrite drop_ge by (apply lookup_ge_None in Hti; lia). assumption. }
    destruct (String.eqb_spec code ConditionalCheckFailed) as [Hc|Hc].
    + destruct (items !! i) as [ti|] eqn:Hti; [|discriminate].
      rewrite Hc in Hscan.
      change (String.eqb ConditionalCheckFailed ThrottlingError) with false in Hscan.
      cbv iota in Hscan.
      destruct (IH _ _ Hscan) as (l & Hf & Hsub & _ & Hflag). simpl in Hf, Hflag.
      exists (ti :: l). rewrite Hf, <- app_assoc.
      split; [reflexivity|]. split.
      * rewrite (drop_S _ _ _ Hti). apply sublist_skip. assumption.
      * split; intros _; apply Hflag; reflexivity.
    + destruct (String.eqb_spec code ThrottlingError) as [Ht|Ht].
      * destruct (items !! i) as [ti|] eqn:Hti; [|discriminate].
        destruct (IH _ _ Hscan) as (l & Hf & Hsub & _ & Hflag). simpl in Hf, Hflag.
        exists (ti :: l). rewrite Hf, <- app_assoc.
        split; [reflexivity|]. split.
        -- rewrite (drop_S _ _ _ Hti). apply sublist_skip. assumption.
        -- split; intros _; apply Hflag; apply orb_true_r.
      * destruct (IH _ _ Hscan) as (l & Hf & Hsub & Hne & Hflag).
        exists l. split; [assumption|]. split; [apply Hskip; assumption|].
        split; assumption.
Qed.

(** X15. Whatever the client answers, the failed list [TxWrite] returns
    holds members of the input only, each at most once and in the order of
    the input; and a failed list that is not empty comes with
    [TxConditonCheckFailedError] or [TxThrottledError], never with another
    error or with success. *)
Theorem X15_failed_members_are_input_members (t : Transactions)
    (items failed : list TransactionItem) (requestToken : string)
    (err : option error) (w w' : world) :
  TxWrite av t items requestToken w = (Val (failed, err), w') ->
  failed `sublist_of` items /\
  (failed <> [] ->
   exists e, err = Some e /\
     (as_dynamo TxConditonCheckFailedError e || as_dynamo TxThrottledError e) = true).
Proof.
  unfold TxWrite. intros Hrun.
  assert (Hnil : forall e0 w0,
             (Val (@nil TransactionItem, e0), w0) = (Val (failed, err), w') ->
             failed `sublist_of` items /\
             (failed <> [] ->
              exists e, err = Some e /\
                (as_dynamo TxConditonCheckFailedError e
                 || as_dynamo TxThrottledError e) = true)).
  { intros e0 w0 H. injection H as <- _ _.
    split; [apply sublist_nil_l|contradiction]. }
  destruct (25 <? Z.of_nat (length items)); [eapply Hnil; eassumption|].
  destruct (txWriteItems av items) as [[txItems|e]|p|]; try discriminate;
    [|eapply Hnil; eassumption].
  destruct (snd (TransactWriteItems (txsvc t) (calls w) _)) as [sdk|];
    [|eapply Hnil; eassumption].
  destruct (exception sdk) as [| | | | |reasons| | |inner status|];
    try (eapply Hnil; eassumption).
  - destruct (scanReasons items 0 reasons _) as [s| |] eqn:Hscan; try discriminate.
    destruct (scanReasons_appends_members items reasons 0 _ s Hscan)
      as (l & Hf & Hsub & Hne & _).
    simpl in Hf. rewrite drop_0 in Hsub. subst l.
    destruct (check s) eqn:Hck; [|destruct (throttled s) eqn:Hth].
    + injection Hrun as <- <- _. split; [assumption|].
      intros _. eexists. split; reflexivity.
    + injection Hrun as <- <- _. split; [assumption|].
      intros _. eexists. split; reflexivity.
    + injection Hrun as <- <- _. split; [assumption|].
      intros Hfailed. apply Hne in Hfailed. discriminate.
  - destruct (negb inner); [eapply Hnil; eassumption|].
    destruct (status =? 400); [eapply Hnil; eassumption|].
    destruct (status =? 404); eapply Hnil; eassumption.
Qed.

End TransactionMembers.

Lemma X15_witness :
  [createItem "2"] `sublist_of`
    [createItem "0"; createItem "1"; createItem "2"; createItem "3"; createItem "4"].
Proof.
  pose (t := NewTransactions
               (scriptedTxClient
                  [(None, Some (canceled [reason "None"; reason "None";
                                          reason ConditionalCheckFailed;
                                          reason "None"; reason "None"]))]) None).
  destruct (X15_failed_members_are_input_members plainMarshaler t
              [createItem "0"; createItem "1"; createItem "2"; createItem "3";
               createItem "4"]
              [createItem "2"] "token" (Some (NewTxConditonCheckFailedError ""))
              world0 (called world0)) as [Hsub _].
  - vm_compute. reflexivity.
  - exact Hsub.
Defined.

(** X16. [TxWrite] makes one call to the client and never a second one.
    When the call returns no error, it returns an empty failed list and a nil
    error.  When the call returns an error (for a cancellation: with a code
    in every reason and no more reasons than members), it returns an error
    that is retryable exactly when the client reported a transaction
    conflict, or a cancellation with a throttled member and no failed
    condition check. *)
Theorem X16_one_call_and_retry_guidance (av : attributevalue) (t : Transactions)
    (items : list TransactionItem) (requestToken : string) (w : world)
    (txItems : list TransactWriteItem) (output : option unit) :
  (length items <= 25)%nat ->
  txWriteItems av items = Val (inl txItems) ->
  let txInput :=
    {| ClientRequestToken := if String.eqb requestToken "" then None else Some requestToken;
       TransactItems := txItems |} in
  (TransactWriteItems (txsvc t) (calls w) txInput = (output, None) ->
   TxWrite av t items requestToken w = (Val ([], None), called w)) /\
  (forall sdk : sdk_error,
      TransactWriteItems (txsvc t) (calls w) txInput = (output, Some sdk) ->
      (forall reasons, exception sdk = TransactionCanceledException reasons ->
         Forall (fun r => Code r <> None) reasons /\
         (length reasons <= length items)%nat) ->
      exists failed err,
        TxWrite av t items requestToken w = (Val (failed, Some err), called w) /\
        retryable (Some err) =
          match exception sdk with
          | TransactionConflictException => true
          | TransactionCanceledException reasons =>
              negb (existsb (has_code ConditionalCheckFailed) reasons)
              && existsb (has_code ThrottlingError) reasons
          | _ => false
          end).
Proof.
  intros Hlen Hbuild txInput. split.
  - intros Hcall. unfold TxWrite.
    destruct (Z.ltb_spec 25 (Z.of_nat (length items))); [lia|].
    rewrite Hbuild. fold txInput. rewrite Hcall. reflexivity.
  - intros sdk Hcall Hreasons.
    destruct (exception sdk) as [| | | | |reasons| | |inner status|] eqn:Hexc;
      try (eexists _, _; split;
           [unfold TxWrite;
            destruct (Z.ltb_spec 25 (Z.of_nat (length items))); [lia|];
            rewrite Hbuild; fold txInput; rewrite Hcall; simpl snd; cbv iota beta zeta;
            rewrite Hexc; reflexivity
           |reflexivity]).
    + destruct (Hreasons reasons eq_refl) as [Hcodes Hshort].
      destruct (TxWrite_cancellation av t items requestToken w txItems reasons output sdk
                  Hlen Hbuild Hcall Hexc Hcodes Hshort) as [m Hrun].
      eexists _, _. split; [exact Hrun|].
      destruct (existsb (has_code ConditionalCheckFailed) reasons); [reflexivity|].
      destruct (existsb (has_code ThrottlingError) reasons); reflexivity.
    + assert (Hrun : exists err,
                 TxWrite av t items requestToken w = (Val ([], Some err), called w) /\
                 retryable (Some err) = false).
      { unfold TxWrite.
        destruct (Z.ltb_spec 25 (Z.of_nat (length items))); [lia|].
        rewrite Hbuild. fold txInput. rewrite Hcall. simpl snd. cbv iota beta zeta.
        rewrite Hexc.
        destruct (negb inner); [eexists; split; reflexivity|].
        destruct (status =? 400); [eexists; split; reflexivity|].
        destruct (status =? 404); eexists; split; reflexivity. }
      destruct Hrun as (err & Hrun & Hno). exists [], err. split; assumption.
Qed.

Lemma X16_witness :
  let conflict := {| exception := TransactionConflictException; text := "" |} in
  let t := NewTransactions (scriptedTxClient [(None, Some conflict)]) None in
  exists failed err,
    TxWrite plainMarshaler t [createItem "a"] "" world0 =
      (Val (failed, Some err), called world0) /\
    retryable (Some err) = true.
Proof.
  intros conflict t.
  destruct (X16_one_call_and_retry_guidance plainMarshaler t [createItem "a"] ""
              world0 [Put ∅ None ∅ ∅ "test-table"] None) as [_ H];
    [simpl; lia|reflexivity|].
  destruct (H conflict) as (failed & err & Hrun & Hretry);
    [reflexivity|intros reasons Hr; discriminate Hr|].
  exists failed, err. split; assumption.
Defined.

(** ** The deprecated package v1: the caller's FailConfig and the failed list *)

Section V1Behaviour.

Variable av : attributevalue.
Variable FailConfig : Type.
Variable ExponentialBackoff : FailConfig -> FailConfig.
Variable MaxRetriesReached : FailConfig -> bool.
Variable Reset : FailConfig -> FailConfig.

Lemma v1_batchWriteLoop_fc (fuel : nat) (d : V1.DynamoDB) (input : BatchWriteItemInput)
    (fc fc' : FailConfig) (w w' : world) (o : go (option V1.error)) :
  V1.batchWriteLoop FailConfig ExponentialBackoff MaxRetriesReached Reset
    fuel d input fc w = (o, (w', fc')) ->
  fc' = match o with
        | Val None => Reset fc
        | _ => fc
        end.
Proof.
  revert w. induction fuel as [|fuel IH]; intros w Hrun.
  - injection Hrun as <- _ <-. reflexivity.
  - destruct (BatchWriteItem (V1.svc d) (calls w) input) as [result [e|]] eqn:Hcall.
    + rewrite (v1_batchWriteLoop_error FailConfig ExponentialBackoff MaxRetriesReached
                 Reset fuel d input fc w result e Hcall) in Hrun.
      destruct (throttling e); injection Hrun as <- _ <-; reflexivity.
    + destruct result as [out|].
      * rewrite (v1_batchWriteLoop_output FailConfig ExponentialBackoff MaxRetriesReached
                   Reset fuel d input fc w out Hcall) in Hrun.
        case_bool_decide.
        -- injection Hrun as <- _ <-. reflexivity.
        -- eapply IH; eassumption.
      * simpl in Hrun. unfold V1.batchWriteUtil in Hrun. rewrite Hcall in Hrun.
        injection Hrun as <- _ <-. reflexivity.
Qed.

(** X17. The v1 [BatchWriteCreate] never reaches [fc.ExponentialBackoff()]:
    whatever the client answers and however the operation ends, the
    [FailConfig] of the caller is the one passed in, reset when the
    operation returns success and untouched otherwise; and success is
    returned only after a call whose output has no unprocessed items. *)
Theorem X17_v1_batch_never_backs_off (fuel : nat) (d : V1.DynamoDB) (tableName : string)
    (fc fc' : FailConfig) (items : list any) (w w' : world) (o : go (option V1.error)) :
  V1.BatchWriteCreate av FailConfig ExponentialBackoff MaxRetriesReached Reset
    fuel d tableName fc items w = (o, (w', fc')) ->
  fc' = match o with
        | Val None => Reset fc
        | _ => fc
        end /\
  (o = Val None ->
   exists (input : BatchWriteItemInput) (out : BatchWriteItemOutput),
     (calls w < calls w')%nat /\
     BatchWriteItem (V1.svc d) (pred (calls w')) input = (Some out, None) /\
     UnprocessedItems out = ∅).
Proof.
  unfold V1.BatchWriteCreate. intros Hrun.
  destruct (25 <? Z.of_nat (length items)).
  { injection Hrun as <- _ <-. split; [reflexivity|discriminate]. }
  destruct (V1.tables d !! tableName) as [[t|]|];
    try (injection Hrun as <- _ <-; split; [reflexivity|discriminate]).
  destruct (V1.putRequests av items) as [wrs|e].
  2:{ injection Hrun as <- _ <-. split; [reflexivity|discriminate]. }
  split.
  - eapply v1_batchWriteLoop_fc; eassumption.
  - intros ->. eapply v1_batchWriteLoop_success; eassumption.
Qed.

(** The v1 scan of the reasons only appends members of the input, in order,
    and appends one only with one of the two flags set. *)
Lemma v1_scanReasons_appends_members (items : list TransactionItem)
    (reasons : list CancellationReason) (i : nat)
    (check throttled check' throttled' : bool) (failed failed' : list TransactionItem) :
  V1.scanReasons items i reasons (check, throttled, failed) =
    Val (check', throttled', failed') ->
  exists l : list TransactionItem,
    failed' = (failed ++ l)%list /\
    l `sublist_of` drop i items /\
    (l <> [] -> check' || throttled' = true) /\
    (check || throttled = true -> check' || throttled' = true).
Proof.
  revert i check throttled failed.
  induction reasons as [|r reasons IH]; intros i check throttled failed Hscan.
  - injection Hscan as <- <- <-. exists []. rewrite app_nil_r.
    split; [reflexivity|]. split; [apply sublist_nil_l|].
    split; [contradiction|]. intros H; exact H.
  - cbn [V1.scanReasons] in Hscan. destruct (Code r) as [code|]; [|discriminate].
    assert (Hskip : forall l, l `sublist_of` drop (S i) items ->
                              l `sublist_of` drop i items).
    { intros l Hl. destruct (items !! i) as [ti|] eqn:Hti.
      - rewrite (drop_S _ _ _ Hti). apply sublist_cons. assumption.
      - rewrite drop_ge in Hl by (apply lookup_ge_None in Hti; lia).
        rewrite drop_ge by (apply lookup_ge_None in Hti; lia). assumption. }
    destruct (String.eqb_spec code "ConditionalCheckFailed") as [Hc|Hc].
    + destruct (items !! i) as [ti|] eqn:Hti; [|discriminate].
      rewrite Hc in Hscan.
      change (String.eqb "ConditionalCheckFailed" "ThrottlingError") with false in Hscan.
      cbv iota in Hscan.
      destruct (IH _ _ _ _ Hscan) as (l & Hf & Hsub & _ & Hflag).
      exists (ti :: l). rewrite Hf, <- app_assoc.
      split; [reflexivity|]. split.
      * rewrite (drop_S _ _ _ Hti). apply sublist_skip. assumption.
      * split; intros _; apply Hflag; reflexivity.
    + destruct (String.eqb_spec code "ThrottlingError") as [Ht|Ht].
      * destruct (items !! i) as [ti|] eqn:Hti; [|discriminate].
        destruct (IH _ _ _ _ Hscan) as (l & Hf & Hsub & _ & Hflag).
        exists (ti :: l). rewrite Hf, <- app_assoc.
        split; [reflexivity|]. split.
        -- rewrite (drop_S _ _ _ Hti). apply sublist_skip. assumption.
        -- split; intros _; apply Hflag; apply orb_true_r.
      * destruct (IH _ _ _ _ Hscan) as (l & Hf & Hsub & Hne & Hflag).
        exists l. split; [assumption|]. split; [apply Hskip; assumption|].
        split; assumption.
Qed.

(** X18. Whatever the client answers, the failed list the v1 [TxWrite]
    returns holds members of the input only, each at most once and in the
    order of the input; and a failed list that is not empty comes with
    [ErrTxConditionCheckFailed] or [ErrTxThrottled]. *)
Theorem X18_v1_failed_members_are_input_members (d : V1.DynamoDB)
    (items failed : list TransactionItem) (requestToken : string)
    (err : option V1.error) (w w' : world) :
  V1.TxWrite av d items requestToken w = (Val (failed, err), w') ->
  failed `sublist_of` items /\
  (failed <> [] ->
   err = Some (V1.Sentinel V1.ErrTxConditionCheckFailed) \/
   err = Some (V1.Sentinel V1.ErrTxThrottled)).
Proof.
  unfold V1.TxWrite. intros Hrun.
  assert (Hnil : forall e0 w0,
             (Val (@nil TransactionItem, e0), w0) = (Val (failed, err), w') ->
             failed `sublist_of` items /\
             (failed <> [] ->
              err = Some (V1.Sentinel V1.ErrTxConditionCheckFailed) \/
              err = Some (V1.Sentinel V1.ErrTxThrottled))).
  { intros e0 w0 H. injection H as <- _ _.
    split; [apply sublist_nil_l|contradiction]. }
  destruct (25 <? Z.of_nat (length items)); [eapply Hnil; eassumption|].
  destruct (V1.txWriteItems av items) as [[txItems|e]|p|]; try discriminate;
    [|eapply Hnil; eassumption].
  destruct (snd (TransactWriteItems (V1.txsvc d) (calls w) _)) as [sdk|];
    [|eapply Hnil; eassumption].
  destruct (exception sdk) as [| | | | |reasons| | |inner status|];
    try (eapply Hnil; eassumption).
  destruct (V1.scanReasons items 0 reasons _) as [[[check throttled] l]| |] eqn:Hscan;
    try discriminate.
  destruct (v1_scanReasons_appends_members items reasons 0 _ _ _ _ _ _ Hscan)
    as (l' & Hf & Hsub & Hne & _).
  simpl in Hf. rewrite drop_0 in Hsub. subst l'.
  destruct check; [|destruct throttled].
  - injection Hrun as <- <- _. split; [assumption|]. intros _. left. reflexivity.
  - injection Hrun as <- <- _. split; [assumption|]. intros _. right. reflexivity.
  - injection Hrun as <- <- _. split; [assumption|].
    intros Hfailed. apply Hne in Hfailed. discriminate.
Qed.

End V1Behaviour.

Lemma X17_witness :
  let d := {| V1.svc := scriptedClient [(Some busyOutput, None)] [];
              V1.txsvc := scriptedTxClient []; V1.tables := testTables |} in
  exists (input : BatchWriteItemInput) (out : BatchWriteItemOutput),
    BatchWriteItem (V1.svc d) 1 input = (Some out, None) /\ UnprocessedItems out = ∅.
Proof.
  intros d.
  destruct (X17_v1_batch_never_backs_off plainMarshaler nat S (fun _ => false)
              (fun _ => 0%nat) 5 d "test-table" 7%nat 0%nat [testItem] world0
              {| calls := 2; backoffs := 0; slept := [] |} (Val None)) as [_ H].
  - vm_compute. reflexivity.
  - destruct (H eq_refl) as (input & out & _ & Hlast & Hempty).
    exists input, out. split; assumption.
Defined.

Lemma X18_witness :
  [createItem "a"; createItem "b"] `sublist_of` [createItem "a"; createItem "b"].
Proof.
  pose (d := {| V1.svc := scriptedClient [] [];
                V1.txsvc := scriptedTxClient
                              [(None, Some (canceled [reason ConditionalCheckFailed;
                                                      reason ThrottlingError]))];
                V1.tables := testTables |}).
  destruct (X18_v1_failed_members_are_input_members plainMarshaler d
              [createItem "a"; createItem "b"] [createItem "a"; createItem "b"] ""
              (Some (V1.Sentinel V1.ErrTxConditionCheckFailed)) world0 (called world0))
    as [Hsub _].
  - vm_compute. reflexivity.
  - exact Hsub.
Defined.

(** ** The operations on one item *)

Section ItemOperations.

Variable av : attributevalue.
Variable isvc : DynamoDBItemClientAPI.

(** [keyMaker] returns a key when neither the query nor the table is nil. *)
Lemma keyMaker_returns (query : Query) (t : Table) :
  exists key : AttributeMap, keyMaker (Some query) (Some t) = Val key.
Proof.
  unfold keyMaker. case_bool_decide; eexists; reflexivity.
Qed.

(** X19. [CreateItem] does not classify the errors of the client: whatever
    the error of [PutItem], a throttling included, it returns an internal
    error that is not retryable and keeps the text only.  [UpdateItem] and
    [DeleteItem] classify the error with [handleErr]: the error they return
    is retryable exactly when the client was throttled. *)
Theorem X19_item_errors (q : Queries) (tableName : string) (t : Table) (item : any)
    (m : AttributeMap) (query : Query) (expr : Expression.t) (w : world)
    (e : sdk_error) :
  tables q !! tableName = Some (Some t) ->
  MarshalMap av item = inl m ->
  (forall n input, snd (PutItem isvc n input) = Some e) ->
  (forall n input, snd (UpdateItem isvc n input) = Some e) ->
  (forall n input, snd (DeleteItem isvc n input) = Some e) ->
  Item.CreateItem av isvc q item tableName w =
    (Val (Some (InternalError ("q.svc.PutItem: " +:+ text e))), called w) /\
  (exists err,
      Item.UpdateItem isvc q (Some query) tableName expr w = (Val (Some err), called w) /\
      retryable (Some err) = throttling e) /\
  (exists err,
      Item.DeleteItem isvc q (Some query) tableName w = (Val (Some err), called w) /\
      retryable (Some err) = throttling e).
Proof.
  intros Ht Hm Hput Hupdate Hdelete.
  destruct (handleErr_classifies "q.svc.UpdateItem: " e) as (eu & Heu & Htu & Hau).
  destruct (handleErr_classifies "q.svc.DeleteItem: " e) as (ed & Hed & Htd & Had).
  split; [|split].
  - unfold Item.CreateItem. rewrite Ht, Hm, Hput. reflexivity.
  - exists eu. unfold Item.UpdateItem. rewrite Ht. simpl keyMaker.
    case_bool_decide; rewrite Hupdate, Heu; (split; [reflexivity|]);
      unfold retryable; rewrite Hau; reflexivity.
  - exists ed. unfold Item.DeleteItem. rewrite Ht. simpl keyMaker.
    case_bool_decide; rewrite Hdelete, Hed; (split; [reflexivity|]);
      unfold retryable; rewrite Had; reflexivity.
Qed.

(** X20. The condition expression [UpdateItem] sends is the last one set
    among the condition, the filter, the key condition and the projection of
    the expression, in that order: a projection, when there is one, replaces
    the condition.  The update expression, the names, the values and the key
    are sent as given, and the operation returns nil when the call returns no
    error. *)
Theorem X20_update_condition_is_the_last_set (q : Queries) (tableName : string)
    (t : Table) (query : Query) (expr : Expression.t) (w : world) :
  tables q !! tableName = Some (Some t) ->
  exists (key : AttributeMap) (input : UpdateItemInput),
    keyMaker (Some query) (Some t) = Val key /\
    UpdateItem_ConditionExpression input =
      last_set [Expression.Condition expr; Expression.Filter expr;
                Expression.KeyCondition expr; Expression.Projection expr] /\
    UpdateItem_UpdateExpression input = Expression.Update expr /\
    UpdateItem_ExpressionAttributeNames input = Expression.Names expr /\
    UpdateItem_ExpressionAttributeValues input = Expression.Values expr /\
    UpdateItem_Key input = key /\ UpdateItem_TableName input = TableName t /\
    (snd (UpdateItem isvc (calls w) input) = None ->
     Item.UpdateItem isvc q (Some query) tableName expr w = (Val None, called w)).
Proof.
  intros Ht.
  destruct (keyMaker_returns query t) as (key & Hkey).
  exists key, (Item.updateItemInput key t expr).
  split; [assumption|].
  split.
  { unfold Item.updateItemInput, last_set.
    destruct (Expression.Condition expr), (Expression.Filter expr),
      (Expression.KeyCondition expr), (Expression.Projection expr); reflexivity. }
  repeat split;
    try (unfold Item.updateItemInput;
         destruct (Expression.Condition expr), (Expression.Filter expr),
           (Expression.KeyCondition expr), (Expression.Projection expr); reflexivity).
  intros Hcall. unfold Item.UpdateItem. rewrite Ht, Hkey, Hcall. reflexivity.
Qed.

(** X21. The operations on one item test the table before anything else: a
    table that is not registered gives [TableNotFoundError] without a call to
    the client.  They do not test the query: with a nil query, [GetItem],
    [UpdateItem] and [DeleteItem] dereference it in [keyMaker] and panic,
    without a call to the client. *)
Theorem X21_item_edge_cases (q : Queries) (tableName : string) (item itemPtr : any)
    (query : option Query) (expr : Expression.t) (w : world) :
  (tables q !! tableName = None ->
   Item.CreateItem av isvc q item tableName w =
     (Val (Some (NewTableNotFoundError tableName)), w) /\
   Item.GetItem av isvc q query tableName itemPtr expr w =
     (Val (itemPtr, Some (NewTableNotFoundError tableName)), w) /\
   Item.UpdateItem isvc q query tableName expr w =
     (Val (Some (NewTableNotFoundError tableName)), w) /\
   Item.DeleteItem isvc q query tableName w =
     (Val (Some (NewTableNotFoundError tableName)), w)) /\
  (forall t : Table,
      tables q !! tableName = Some (Some t) -> query = None ->
      Item.GetItem av isvc q query tableName itemPtr expr w = (Panic NilDereference, w) /\
      Item.UpdateItem isvc q query tableName expr w = (Panic NilDereference, w) /\
      Item.DeleteItem isvc q query tableName w = (Panic NilDereference, w)).
Proof.
  split.
  - intros Ht. unfold Item.CreateItem, Item.GetItem, Item.UpdateItem, Item.DeleteItem.
    rewrite Ht. repeat split.
  - intros t Ht ->. unfold Item.GetItem, Item.UpdateItem, Item.DeleteItem.
    rewrite Ht. repeat split.
Qed.

(** X22. [CreateItem] addresses its request to the name the table is
    registered under, [UpdateItem] and [DeleteItem] address theirs to the
    [TableName] of the registered table.  With a client that serves that
    table only, the update and the delete succeed, and the create succeeds
    exactly when the table is registered under its own name; otherwise it
    returns the client's error as an internal error. *)
Theorem X22_create_addresses_the_map_key (q : Queries) (tableName : string)
    (t : Table) (item : any) (m : AttributeMap) (query : Query)
    (expr : Expression.t) (w : world) (e : sdk_error) :
  tables q !! tableName = Some (Some t) ->
  MarshalMap av item = inl m ->
  serves (TableName t) e isvc ->
  Item.CreateItem av isvc q item tableName w =
    (Val (if String.eqb tableName (TableName t) then None
          else Some (InternalError ("q.svc.PutItem: " +:+ text e))), called w) /\
  Item.UpdateItem isvc q (Some query) tableName expr w = (Val None, called w) /\
  Item.DeleteItem isvc q (Some query) tableName w = (Val None, called w).
Proof.
  intros Ht Hm (Hput & Hupdate & Hdelete).
  destruct (keyMaker_returns query t) as (key & Hkey).
  split; [|split].
  - unfold Item.CreateItem. rewrite Ht, Hm, Hput. simpl PutItem_TableName.
    destruct (String.eqb tableName (TableName t)); reflexivity.
  - unfold Item.UpdateItem. rewrite Ht, Hkey, Hupdate.
    replace (UpdateItem_TableName (Item.updateItemInput key t expr)) with (TableName t).
    + rewrite String.eqb_refl. reflexivity.
    + unfold Item.updateItemInput.
      destruct (Expression.Condition expr), (Expression.Filter expr),
        (Expression.KeyCondition expr), (Expression.Projection expr); reflexivity.
  - unfold Item.DeleteItem. rewrite Ht, Hkey, Hdelete. simpl DeleteItem_TableName.
    rewrite String.eqb_refl. reflexivity.
Qed.

(** X23. [GetItem] makes one call, for the key of the query in the
    registered table, and sends the attribute names only together with a
    projection.  On an error of the client the item pointer is left as it was
    and the error is classified by [handleErr], retryable exactly when the
    client was throttled; a nil output with a nil error is dereferenced, which
    panics; otherwise the item is what [UnmarshalMap] makes of the output, or
    its error as an internal error with the item pointer left as it was. *)
Theorem X23_get_item (q : Queries) (tableName : string) (t : Table) (query : Query)
    (itemPtr : any) (expr : Expression.t) (w : world) :
  tables q !! tableName = Some (Some t) ->
  exists (key : AttributeMap) (input : GetItemInput),
    keyMaker (Some query) (Some t) = Val key /\
    GetItem_TableName input = TableName t /\ GetItem_Key input = key /\
    GetItem_ProjectionExpression input = Expression.Projection expr /\
    GetItem_ExpressionAttributeNames input =
      match Expression.Projection expr with
      | Some _ => Some (Expression.Names expr)
      | None => None
      end /\
    (forall (ans : option GetItemOutput) (e : sdk_error),
        GetItem isvc (calls w) input = (ans, Some e) ->
        exists err,
          Item.GetItem av isvc q (Some query) tableName itemPtr expr w =
            (Val (itemPtr, Some err), called w) /\
          retryable (Some err) = throttling e) /\
    (GetItem isvc (calls w) input = (None, None) ->
     Item.GetItem av isvc q (Some query) tableName itemPtr expr w =
       (Panic NilDereference, called w)) /\
    (forall out : GetItemOutput,
        GetItem isvc (calls w) input = (Some out, None) ->
        Item.GetItem av isvc q (Some query) tableName itemPtr expr w =
          (match UnmarshalMap av (GetItem_Item out) itemPtr with
           | inl item => Val (item, None)
           | inr e =>
               Val (itemPtr,
                    Some (InternalError ("attributevalue.UnmarshalMap: " +:+ text e)))
           end, called w)).
Proof.
  intros Ht.
  destruct (keyMaker_returns query t) as (key & Hkey).
  unfold Item.GetItem. rewrite Ht, Hkey. cbv zeta.
  exists key.
  exists (match Expression.Projection expr with
          | Some projection =>
              {| GetItem_TableName := TableName t; GetItem_Key := key;
                 GetItem_ExpressionAttributeNames := Some (Expression.Names expr);
                 GetItem_ProjectionExpression := Some projection |}
          | None =>
              {| GetItem_TableName := TableName t; GetItem_Key := key;
                 GetItem_ExpressionAttributeNames := None;
                 GetItem_ProjectionExpression := None |}
          end).
  split; [reflexivity|].
  split; [destruct (Expression.Projection expr); reflexivity|].
  split; [destruct (Expression.Projection expr); reflexivity|].
  split; [destruct (Expression.Projection expr); reflexivity|].
  split; [destruct (Expression.Projection expr); reflexivity|].
  split; [|split].
  - intros ans e Hcall. rewrite Hcall.
    destruct (handleErr_classifies "q.svc.GetItem: " e) as (err & Herr & _ & Haws).
    exists err. rewrite Herr. split; [destruct ans; reflexivity|].
    unfold retryable. rewrite Haws. reflexivity.
  - intros Hcall. rewrite Hcall. reflexivity.
  - intros out Hcall. rewrite Hcall.
    destruct (UnmarshalMap av (GetItem_Item out) itemPtr); reflexivity.
Qed.

End ItemOperations.

Lemma X19_witness :
  let q := NewQueries (scriptedClient [] []) testTables None in
  Item.CreateItem plainMarshaler (failingItemClient throttledError) q testItem
    "test-table" world0 =
    (Val (Some (InternalError "q.svc.PutItem: ProvisionedThroughputExceededException")),
     called world0) /\
  exists err,
    Item.DeleteItem (failingItemClient throttledError) q
      (Some (CreateNewQueryObj (AnyString "1") AnyNil)) "test-table" world0 =
      (Val (Some err), called world0) /\
    retryable (Some err) = true.
Proof.
  intros q.
  destruct (X19_item_errors plainMarshaler (failingItemClient throttledError) q
              "test-table" testTable testItem ∅
              (CreateNewQueryObj (AnyString "1") AnyNil) NewExpression world0
              throttledError) as (Hcreate & _ & Hdelete); try reflexivity.
  split; [exact Hcreate|exact Hdelete].
Defined.

Lemma X20_witness :
  let expr :=
    {| Expression.Condition := Some "#0 >= :0"; Expression.Filter := None;
       Expression.KeyCondition := None; Expression.Names := ∅;
       Expression.Projection := Some "#1"; Expression.Update := Some "SET #0 = :1";
       Expression.Values := ∅ |} in
  exists input : UpdateItemInput,
    UpdateItem_ConditionExpression input = Some "#1" /\
    UpdateItem_UpdateExpression input = Some "SET #0 = :1".
Proof.
  intros expr.
  destruct (X20_update_condition_is_the_last_set (failingItemClient throttledError)
              (NewQueries (scriptedClient [] []) testTables None) "test-table" testTable
              (CreateNewQueryObj (AnyString "1") AnyNil) expr world0)
    as (key & input & _ & Hcond & Hupd & _); [reflexivity|].
  exists input. split; assumption.
Defined.

Lemma X21_witness :
  let q := NewQueries (scriptedClient [] []) testTables None in
  Item.GetItem plainMarshaler (failingItemClient throttledError) q None "test-table"
    testItem NewExpression world0 = (Panic NilDereference, world0) /\
  Item.DeleteItem (failingItemClient throttledError) q None "missing" world0 =
    (Val (Some (NewTableNotFoundError "missing")), world0).
Proof.
  intros q.
  destruct (X21_item_edge_cases plainMarshaler (failingItemClient throttledError) q
              "test-table" testItem testItem None NewExpression world0) as [_ Hnil].
  destruct (X21_item_edge_cases plainMarshaler (failingItemClient throttledError) q
              "missing" testItem testItem None NewExpression world0) as [Hmiss _].
  destruct (Hnil testTable) as (Hget & _); [reflexivity..|].
  destruct Hmiss as (_ & _ & _ & Hdel); [reflexivity|].
  split; assumption.
Defined.

Lemma X22_witness :
  let q := NewQueries (scriptedClient [] []) {["alias" := Some testTable]} None in
  let c := tableClient "test-table" ∅ notFoundError in
  Item.CreateItem plainMarshaler c q testItem "alias" world0 =
    (Val (Some (InternalError "q.svc.PutItem: ResourceNotFoundException: no such table")),
     called world0) /\
  Item.DeleteItem c q (Some (CreateNewQueryObj (AnyString "1") AnyNil)) "alias" world0 =
    (Val None, called world0).
Proof.
  intros q c.
  destruct (X22_create_addresses_the_map_key plainMarshaler c q "alias" testTable
              testItem ∅ (CreateNewQueryObj (AnyString "1") AnyNil) NewExpression
              world0 notFoundError) as (Hcreate & _ & Hdelete);
    [reflexivity|reflexivity| |].
  { repeat split; intros n input; unfold c, tableClient;
      cbn [PutItem UpdateItem DeleteItem];
      change (TableName testTable) with "test-table";
      destruct (String.eqb _ "test-table"); reflexivity. }
  split; [exact Hcreate|exact Hdelete].
Defined.

Lemma X23_witness :
  let q := NewQueries (scriptedClient [] []) testTables None in
  let c := tableClient "test-table" {["id" := Some (AttributeValueMemberS "1")]}
             notFoundError in
  Item.GetItem plainMarshaler c q (Some (CreateNewQueryObj (AnyString "1") AnyNil))
    "test-table" testItem NewExpression world0 = (Val (testItem, None), called world0).
Proof.
  intros q c.
  destruct (X23_get_item plainMarshaler c q "test-table" testTable
              (CreateNewQueryObj (AnyString "1") AnyNil) testItem NewExpression world0)
    as (key & input & _ & Hname & _ & _ & _ & _ & _ & Hout); [reflexivity|].
  apply (Hout {| GetItem_Item := {["id" := Some (AttributeValueMemberS "1")]} |}).
  unfold c. simpl. rewrite Hname. reflexivity.
Defined.
